(** * The inference HTTP client ([inference_sdk/http/client.py])

    A shallow embedding of [InferenceHTTPClient]: the session state of the
    client, the registry operations, the error translator [wrap_errors], the
    scoped overrides and the two inference pipelines, followed by the
    properties of the client that the specification states. *)

From Stdlib Require Import ZArith QArith String Ascii List Lia.
From Equations Require Import Equations.
From stdpp Require Import base option list strings gmap.

Open Scope string_scope.
Open Scope list_scope.
Set Warnings "-register-all".

(** ** Values exchanged with the backend *)

(** A decoded JSON document, as [response.json()] returns it.  Numbers are
    rationals: rounding of Python floats is not modelled.  [JVisual] is not
    JSON: it is the decoded visualisation object that the client stores in a
    prediction in place of the raw or base64 image. *)
Inductive Json : Type :=
| JNull
| JBool (b : bool)
| JNum (q : Q)
| JStr (s : string)
| JArr (items : list Json)
| JObj (fields : list (string * Json))
| JVisual (image : string).

(** A Python [dict] with string keys, in insertion order. *)
Abbreviation dict := (list (string * Json)).

Fixpoint dict_get (key : string) (d : dict) : option Json :=
  match d with
  | [] => None
  | (k, v) :: d' => if String.eqb k key then Some v else dict_get key d'
  end.

(** [d[key] = v] *)
Fixpoint dict_set (key : string) (v : Json) (d : dict) : dict :=
  match d with
  | [] => [(key, v)]
  | (k, v0) :: d' =>
      if String.eqb k key then (k, v) :: d' else (k, v0) :: dict_set key v d'
  end.

(** [d.update(other)] *)
Definition dict_update (d other : dict) : dict :=
  fold_left (fun acc kv => dict_set (fst kv) (snd kv) acc) other d.

Fixpoint lower (s : string) : string :=
  match s with
  | EmptyString => EmptyString
  | String c s' =>
      let n := nat_of_ascii c in
      String (if (65 <=? n)%nat && (n <=? 90)%nat then ascii_of_nat (n + 32) else c)
             (lower s')
  end.

(** [sub in s] on Python strings. *)
Definition contains (sub s : string) : bool :=
  match String.index 0 sub s with
  | Some _ => true
  | None => false
  end.

(** [s.split(sep)] for a one-character separator. *)
Fixpoint split (sep : ascii) (s : string) : list string :=
  match s with
  | EmptyString => [EmptyString]
  | String c s' =>
      if Ascii.eqb c sep then EmptyString :: split sep s'
      else match split sep s' with
           | chunk :: rest => String c chunk :: rest
           | [] => [String c EmptyString]
           end
  end.

(** A [requests.Response].  [headers] is a case-insensitive dictionary: it is
    keyed by the lower-cased header name.  [json] is the value of
    [response.json()], [None] when decoding the body raises. *)
Record Response : Type := {
  status_code : Z;
  headers : gmap string string;
  text : string;
  content : string;
  json : option Json;
}.

(** [response.headers.get(name, default)] *)
Definition headers_get (r : Response) (name default : string) : string :=
  match headers r !! lower name with
  | Some v => v
  | None => default
  end.

Inductive RequestMethod : Type := GET | POST.

Record Request : Type := {
  method : RequestMethod;
  url : string;
  request_headers : dict;
  params : option dict;
  json_payload : option dict;
  data : option string;
}.

(** ** Exceptions *)

(** The exceptions the client sees or raises.  [HTTPError] is
    [requests.HTTPError] and [ConnectionError] the built-in one; the others
    up to [WrongClientModeError] are those of [inference_sdk.http.errors];
    [OtherError] stands for every other Python exception, by class name. *)
Inductive Exn : Type :=
| HTTPError (description : string) (response : Response)
| ConnectionError (description : string)
| HTTPCallErrorError (description : string) (status : Z) (api_message : Json)
| HTTPClientError (description : string)
| InvalidModelIdentifier (description : string)
| InvalidParameterError (description : string)
| ModelNotInitializedError (description : string)
| ModelNotSelectedError (description : string)
| ModelTaskTypeNotSupportedError (description : string)
| WrongClientModeError (description : string)
| OtherError (class_name : string).

Inductive Outcome (A : Type) : Type :=
| Ok (a : A)
| Raise (e : Exn).
Arguments Ok {A} a.
Arguments Raise {A} e.

#[global] Instance Outcome_ret : MRet Outcome := fun A a => Ok a.
#[global] Instance Outcome_bind : MBind Outcome := fun A B f m =>
  match m with
  | Ok a => f a
  | Raise e => Raise e
  end.

(** A loop that appends [f x] for every [x], stopping at the first raise. *)
Fixpoint for_each {A B : Type} (f : A -> Outcome B) (l : list A) : Outcome (list B) :=
  match l with
  | [] => Ok []
  | x :: l' => y ← f x; ys ← for_each f l'; mret (y :: ys)
  end.

(** What the transport gives back for one request: a response, whatever its
    status, or an exception raised by the transport itself. *)
Inductive NetOutcome : Type :=
| Replied (r : Response)
| Failed (e : Exn).

(** ** Entities

    The types of [inference_sdk/http/entities.py], which is outside
    [client.py], with the fields and values that [client.py] uses. *)

Inductive HTTPClientMode : Type := V0 | V1.

Inductive VisualisationResponseFormat : Type := BASE64 | NUMPY | PILLOW.

Record InferenceConfiguration : Type := {
  max_batch_size : nat;
  max_concurent_requests : nat;
  client_downsizing_disabled : bool;
  default_max_input_size : Z;
  output_visualisation_format : VisualisationResponseFormat;
  image_extensions_for_directory_scan : list string;
}.

Record ModelDescription : Type := {
  model_id : string;
  task_type : string;
  input_height : option Z;
  input_width : option Z;
}.

Record RegisteredModels : Type := { models : list ModelDescription }.

(** [ImagesReference]: a local path, a URL, an array, an image object or a
    base64 string; the client only hands it to the loader. *)
Inductive ImagesReference : Type :=
| LocalPath (path : string)
| RemoteURL (address : string)
| InMemoryArray (pixels : list (list Z))
| DecodedImage (pixels : list (list Z))
| Base64String (encoded : string).

(** [Union[ImagesReference, List[ImagesReference]]] *)
Inductive InferenceInput : Type :=
| Single (image : ImagesReference)
| Many (images : list ImagesReference).

(** An encoded image together with its scaling factor. *)
Abbreviation EncodedInput := (string * Q)%type.

(** [Union[dict, List[dict]]] *)
Inductive InferenceResult : Type :=
| Bare (r : Json)
| Seq (rs : list Json).

Inductive ImagePlacement : Type := DATA | JSON.

(** ** Module-level functions of [client.py] *)

Definition _determine_client_downsizing_parameters
    (client_downsizing_disabled : bool)
    (model_description : option ModelDescription)
    (default_max_input_size : Z) : option Z * option Z :=
  if client_downsizing_disabled then (None, None)
  else match model_description with
       | None => (Some default_max_input_size, Some default_max_input_size)
       | Some d =>
           match input_height d, input_width d with
           | Some h, Some w => (Some h, Some w)
           | _, _ => (Some default_max_input_size, Some default_max_input_size)
           end
       end.

Definition _determine_client_mode (api_url : string) : HTTPClientMode :=
  if contains "roboflow.com" api_url then V0 else V1.

Definition _ensure_model_is_selected (model_id : option string) : Outcome unit :=
  match model_id with
  | None => Raise (ModelNotSelectedError "No model was selected to be used.")
  | Some _ => Ok tt
  end.

(** [response.raise_for_status()] of the requests library: statuses 400 to
    599 raise [HTTPError], which carries the response. *)
Definition raise_for_status (describe : Response -> string) (r : Response) : Outcome unit :=
  if (400 <=? status_code r)%Z && (status_code r <? 600)%Z
  then Raise (HTTPError (describe r) r)
  else Ok tt.

(** ** Helpers of [inference_sdk.http.utils] *)

(** Modelled from the spec: [unwrap_single_element_list] of
    [utils/iterables.py] is missing; at the end of the call chain a
    one-element sequence is unwrapped into a bare value, and any other
    sequence is returned as it is. *)
Definition unwrap_single_element_list (sequence : list Json) : InferenceResult :=
  match sequence with
  | [r] => Bare r
  | _ => Seq sequence
  end.

(** Modelled from the spec: the batching of [utils/request_building.py] is
    missing; the input list is sliced into consecutive groups no larger than
    the ceiling [B], in original order, the last group possibly smaller.
    The spec gives no meaning to a ceiling of 0; no slicing is done then. *)
Equations? slice_groups {A : Type} (B : nat) (l : list A) : list (list A)
    by wf (length l) lt :=
  slice_groups B [] := [];
  slice_groups 0 (x :: l) := [x :: l];
  slice_groups (S b) (x :: l) := (x :: take b l) :: slice_groups (S b) (drop b l).
Proof. rewrite length_drop. simpl. lia. Defined.

(** Modelled from the spec: [RequestData] of [utils/request_building.py] is
    missing; a request package is the target URL, the headers, the query
    parameters or the JSON payload, the slice of encoded inputs assigned to
    it and the scaling factors of these inputs, aligned by position. *)
Record RequestData : Type := {
  rd_url : string;
  rd_headers : dict;
  rd_parameters : option dict;
  rd_payload : option dict;
  rd_placement : ImagePlacement;
  rd_inputs : list EncodedInput;
  image_scaling_factors : list Q;
}.

(** Modelled from the spec: [prepare_requests_data] of
    [utils/request_building.py] is missing; each package copies the shared
    headers, parameters and payload and attaches only its slice of the
    images and the corresponding slice of the scaling factors. *)
Definition prepare_requests_data (url : string)
    (encoded_inference_inputs : list EncodedInput) (headers : dict)
    (parameters payload : option dict) (max_batch_size : nat)
    (image_placement : ImagePlacement) : list RequestData :=
  map (fun group =>
         {| rd_url := url; rd_headers := headers; rd_parameters := parameters;
            rd_payload := payload; rd_placement := image_placement;
            rd_inputs := group; image_scaling_factors := map snd group |})
      (slice_groups max_batch_size encoded_inference_inputs).

(** [model_id or self.__selected_model]: an empty string is falsy. *)
Definition or_selected (model_id selected : option string) : option string :=
  match model_id with
  | Some "" => selected
  | Some m => Some m
  | None => selected
  end.

(** ** Collaborators outside [client.py]

    The transport, the backend and the helpers of other modules whose result
    the client only passes on.  The backend is a state machine: [serve]
    answers one request and gives the next state of the backend.  [latency]
    is the time request number [i] of a group of concurrent requests takes;
    requests are served in order of increasing latency. *)
Class Collaborators : Type := {
  Backend : Type;
  serve : Request -> Backend -> NetOutcome * Backend;
  latency : nat -> Request -> nat;
  http_error_description : Response -> string;
  RegisteredModels_from_dict : Json -> Outcome RegisteredModels;
  load_image : ImagesReference -> option Z -> option Z -> Outcome EncodedInput;
  to_legacy_call_parameters : InferenceConfiguration -> dict;
  to_api_call_parameters : InferenceConfiguration -> HTTPClientMode -> string -> dict;
  response_contains_jpeg_image : Response -> bool;
  transform_visualisation_bytes : string -> VisualisationResponseFormat -> Outcome Json;
  transform_base64_visualisation : Json -> VisualisationResponseFormat -> Outcome Json;
  inject_images_into_payload : dict -> list EncodedInput -> option string -> dict;
  api_key_safe_raise_for_status : Response -> Outcome unit;
  combine_gaze_detections : InferenceResult -> Outcome InferenceResult;
  is_spatial : string -> bool;
}.

Section Client.

Context {ext : Collaborators}.

(** ** Session state and the world around it *)

(** The private fields of [InferenceHTTPClient]. *)
Record Client : Type := {
  api_url : string;
  api_key : string;
  inference_configuration : InferenceConfiguration;
  client_mode : HTTPClientMode;
  selected_model : option string;
}.

(** The client, the backend, and the log of every request that went over the
    network with what came back, oldest first. *)
Record World : Type := {
  client : Client;
  backend : Backend;
  exchanges : list (Request * NetOutcome);
}.

(** A method of the client: it reads and writes the world and returns or
    raises. *)
Definition M (A : Type) : Type := World -> Outcome A * World.

#[local] Instance M_ret : MRet M := fun A a w => (Ok a, w).
#[local] Instance M_bind : MBind M := fun A B f m w =>
  match m w with
  | (Ok a, w') => f a w'
  | (Raise e, w') => (Raise e, w')
  end.

Definition lift {A : Type} (o : Outcome A) : M A := fun w => (o, w).
Definition raise {A : Type} (e : Exn) : M A := fun w => (Raise e, w).
Definition self : M Client := fun w => (Ok (client w), w).

Definition set_inference_configuration (c : InferenceConfiguration) : M unit := fun w =>
  (Ok tt,
   {| client := {| api_url := api_url (client w); api_key := api_key (client w);
                   inference_configuration := c;
                   client_mode := client_mode (client w);
                   selected_model := selected_model (client w) |};
      backend := backend w; exchanges := exchanges w |}).

Definition set_client_mode (m : HTTPClientMode) : M unit := fun w =>
  (Ok tt,
   {| client := {| api_url := api_url (client w); api_key := api_key (client w);
                   inference_configuration := inference_configuration (client w);
                   client_mode := m;
                   selected_model := selected_model (client w) |};
      backend := backend w; exchanges := exchanges w |}).

Definition set_selected_model (m : option string) : M unit := fun w =>
  (Ok tt,
   {| client := {| api_url := api_url (client w); api_key := api_key (client w);
                   inference_configuration := inference_configuration (client w);
                   client_mode := client_mode (client w);
                   selected_model := m |};
      backend := backend w; exchanges := exchanges w |}).

(** One request over the network: the backend serves it and the exchange is
    logged. *)
Definition transmit (rq : Request) (w : World) : NetOutcome * World :=
  let '(out, b) := serve rq (backend w) in
  (out, {| client := client w; backend := b;
           exchanges := exchanges w ++ [(rq, out)] |}).

Definition send (rq : Request) : M Response := fun w =>
  match transmit rq w with
  | (Replied r, w') => (Ok r, w')
  | (Failed e, w') => (Raise e, w')
  end.

(** [requests.get(url)] and [requests.post(url, json=..., headers=...)] *)
Definition requests_get (url : string) : M Response :=
  send {| method := GET; url := url; request_headers := []; params := None;
          json_payload := None; data := None |}.

Definition requests_post (url : string) (json : option dict) (headers : dict) : M Response :=
  send {| method := POST; url := url; request_headers := headers; params := None;
          json_payload := json; data := None |}.

(** [response.json()] *)
Definition response_json (r : Response) : Outcome Json :=
  match json r with
  | Some j => Ok j
  | None => Raise (OtherError "JSONDecodeError")
  end.

(** [try: ... finally: cleanup]: the cleanup runs on both exits and the
    outcome of the body stands. *)
Definition try_finally {A : Type} (body : M A) (cleanup : M unit) : M A := fun w =>
  let '(r, w1) := body w in
  match cleanup w1 with
  | (Ok _, w2) => (r, w2)
  | (Raise e, w2) => (Raise e, w2)
  end.

Definition DEFAULT_HEADERS : dict := [("Content-Type", JStr "application/json")].

(** ** The error translator *)

Definition wrap_errors {A : Type} (function : M A) : M A := fun w =>
  match function w with
  | (Raise (HTTPError description response), w') =>
      if contains "application/json" (headers_get response "Content-Type" "")
      then match response_json response with
           | Ok (JObj body) =>
               (Raise (HTTPCallErrorError description (status_code response)
                         (default JNull (dict_get "message" body))), w')
           | Ok _ => (Raise (OtherError "AttributeError"), w')
           | Raise e => (Raise e, w')
           end
      else (Raise (HTTPCallErrorError description (status_code response)
                     (JStr (text response))), w')
  | (Raise (ConnectionError description), w') =>
      (Raise (HTTPClientError ("Error with server connection: " +:+ description)), w')
  | other => other
  end.

(** ** Session state: setters and scoped overrides *)

Definition use_configuration {A : Type}
    (inference_configuration' : InferenceConfiguration) (body : M A) : M A :=
  c ← self;
  let previous_configuration := inference_configuration c in
  set_inference_configuration inference_configuration';;
  try_finally body (set_inference_configuration previous_configuration).

Definition configure (inference_configuration' : InferenceConfiguration) : M unit :=
  set_inference_configuration inference_configuration'.

Definition select_api_v0 : M unit := set_client_mode V0.
Definition select_api_v1 : M unit := set_client_mode V1.

Definition use_api_v0 {A : Type} (body : M A) : M A :=
  c ← self;
  let previous_client_mode := client_mode c in
  set_client_mode V0;;
  try_finally body (set_client_mode previous_client_mode).

Definition use_api_v1 {A : Type} (body : M A) : M A :=
  c ← self;
  let previous_client_mode := client_mode c in
  set_client_mode V1;;
  try_finally body (set_client_mode previous_client_mode).

Definition select_model (model_id : string) : M unit :=
  set_selected_model (Some model_id).

Definition use_model {A : Type} (model_id : string) (body : M A) : M A :=
  c ← self;
  let previous_model := selected_model c in
  set_selected_model (Some model_id);;
  try_finally body (set_selected_model previous_model).

Definition __ensure_v1_client_mode : M unit :=
  c ← self;
  match client_mode c with
  | V1 => mret tt
  | V0 => raise (WrongClientModeError "Use client mode `v1` to run this operation.")
  end.

(** ** The model registry *)

Definition list_loaded_models : M RegisteredModels :=
  wrap_errors (
    __ensure_v1_client_mode;;
    c ← self;
    response ← requests_get (api_url c +:+ "/model/registry");
    lift (raise_for_status http_error_description response);;
    response_payload ← lift (response_json response);
    lift (RegisteredModels_from_dict response_payload)).

Definition load_model (model_id : string) (set_as_default : bool) : M RegisteredModels :=
  wrap_errors (
    __ensure_v1_client_mode;;
    c ← self;
    response ← requests_post (api_url c +:+ "/model/add")
                 (Some [("model_id", JStr model_id); ("api_key", JStr (api_key c))])
                 DEFAULT_HEADERS;
    lift (raise_for_status http_error_description response);;
    response_payload ← lift (response_json response);
    (if set_as_default then set_selected_model (Some model_id) else mret tt);;
    lift (RegisteredModels_from_dict response_payload)).

Definition unload_model (model_id : string) : M RegisteredModels :=
  wrap_errors (
    __ensure_v1_client_mode;;
    c ← self;
    response ← requests_post (api_url c +:+ "/model/remove")
                 (Some [("model_id", JStr model_id)])
                 DEFAULT_HEADERS;
    lift (raise_for_status http_error_description response);;
    response_payload ← lift (response_json response);
    c ← self;
    (if decide (Some model_id = selected_model c)
     then set_selected_model None else mret tt);;
    lift (RegisteredModels_from_dict response_payload)).

Definition unload_all_models : M RegisteredModels :=
  wrap_errors (
    __ensure_v1_client_mode;;
    c ← self;
    response ← requests_post (api_url c +:+ "/model/clear") None [];
    lift (raise_for_status http_error_description response);;
    response_payload ← lift (response_json response);
    set_selected_model None;;
    lift (RegisteredModels_from_dict response_payload)).

(** [get_model_description] calls itself; [depth] bounds the nesting of
    calls, and [None] is the answer of a call that would need more. *)
Fixpoint get_model_description (depth : nat) (model_id' : string) (allow_loading : bool)
    : M (option ModelDescription) :=
  match depth with
  | 0 => mret None
  | S depth' =>
      __ensure_v1_client_mode;;
      registered_models ← list_loaded_models;
      let matching_models :=
        filter (fun e => model_id e = model_id') (models registered_models) in
      match matching_models with
      | e :: _ => mret (Some e)
      | [] =>
          if allow_loading
          then load_model model_id' false;;
               get_model_description depth' model_id' false
          else raise (ModelNotInitializedError
                        ("Model " +:+ model_id' +:+
                         " is not initialised and cannot retrieve its description."))
      end
  end.

(** ** Loading and building *)

(** Modelled from the spec: [load_static_inference_input] of
    [utils/loaders.py] is missing; the loader accepts one image reference or
    a list of them and returns, per image and in order, the encoded payload
    and its scaling factor.  Decoding one image is [load_image]. *)
Definition load_static_inference_input (inference_input : InferenceInput)
    (max_height max_width : option Z) : Outcome (list EncodedInput) :=
  match inference_input with
  | Single image => e ← load_image image max_height max_width; mret [e]
  | Many images => for_each (fun image => load_image image max_height max_width) images
  end.

(** Modelled from the spec: the task types of [entities.py] are missing; they
    are classification, object-detection, instance-segmentation and
    keypoint-detection. *)
Definition CLASSIFICATION_TASK : string := "classification".
Definition OBJECT_DETECTION_TASK : string := "object-detection".
Definition INSTANCE_SEGMENTATION_TASK : string := "instance-segmentation".
Definition KEYPOINTS_DETECTION_TASK : string := "keypoint-detection".

Definition NEW_INFERENCE_ENDPOINTS : gmap string string :=
  list_to_map [
    (INSTANCE_SEGMENTATION_TASK, "/infer/instance_segmentation");
    (OBJECT_DETECTION_TASK, "/infer/object_detection");
    (CLASSIFICATION_TASK, "/infer/classification");
    (KEYPOINTS_DETECTION_TASK, "/infer/keypoints_detection") ].

(** Modelled from the spec: how a package goes on the wire is in the missing
    [utils/executors.py]; with query/body placement the body carries the one
    encoded image and the parameters go in the query string, with
    JSON-embedded placement the images are embedded in the JSON payload. *)
Definition request_of (request_method : RequestMethod) (rd : RequestData) : Request :=
  match rd_placement rd with
  | DATA =>
      {| method := request_method; url := rd_url rd;
         request_headers := rd_headers rd; params := rd_parameters rd;
         json_payload := rd_payload rd; data := fst <$> head (rd_inputs rd) |}
  | JSON =>
      {| method := request_method; url := rd_url rd;
         request_headers := rd_headers rd; params := rd_parameters rd;
         json_payload :=
           Some (inject_images_into_payload (default [] (rd_payload rd))
                   (rd_inputs rd) None);
         data := None |}
  end.

(** ** The request executor *)

(** Modelled from the spec: the two execution modes of the missing
    [utils/executors.py]. *)
Inductive ExecutionMode : Type := Blocking | NonBlocking.

(** Modelled from the spec: requests complete in any order; here the order
    is that of their latencies, and [insert_by] keeps a list of request
    numbers sorted by a key. *)
Fixpoint insert_by (key : nat -> nat) (i : nat) (order : list nat) : list nat :=
  match order with
  | [] => [i]
  | j :: order' =>
      if (key i <=? key j)%nat then i :: order else j :: insert_by key i order'
  end.

(** Modelled from the spec: the order in which the requests of one
    concurrent group are served, by increasing latency. *)
Definition service_order (reqs : list Request) : list nat :=
  foldr (insert_by (fun i => from_option (latency i) 0%nat (reqs !! i)))
        [] (seq 0 (length reqs)).

(** Modelled from the spec: the requests of a group go out in the given
    order; what comes back for request [i] is stored in slot [i], so that
    results are correlated with their package by position. *)
Fixpoint dispatch (order : list nat) (reqs : list Request)
    (slots : list (option NetOutcome)) (w : World) : list (option NetOutcome) * World :=
  match order with
  | [] => (slots, w)
  | i :: order' =>
      match reqs !! i with
      | Some rq =>
          let '(out, w') := transmit rq w in
          dispatch order' reqs (<[i := Some out]> slots) w'
      | None => dispatch order' reqs slots w
      end
  end.

(** Modelled from the spec: one group of concurrent requests, its results
    read off by position. *)
Definition make_parallel_requests (reqs : list Request) (w : World)
    : list NetOutcome * World :=
  let '(slots, w') :=
    dispatch (service_order reqs) reqs (replicate (length reqs) None) w in
  (omap id slots, w').

(** Modelled from the spec: the groups one after the other. *)
Fixpoint run_groups (groups : list (list Request)) (w : World)
    : list NetOutcome * World :=
  match groups with
  | [] => ([], w)
  | g :: groups' =>
      let '(outs, w1) := make_parallel_requests g w in
      let '(outs', w2) := run_groups groups' w1 in
      (outs ++ outs', w2)
  end.

(** Modelled from the spec: a transport failure is propagated and a status
    outside 2xx raises. *)
Definition require_success (out : NetOutcome) : Outcome Response :=
  match out with
  | Failed e => Raise e
  | Replied r =>
      if (200 <=? status_code r)%Z && (status_code r <? 300)%Z then Ok r
      else Raise (HTTPError (http_error_description r) r)
  end.

(** Modelled from the spec: the executor of [utils/executors.py] is missing;
    it sends the packages under a concurrency ceiling, in blocking mode with
    a pool of workers bounded by the ceiling (one group of at most that many
    requests at a time), in non-blocking mode as tasks scheduled together;
    results come back in the order of the packages, the first failure is
    propagated, and a status outside 2xx raises. *)
Definition execute (mode : ExecutionMode) (requests_data : list RequestData)
    (request_method : RequestMethod) (max_concurrent_requests : nat)
    : M (list Response) := fun w =>
  let reqs := map (request_of request_method) requests_data in
  let groups :=
    match mode with
    | Blocking => slice_groups max_concurrent_requests reqs
    | NonBlocking => [reqs]
    end in
  let '(outs, w') := run_groups groups w in
  (for_each require_success outs, w').

Definition execute_requests_packages := execute Blocking.
Definition execute_requests_packages_async := execute NonBlocking.

(** ** The response normalizer *)

(** Modelled from the spec: the division of the coordinates by the scaling
    factor; [spatial] tells whether the document is below a spatial field. *)
Fixpoint rescale (f : Q) (spatial : bool) (j : Json) : Json :=
  match j with
  | JNum q => if spatial then JNum (q / f) else JNum q
  | JArr items => JArr (map (rescale f spatial) items)
  | JObj fields =>
      JObj (map (fun kv : string * Json =>
                   let '(k, v) := kv in
                   (k, rescale f (spatial || is_spatial k) v)) fields)
  | other => other
  end.

(** Modelled from the spec: [adjust_prediction_to_client_scaling_factor] of
    [utils/post_processing.py] is missing; every spatial field of the
    prediction (bounding-box and keypoint coordinates, polygon or mask
    points) is divided by the scaling factor of the image.  Which fields are
    spatial is [is_spatial]; the numbers below a spatial field are its
    coordinates. *)
Definition adjust_prediction_to_client_scaling_factor (prediction : Json)
    (scaling_factor : Q) : Json :=
  rescale scaling_factor false prediction.

(** The body of the loop of [infer_from_api_v0]. *)
Definition normalise_v0 (expected_format : VisualisationResponseFormat)
    (pair : RequestData * Response) : Outcome Json :=
  let '(request_data, response) := pair in
  parsed_response ←
    (if response_contains_jpeg_image response
     then visualisation ← transform_visualisation_bytes (content response) expected_format;
          mret (JObj [("visualization", visualisation)])
     else response_json response);
  match image_scaling_factors request_data with
  | [] => Raise (OtherError "IndexError")
  | scaling_factor :: _ =>
      mret (adjust_prediction_to_client_scaling_factor parsed_response scaling_factor)
  end.

(** The body of the inner loop of [infer_from_api_v1]. *)
Definition normalise_element (expected_format : VisualisationResponseFormat)
    (pair : Json * Q) : Outcome Json :=
  let '(parsed_response_element, scaling_factor) := pair in
  match parsed_response_element with
  | JObj fields =>
      element ←
        match dict_get "visualization" fields with
        | None | Some JNull => Ok parsed_response_element
        | Some visualisation =>
            v ← transform_base64_visualisation visualisation expected_format;
            mret (JObj (dict_set "visualization" v fields))
        end;
      mret (adjust_prediction_to_client_scaling_factor element scaling_factor)
  | _ => Raise (OtherError "AttributeError")
  end.

(** [if not issubclass(type(parsed_response), list): parsed_response = [parsed_response]] *)
Definition as_list (parsed_response : Json) : list Json :=
  match parsed_response with
  | JArr items => items
  | _ => [parsed_response]
  end.

(** The body of the outer loop of [infer_from_api_v1]. *)
Definition normalise_v1 (expected_format : VisualisationResponseFormat)
    (pair : RequestData * Response) : Outcome (list Json) :=
  let '(request_data, response) := pair in
  parsed_response ← response_json response;
  for_each (normalise_element expected_format)
    (zip (as_list parsed_response) (image_scaling_factors request_data)).

(** ** Inference *)

(** [infer_from_api_v0] up to its last line: the list [results]. *)
Definition infer_from_api_v0_results (inference_input : InferenceInput)
    (model_id : option string) : M (list Json) :=
  c ← self;
  let model_id_to_be_used := or_selected model_id (selected_model c) in
  lift (_ensure_model_is_selected model_id_to_be_used);;
  let model_id_chunks := split "/" (default "" model_id_to_be_used) in
  match model_id_chunks with
  | [project; version] =>
      let cfg := inference_configuration c in
      let '(max_height, max_width) :=
        _determine_client_downsizing_parameters
          (client_downsizing_disabled cfg) None (default_max_input_size cfg) in
      encoded_inference_inputs ←
        lift (load_static_inference_input inference_input max_height max_width);
      let params :=
        dict_update [("api_key", JStr (api_key c))] (to_legacy_call_parameters cfg) in
      let requests_data :=
        prepare_requests_data (api_url c +:+ "/" +:+ project +:+ "/" +:+ version)
          encoded_inference_inputs DEFAULT_HEADERS (Some params) None 1 DATA in
      responses ←
        execute_requests_packages requests_data POST (max_concurent_requests cfg);
      lift (for_each (normalise_v0 (output_visualisation_format cfg))
              (zip requests_data responses))
  | _ =>
      raise (InvalidModelIdentifier
               ("Invalid model identifier: " +:+ default "None" model_id +:+ " in use."))
  end.

Definition infer_from_api_v0 (inference_input : InferenceInput)
    (model_id : option string) : M InferenceResult :=
  results ← infer_from_api_v0_results inference_input model_id;
  mret (unwrap_single_element_list results).

(** [self.get_model_description(model_id=...)]: two nested calls are all the
    method can make. *)
Definition describe_or_load (model_id : string) : M ModelDescription :=
  d ← get_model_description 2 model_id true;
  match d with
  | Some d => mret d
  | None => raise (OtherError "RecursionError")
  end.

(** [infer_from_api_v1] up to its last line: the list [results]. *)
Definition infer_from_api_v1_results (inference_input : InferenceInput)
    (model_id : option string) : M (list Json) :=
  __ensure_v1_client_mode;;
  c ← self;
  let model_id_to_be_used := or_selected model_id (selected_model c) in
  lift (_ensure_model_is_selected model_id_to_be_used);;
  let model_id_to_be_used := default "" model_id_to_be_used in
  model_description ← describe_or_load model_id_to_be_used;
  c ← self;
  let cfg := inference_configuration c in
  let '(max_height, max_width) :=
    _determine_client_downsizing_parameters
      (client_downsizing_disabled cfg) (Some model_description)
      (default_max_input_size cfg) in
  match NEW_INFERENCE_ENDPOINTS !! task_type model_description with
  | None =>
      raise (ModelTaskTypeNotSupportedError
               ("Model task " +:+ task_type model_description +:+
                " is not supported by API v1 client."))
  | Some endpoint =>
      encoded_inference_inputs ←
        lift (load_static_inference_input inference_input max_height max_width);
      let payload :=
        dict_update [("api_key", JStr (api_key c)); ("model_id", JStr model_id_to_be_used)]
          (to_api_call_parameters cfg (client_mode c) (task_type model_description)) in
      let requests_data :=
        prepare_requests_data (api_url c +:+ endpoint) encoded_inference_inputs
          DEFAULT_HEADERS None (Some payload) (max_batch_size cfg) JSON in
      responses ←
        execute_requests_packages requests_data POST (max_concurent_requests cfg);
      per_package ←
        lift (for_each (normalise_v1 (output_visualisation_format cfg))
                (zip requests_data responses));
      mret (concat per_package)
  end.

Definition infer_from_api_v1 (inference_input : InferenceInput)
    (model_id : option string) : M InferenceResult :=
  results ← infer_from_api_v1_results inference_input model_id;
  mret (unwrap_single_element_list results).

Definition infer (inference_input : InferenceInput) (model_id : option string)
    : M InferenceResult :=
  wrap_errors (
    c ← self;
    match client_mode c with
    | V0 => infer_from_api_v0 inference_input model_id
    | V1 => infer_from_api_v1 inference_input model_id
    end).

(** ** Other operations that need the current protocol *)

Definition __initialise_payload : M dict :=
  c ← self;
  match client_mode c with
  | V0 => mret []
  | V1 => mret [("api_key", JStr (api_key c))]
  end.

Definition __wrap_url_with_api_key (url : string) : M string :=
  c ← self;
  match client_mode c with
  | V0 => mret (url +:+ "?api_key=" +:+ api_key c)
  | V1 => mret url
  end.

Definition _post_images (inference_input : InferenceInput) (endpoint : string)
    (model_id : option string) : M InferenceResult :=
  encoded_inference_inputs ←
    lift (load_static_inference_input inference_input None None);
  payload ← __initialise_payload;
  let payload :=
    match model_id with
    | Some m => dict_set "model_id" (JStr m) payload
    | None => payload
    end in
  c ← self;
  url ← __wrap_url_with_api_key (api_url c +:+ endpoint);
  let cfg := inference_configuration c in
  let requests_data :=
    prepare_requests_data url encoded_inference_inputs DEFAULT_HEADERS None
      (Some payload) (max_batch_size cfg) JSON in
  responses ←
    execute_requests_packages requests_data POST (max_concurent_requests cfg);
  results ← lift (for_each response_json responses);
  mret (unwrap_single_element_list results).

Definition detect_gazes (inference_input : InferenceInput) : M InferenceResult :=
  wrap_errors (
    __ensure_v1_client_mode;;
    result ← _post_images inference_input "/gaze/gaze_detection" None;
    lift (combine_gaze_detections result)).

Definition prompt_cogvlm (visual_prompt : ImagesReference) (text_prompt : string)
    (chat_history : option (list (string * string))) : M Json :=
  wrap_errors (
    __ensure_v1_client_mode;;
    encoded_image ← lift (load_static_inference_input (Single visual_prompt) None None);
    c ← self;
    let payload :=
      [("api_key", JStr (api_key c)); ("model_id", JStr "cogvlm");
       ("prompt", JStr text_prompt)] in
    let payload := inject_images_into_payload payload encoded_image None in
    let payload :=
      match chat_history with
      | Some history =>
          dict_set "history"
            (JArr (map (fun turn => JArr [JStr (fst turn); JStr (snd turn)]) history))
            payload
      | None => payload
      end in
    response ← requests_post (api_url c +:+ "/llm/cogvlm") (Some payload) DEFAULT_HEADERS;
    lift (api_key_safe_raise_for_status response);;
    lift (response_json response)).

(** ** The registry through the non-blocking transport *)

(** [@wrap_errors] above an [async def].  The decorator is synchronous: its
    [try] covers the call of the function, which only creates the coroutine
    and runs none of its body; the caller awaits the coroutine outside that
    [try], so what the body raises reaches the caller as it is. *)
Definition wrap_errors_coroutine {A : Type} (function : M A) : M A :=
  coroutine ← wrap_errors (A := M A) (mret function);
  coroutine.

(** [raise_for_status] of an aiohttp response: statuses from 400 raise
    [ClientResponseError]. *)
Definition aiohttp_raise_for_status (r : Response) : Outcome unit :=
  if (400 <=? status_code r)%Z then Raise (OtherError "ClientResponseError") else Ok tt.

Definition list_loaded_models_async : M RegisteredModels :=
  wrap_errors_coroutine (
    __ensure_v1_client_mode;;
    c ← self;
    response ← requests_get (api_url c +:+ "/model/registry");
    lift (aiohttp_raise_for_status response);;
    response_payload ← lift (response_json response);
    lift (RegisteredModels_from_dict response_payload)).

Definition load_model_async (model_id : string) (set_as_default : bool)
    : M RegisteredModels :=
  wrap_errors_coroutine (
    __ensure_v1_client_mode;;
    c ← self;
    let payload := [("model_id", JStr model_id); ("api_key", JStr (api_key c))] in
    response ← requests_post (api_url c +:+ "/model/add") (Some payload) DEFAULT_HEADERS;
    lift (aiohttp_raise_for_status response);;
    response_payload ← lift (response_json response);
    (if set_as_default then set_selected_model (Some model_id) else mret tt);;
    lift (RegisteredModels_from_dict response_payload)).

Fixpoint get_model_description_async (depth : nat) (model_id' : string)
    (allow_loading : bool) : M (option ModelDescription) :=
  match depth with
  | 0 => mret None
  | S depth' =>
      __ensure_v1_client_mode;;
      registered_models ← list_loaded_models_async;
      let matching_models :=
        filter (fun e => model_id e = model_id') (models registered_models) in
      match matching_models with
      | e :: _ => mret (Some e)
      | [] =>
          if allow_loading
          then load_model_async model_id' false;;
               get_model_description_async depth' model_id' false
          else raise (ModelNotInitializedError
                        ("Model " +:+ model_id' +:+
                         " is not initialised and cannot retrieve its description."))
      end
  end.

Definition unload_model_async (model_id : string) : M RegisteredModels :=
  wrap_errors_coroutine (
    __ensure_v1_client_mode;;
    c ← self;
    response ← requests_post (api_url c +:+ "/model/remove")
                 (Some [("model_id", JStr model_id)]) DEFAULT_HEADERS;
    lift (aiohttp_raise_for_status response);;
    response_payload ← lift (response_json response);
    c ← self;
    (if decide (Some model_id = selected_model c)
     then set_selected_model None else mret tt);;
    lift (RegisteredModels_from_dict response_payload)).

Definition unload_all_models_async : M RegisteredModels :=
  wrap_errors_coroutine (
    __ensure_v1_client_mode;;
    c ← self;
    response ← requests_post (api_url c +:+ "/model/clear") None [];
    lift (aiohttp_raise_for_status response);;
    response_payload ← lift (response_json response);
    set_selected_model None;;
    lift (RegisteredModels_from_dict response_payload)).

End Client.

#[global] Existing Instance M_ret.
#[global] Existing Instance M_bind.

(** ** A small backend to run the client against

    A registry of model identifiers that accepts every load call without
    registering anything, and an inference endpoint that answers with one
    prediction per image, tagged with the image it is for. *)
Module Demo.

Definition describe (id : string) : Json :=
  JObj [("model_id", JStr id); ("task_type", JStr "object-detection")].

Definition registry_document (ids : list string) : Json :=
  JObj [("models", JArr (map describe ids))].

Definition reply (status : Z) (document : Json) : Response :=
  {| status_code := status;
     headers := {[ "content-type" := "application/json" ]};
     text := ""; content := ""; json := Some document |}.

Definition prediction (image : Json) : Json :=
  JObj [("marker", image); ("x", JNum (10 # 1)); ("confidence", JNum (1 # 2))].

Definition predictions (rq : Request) : Json :=
  match json_payload rq with
  | Some payload =>
      match dict_get "image" payload with
      | Some (JArr images) => JArr (map prediction images)
      | _ => JObj []
      end
  | None => prediction (JStr (default "" (data rq)))
  end.

Definition respond (rq : Request) (ids : list string) : NetOutcome * list string :=
  if contains "/model/registry" (url rq) then (Replied (reply 200 (registry_document ids)), ids)
  else if contains "/model/add" (url rq) then (Replied (reply 200 (registry_document ids)), ids)
  else if contains "/model/remove" (url rq) then (Replied (reply 200 (registry_document [])), [])
  else if contains "/model/clear" (url rq) then (Replied (reply 200 (registry_document [])), [])
  else (Replied (reply 200 (predictions rq)), ids).

Definition description_of (document : Json) : Outcome ModelDescription :=
  match document with
  | JObj fields =>
      match dict_get "model_id" fields, dict_get "task_type" fields with
      | Some (JStr id), Some (JStr task) =>
          Ok {| model_id := id; task_type := task;
                input_height := None; input_width := None |}
      | _, _ => Raise (OtherError "KeyError")
      end
  | _ => Raise (OtherError "TypeError")
  end.

Definition from_dict (document : Json) : Outcome RegisteredModels :=
  match document with
  | JObj fields =>
      match dict_get "models" fields with
      | Some (JArr items) => ms ← for_each description_of items; mret {| models := ms |}
      | _ => Raise (OtherError "KeyError")
      end
  | _ => Raise (OtherError "TypeError")
  end.

Definition name_of (image : ImagesReference) : string :=
  match image with
  | LocalPath s | RemoteURL s | Base64String s => s
  | InMemoryArray _ | DecodedImage _ => "pixels"
  end.

(** The loader halves every image when a maximum size is asked for. *)
Definition load (image : ImagesReference) (max_height max_width : option Z)
    : Outcome EncodedInput :=
  match max_height with
  | Some _ => Ok (name_of image, 1 # 2)
  | None => Ok (name_of image, 1 # 1)
  end.

Definition collaborators : Collaborators :=
  {| Backend := list string;
     serve := respond;
     latency := fun i _ => (100 - i)%nat;
     http_error_description := fun _ => "error";
     RegisteredModels_from_dict := from_dict;
     load_image := load;
     to_legacy_call_parameters := fun _ => [];
     to_api_call_parameters := fun _ _ _ => [];
     response_contains_jpeg_image := fun _ => false;
     transform_visualisation_bytes := fun bytes _ => Ok (JVisual bytes);
     transform_base64_visualisation := fun _ _ => Ok (JVisual "decoded");
     inject_images_into_payload := fun payload images _ =>
       dict_set "image" (JArr (map (fun e => JStr (fst e)) images)) payload;
     api_key_safe_raise_for_status := fun _ => Ok tt;
     combine_gaze_detections := fun r => Ok r;
     is_spatial := fun k => String.eqb k "x" |}.

Definition configuration : InferenceConfiguration :=
  {| max_batch_size := 2; max_concurent_requests := 2;
     client_downsizing_disabled := false; default_max_input_size := 1024;
     output_visualisation_format := BASE64;
     image_extensions_for_directory_scan := ["jpg"] |}.

Definition world (mode : HTTPClientMode) (selected : option string)
    (registered : list string) : @World collaborators :=
  @Build_World collaborators
    {| api_url := "http://localhost:9001"; api_key := "key";
       inference_configuration := configuration;
       client_mode := mode; selected_model := selected |}
    registered [].

Definition legacy : @World collaborators := world V0 None ["m/1"].
Definition current : @World collaborators := world V1 (Some "m/1") ["m/1"].
Definition unregistered : @World collaborators := world V1 None [].

Definition one_image : InferenceInput := Many [LocalPath "a"].
Definition three_images : InferenceInput :=
  Many [LocalPath "a"; LocalPath "b"; LocalPath "c"].

Definition packages : list RequestData :=
  prepare_requests_data "http://localhost:9001/infer/object_detection"
    [("a", 1 # 1); ("b", 1 # 2); ("c", 1 # 4)]%Q DEFAULT_HEADERS None (Some []) 1 JSON.

Definition two_predictions : Response :=
  reply 200 (JArr [JObj [("x", JNum (10 # 1))]; JObj [("x", JNum (10 # 1))]]).

Definition two_factors : RequestData :=
  {| rd_url := ""; rd_headers := []; rd_parameters := None; rd_payload := None;
     rd_placement := JSON; rd_inputs := [("a", 1 # 2); ("b", 1 # 4)]%Q;
     image_scaling_factors := [1 # 2; 1 # 4]%Q |}.

Definition no_such_model : Response :=
  reply 500 (JObj [("message", JStr "no such model")]).

(** A call that fails with the response [no_such_model]. *)
Definition failing : @M collaborators unit :=
  lift (raise_for_status (fun _ => "error") no_such_model).

End Demo.

(** ** Vocabulary of the properties *)

Section Vocabulary.

Context {ext : Collaborators}.

(** Two worlds that differ at most in the active configuration, in the
    protocol mode, or in the selected model. *)
Definition same_but_configuration (w1 w2 : World) : Prop :=
  api_url (client w1) = api_url (client w2)
  /\ api_key (client w1) = api_key (client w2)
  /\ client_mode (client w1) = client_mode (client w2)
  /\ selected_model (client w1) = selected_model (client w2)
  /\ backend w1 = backend w2 /\ exchanges w1 = exchanges w2.

Definition same_but_client_mode (w1 w2 : World) : Prop :=
  api_url (client w1) = api_url (client w2)
  /\ api_key (client w1) = api_key (client w2)
  /\ inference_configuration (client w1) = inference_configuration (client w2)
  /\ selected_model (client w1) = selected_model (client w2)
  /\ backend w1 = backend w2 /\ exchanges w1 = exchanges w2.

Definition same_but_selected_model (w1 w2 : World) : Prop :=
  api_url (client w1) = api_url (client w2)
  /\ api_key (client w1) = api_key (client w2)
  /\ inference_configuration (client w1) = inference_configuration (client w2)
  /\ client_mode (client w1) = client_mode (client w2)
  /\ backend w1 = backend w2 /\ exchanges w1 = exchanges w2.

(** The error every operation of the current protocol raises in legacy
    mode. *)
Definition wrong_mode : Exn :=
  WrongClientModeError "Use client mode `v1` to run this operation.".

(** The request [list_loaded_models] sends. *)
Definition registry_request (w : World) : Request :=
  {| method := GET; url := api_url (client w) +:+ "/model/registry";
     request_headers := []; params := None; json_payload := None; data := None |}.

(** The request [load_model] sends. *)
Definition load_request (model_id : string) (w : World) : Request :=
  {| method := POST; url := api_url (client w) +:+ "/model/add";
     request_headers := DEFAULT_HEADERS; params := None;
     json_payload :=
       Some [("model_id", JStr model_id); ("api_key", JStr (api_key (client w)))];
     data := None |}.

(** The number of load calls in a log of exchanges. *)
Definition load_attempts (api : string) (log : list (Request * NetOutcome)) : nat :=
  length (filter (fun x => url (fst x) = api +:+ "/model/add") log).

Definition not_initialised (model_id : string) : Exn :=
  ModelNotInitializedError
    ("Model " +:+ model_id +:+
     " is not initialised and cannot retrieve its description.").

(** The world after one more exchange. *)
Definition after_exchange (w : World) (rq : Request) (out : NetOutcome) (b : Backend)
    : World :=
  {| client := client w; backend := b; exchanges := exchanges w ++ [(rq, out)] |}.

(** What one call of a registry method does to the world: the client is
    untouched and at most one exchange, for the request [rq], is logged; in
    the current protocol mode it is exactly one. *)
Definition one_exchange (rq : Request) (w w' : World) : Prop :=
  client w' = client w
  /\ (exchanges w' = exchanges w
      \/ exists out, exchanges w' = exchanges w ++ [(rq, out)])
  /\ (client_mode (client w) = V1 ->
      exists out, exchanges w' = exchanges w ++ [(rq, out)]).

(** A description request with loading permitted, over a method [list] that
    fetches the registry and a method [load] that loads the model: the shape
    [get_model_description] and [get_model_description_async] share once
    their nested call is written out. *)
Definition describe_without_loading (list : M RegisteredModels) (model : string)
    (w : World) : Outcome (option ModelDescription) * World :=
  match __ensure_v1_client_mode w with
  | (Raise e, w0) => (Raise e, w0)
  | (Ok _, w0) =>
      match list w0 with
      | (Raise e, w1) => (Raise e, w1)
      | (Ok registered_models, w1) =>
          match filter (fun e => model_id e = model) (models registered_models) with
          | e :: _ => (Ok (Some e), w1)
          | [] => (Raise (not_initialised model), w1)
          end
      end
  end.

Definition describe_with_loading (list load : M RegisteredModels) (model : string)
    (w : World) : Outcome (option ModelDescription) * World :=
  match __ensure_v1_client_mode w with
  | (Raise e, w0) => (Raise e, w0)
  | (Ok _, w0) =>
      match list w0 with
      | (Raise e, w1) => (Raise e, w1)
      | (Ok registered_models, w1) =>
          match filter (fun e => model_id e = model) (models registered_models) with
          | e :: _ => (Ok (Some e), w1)
          | [] =>
              match load w1 with
              | (Raise e, w2) => (Raise e, w2)
              | (Ok _, w2) => describe_without_loading list model w2
              end
          end
      end
  end.

(** What the specification says of a description request that starts in the
    world [w] and ends with [r]: it gives an answer, leaves the client as it
    was, and logs at most one load call; when the first fetch of the registry
    has the model, that description is returned and nothing is loaded;
    otherwise exactly one load call is made and, when it and the second fetch
    succeed, the log holds the fetch, the load call and the second fetch, and
    the answer is the description found by the second fetch or
    [ModelNotInitializedError]. *)
Definition at_most_one_load (list load : M RegisteredModels) (model : string)
    (w : World) (r : Outcome (option ModelDescription) * World) : Prop :=
  fst r <> Ok None
  /\ client (snd r) = client w
  /\ exists new,
       exchanges (snd r) = exchanges w ++ new
       /\ load_attempts (api_url (client w)) new <= 1
       /\ forall registered w1,
            list w = (Ok registered, w1) ->
            match filter (fun e => model_id e = model) (models registered) with
            | e :: _ =>
                r = (Ok (Some e), w1)
                /\ exists fetched, new = [(registry_request w, fetched)]
            | [] =>
                load_attempts (api_url (client w)) new = 1
                /\ forall loaded w2 registered' w3,
                     load w1 = (Ok loaded, w2) ->
                     list w2 = (Ok registered', w3) ->
                     (exists fetched answer fetched',
                        new = [(registry_request w, fetched);
                               (load_request model w, answer);
                               (registry_request w, fetched')])
                     /\ match filter (fun e => model_id e = model)
                                (models registered') with
                        | e :: _ => r = (Ok (Some e), w3)
                        | [] => r = (Raise (not_initialised model), w3)
                        end
            end.

(** The backend in state [b] accepts the request [rq]: it answers with a
    status below 400 and a body that decodes to the registry [registered],
    and goes to the state [b']. *)
Definition accepts (rq : Request) (b : Backend) (response : Response)
    (registered : RegisteredModels) (b' : Backend) : Prop :=
  serve rq b = (Replied response, b')
  /\ (status_code response < 400)%Z
  /\ exists document,
       json response = Some document
       /\ RegisteredModels_from_dict document = Ok registered.

(** [matching_models[0]], when there is one. *)
Definition registered_as (model : string) (registered : RegisteredModels)
    : option ModelDescription :=
  head (filter (fun e => model_id e = model) (models registered)).

(** What a description request with loading permitted does in the current
    protocol mode, read off the answers of the backend.  The registry is
    fetched first.  When the backend answers with a registry that has the
    model, its description is returned after this one exchange.  When the
    registry has not the model, the load call goes out next, to the backend
    as the fetch left it, and nothing that follows is a load call; when the
    backend accepts the load call and answers the second fetch with a
    registry, the outcome is the description found there or
    [ModelNotInitializedError], after exactly these three exchanges. *)
Definition loads_when_absent (model : string) (w : World)
    (r : Outcome (option ModelDescription) * World) : Prop :=
  client_mode (client w) = V1 ->
  (exists rest,
     exchanges (snd r)
     = exchanges w
       ++ (registry_request w, fst (serve (registry_request w) (backend w))) :: rest)
  /\ forall response1 registered1 b1,
       accepts (registry_request w) (backend w) response1 registered1 b1 ->
       (forall e,
          registered_as model registered1 = Some e ->
          r = (Ok (Some e),
               after_exchange w (registry_request w) (Replied response1) b1))
       /\ (registered_as model registered1 = None ->
           (exists rest,
              exchanges (snd r)
              = exchanges w
                ++ [(registry_request w, Replied response1);
                    (load_request model w, fst (serve (load_request model w) b1))]
                ++ rest
              /\ load_attempts (api_url (client w)) rest = 0)
           /\ forall response2 loaded b2 response3 registered3 b3,
                accepts (load_request model w) b1 response2 loaded b2 ->
                accepts (registry_request w) b2 response3 registered3 b3 ->
                r = (match registered_as model registered3 with
                     | Some e => Ok (Some e)
                     | None => Raise (not_initialised model)
                     end,
                     {| client := client w; backend := b3;
                        exchanges :=
                          exchanges w
                          ++ [(registry_request w, Replied response1);
                              (load_request model w, Replied response2);
                              (registry_request w, Replied response3)] |})).

(** Exchanges that came from the backend: each logged answer is what
    [serve] gave for the logged request in some state of the backend. *)
Definition served (new : list (Request * NetOutcome)) : Prop :=
  Forall (fun x => exists b, snd x = fst (serve (fst x) b)) new.

(** The answers [outs] are paired by position with the requests [reqs]:
    there are as many, and answer [i] is what came back for request [i]
    according to the log [new]. *)
Definition answered_in_order (reqs : list Request) (outs : list NetOutcome)
    (new : list (Request * NetOutcome)) : Prop :=
  length outs = length reqs
  /\ forall i rq, reqs !! i = Some rq ->
       exists out, outs !! i = Some out /\ (rq, out) ∈ new.

(** One step into a document: the value under a key of an object, or the
    item at a position of a list. *)
Inductive Step : Type :=
| Key (k : string)
| Index (i : nat).

(** [document[step1][step2]...] *)
Fixpoint at_path (path : list Step) (j : Json) : option Json :=
  match path with
  | [] => Some j
  | Key k :: path' =>
      match j with
      | JObj fields => dict_get k fields ≫= at_path path'
      | _ => None
      end
  | Index i :: path' =>
      match j with
      | JArr items => items !! i ≫= at_path path'
      | _ => None
      end
  end.


(** The number of images of an inference input. *)
Definition images_count (inference_input : InferenceInput) : nat :=
  match inference_input with
  | Single _ => 1
  | Many images => length images
  end.

(** Every response holds as many predictions as its package has images. *)
Definition answers_every_image (requests_data : list RequestData)
    (responses : list Response) : Prop :=
  Forall2 (fun package response =>
             exists parsed, json response = Some parsed
                            /\ length (as_list parsed)
                               = length (image_scaling_factors package))
          requests_data responses.

(** The images of an inference input, in the order of the input. *)
Definition images_of (inference_input : InferenceInput) : list ImagesReference :=
  match inference_input with
  | Single image => [image]
  | Many images => images
  end.

(** The request of the legacy protocol that carries the image [e]. *)
Definition image_request (address : string) (parameters : dict) (e : EncodedInput)
    : Request :=
  {| method := POST; url := address; request_headers := DEFAULT_HEADERS;
     params := Some parameters; json_payload := None; data := Some (fst e) |}.

(** The request of the current protocol that carries the images [group]. *)
Definition batch_request (address : string) (payload : dict)
    (group : list EncodedInput) : Request :=
  {| method := POST; url := address; request_headers := DEFAULT_HEADERS;
     params := None;
     json_payload := Some (inject_images_into_payload payload group None);
     data := None |}.

(** Where [infer_from_api_v0] sends its requests, and with which
    parameters. *)
Definition legacy_address (w : World) (model : option string) : string :=
  match split "/" (default "" (or_selected model (selected_model (client w)))) with
  | [project; version] => api_url (client w) +:+ "/" +:+ project +:+ "/" +:+ version
  | _ => ""
  end.

Definition legacy_parameters (w : World) : dict :=
  dict_update [("api_key", JStr (api_key (client w)))]
    (to_legacy_call_parameters (inference_configuration (client w))).

(** The payload [infer_from_api_v1] sends, before the images are put in. *)
Definition current_payload (w : World) (identifier : string)
    (description : ModelDescription) : dict :=
  dict_update [("api_key", JStr (api_key (client w))); ("model_id", JStr identifier)]
    (to_api_call_parameters (inference_configuration (client w))
       (client_mode (client w)) (task_type description)).

(** [r] is the result for the image [e] in the legacy protocol: the log
    [new] has the request that carries [e], and [r] is what the loop of
    [infer_from_api_v0] makes of the response to that request and of the
    scaling factor of [e]. *)
Definition legacy_result_for (expected_format : VisualisationResponseFormat)
    (address : string) (parameters : dict) (new : list (Request * NetOutcome))
    (e : EncodedInput) (r : Json) : Prop :=
  exists package response,
    image_scaling_factors package = [snd e]
    /\ request_of POST package = image_request address parameters e
    /\ (image_request address parameters e, Replied response) ∈ new
    /\ normalise_v0 expected_format (package, response) = Ok r.

(** [rs] are the results for the images [group] in the current protocol: the
    log [new] has the request that carries the images of [group], and [rs]
    is what the loop of [infer_from_api_v1] makes of the response to that
    request and of the scaling factors of [group]. *)
Definition batch_results_for (expected_format : VisualisationResponseFormat)
    (address : string) (payload : dict) (new : list (Request * NetOutcome))
    (group : list EncodedInput) (rs : list Json) : Prop :=
  exists package response,
    image_scaling_factors package = map snd group
    /\ request_of POST package = batch_request address payload group
    /\ (batch_request address payload group, Replied response) ∈ new
    /\ normalise_v1 expected_format (package, response) = Ok rs.

End Vocabulary.

(** ** More of [client.py] *)

(** [s.count(c)] for one character. *)
Fixpoint count_char (c : ascii) (s : string) : nat :=
  match s with
  | EmptyString => 0
  | String a s' => (if Ascii.eqb a c then 1 else 0) + count_char c s'
  end.

(** [sep.join(chunks)] *)
Fixpoint join (sep : string) (chunks : list string) : string :=
  match chunks with
  | [] => ""
  | [chunk] => chunk
  | chunk :: rest => chunk +:+ sep +:+ join sep rest
  end.

(** [s.endswith(suffix)] *)
Fixpoint endswith (suffix s : string) : bool :=
  String.eqb s suffix
  || match s with
     | EmptyString => false
     | String _ s' => endswith suffix s'
     end.

(** [s[:-n]] for a positive [n] *)
Definition without_last (n : nat) (s : string) : string :=
  substring 0 (String.length s - n) s.

Section MoreOfTheClient.

Context {ext : Collaborators}.

(** [InferenceHTTPClient.__init__]; [init_default] is
    [InferenceConfiguration.init_default()], which is outside [client.py]. *)
Definition __init__ (init_default : InferenceConfiguration) (api_url api_key : string)
    : Client :=
  {| api_url := api_url; api_key := api_key;
     inference_configuration := init_default;
     client_mode := _determine_client_mode api_url;
     selected_model := None |}.

(** The requests [unload_model] and [unload_all_models] send. *)
Definition unload_request (model_id : string) (w : World) : Request :=
  {| method := POST; url := api_url (client w) +:+ "/model/remove";
     request_headers := DEFAULT_HEADERS; params := None;
     json_payload := Some [("model_id", JStr model_id)]; data := None |}.

Definition clear_request (w : World) : Request :=
  {| method := POST; url := api_url (client w) +:+ "/model/clear";
     request_headers := []; params := None; json_payload := None; data := None |}.

(** The world after the backend has served one more request. *)
Definition after_serving (w : World) (rq : Request) : World :=
  after_exchange w rq (fst (serve rq (backend w))) (snd (serve rq (backend w))).

(** A method that leaves the session state as it found it, whatever its
    outcome. *)
Definition keeps_client {A : Type} (m : M A) : Prop :=
  forall w, client (snd (m w)) = client w.

(** The error of [_ensure_model_is_selected]. *)
Definition no_model_selected : Exn :=
  ModelNotSelectedError "No model was selected to be used.".

(** The exceptions [wrap_errors] translates. *)
Definition is_transport_error (e : Exn) : bool :=
  match e with
  | HTTPError _ _ | ConnectionError _ => true
  | _ => false
  end.

(** A reply the registry methods stop at before they touch the session
    state: the transport raised, the status is an error status, or the body
    does not decode. *)
Definition rejected (out : NetOutcome) : Prop :=
  match out with
  | Failed _ => True
  | Replied r => (400 <= status_code r < 600)%Z \/ json r = None
  end.

(** The client with another selected model. *)
Definition with_selected_model (m : option string) (c : Client) : Client :=
  {| api_url := api_url c; api_key := api_key c;
     inference_configuration := inference_configuration c;
     client_mode := client_mode c; selected_model := m |}.

(** The world with another selected model. *)
Definition reselect (m : option string) (w : World) : World :=
  {| client := with_selected_model m (client w);
     backend := backend w; exchanges := exchanges w |}.

(** A method that does not look at the selected model: with another
    selection it does the same and leaves that selection in place. *)
Definition ignores_selection {A : Type} (m : M A) : Prop :=
  forall s w, m (reselect s w) = (fst (m w), reselect s (snd (m w))).

(** A request of the legacy protocol for the model [identifier]: a POST to
    the address of the model that carries one image as its body. *)
Definition legacy_request (w : World) (identifier : string) (rq : Request) : Prop :=
  method rq = POST
  /\ url rq = api_url (client w) +:+ "/" +:+ identifier
  /\ json_payload rq = None
  /\ is_Some (data rq).

(** The body of the loop of [infer_from_workflow] over [images.items()]:
    [inject_images_into_payload] writes into [runtime_parameters]. *)
Fixpoint load_workflow_images (images : list (string * InferenceInput))
    (runtime_parameters : dict) : Outcome dict :=
  match images with
  | [] => Ok runtime_parameters
  | (image_name, image) :: images' =>
      loaded_image ← load_static_inference_input image None None;
      load_workflow_images images'
        (inject_images_into_payload runtime_parameters loaded_image (Some image_name))
  end.

(** [infer_from_workflow]; [decode_workflow_outputs] is the helper of
    [utils/post_processing.py].  The line that prints the two flags to the
    console is left out: the console is not part of the world. *)
Definition infer_from_workflow
    (decode_workflow_outputs : Json -> VisualisationResponseFormat -> Outcome Json)
    (workspace_name workflow_name : option string)
    (workflow_specification : option dict)
    (images : option (list (string * InferenceInput)))
    (parameters : option dict) (excluded_fields : option (list string)) : M Json :=
  wrap_errors (
    let named_workflow_specified :=
      bool_decide (workspace_name <> None) && bool_decide (workflow_name <> None) in
    if negb (xorb named_workflow_specified (bool_decide (workflow_specification <> None)))
    then raise (InvalidParameterError
                  ("Parameters (`workspace_name`, `workflow_name`) can be used mutually exclusive with "
                   +:+ "`workflow_specification`, but at least one must be set."))
    else
      let images := default [] images in
      let parameters := default [] parameters in
      c ← self;
      let payload := [("api_key", JStr (api_key c))] in
      runtime_parameters ← lift (load_workflow_images images []);
      let runtime_parameters := dict_update runtime_parameters parameters in
      let payload := dict_set "runtime_parameters" (JObj runtime_parameters) payload in
      let payload :=
        match excluded_fields with
        | Some fields => dict_set "excluded_fields" (JArr (map JStr fields)) payload
        | None => payload
        end in
      let payload :=
        match workflow_specification with
        | Some specification => dict_set "specification" (JObj specification) payload
        | None => payload
        end in
      let url :=
        match workflow_specification with
        | Some _ => api_url c +:+ "/infer/workflows"
        | None =>
            api_url c +:+ "/infer/workflows/" +:+ default "None" workspace_name
            +:+ "/" +:+ default "None" workflow_name
        end in
      response ← requests_post url (Some payload) DEFAULT_HEADERS;
      lift (api_key_safe_raise_for_status response);;
      document ← lift (response_json response);
      workflow_outputs ←
        lift (match document with
              | JObj fields =>
                  match dict_get "outputs" fields with
                  | Some outputs => Ok outputs
                  | None => Raise (OtherError "KeyError")
                  end
              | _ => Raise (OtherError "TypeError")
              end);
      c ← self;
      lift (decode_workflow_outputs workflow_outputs
              (output_visualisation_format (inference_configuration c)))).

(** The address [infer_from_workflow] posts to. *)
Definition workflow_url (w : World) (workspace_name workflow_name : option string)
    (workflow_specification : option dict) : string :=
  match workflow_specification with
  | Some _ => api_url (client w) +:+ "/infer/workflows"
  | None =>
      api_url (client w) +:+ "/infer/workflows/" +:+ default "None" workspace_name
      +:+ "/" +:+ default "None" workflow_name
  end.

Definition workflow_parameters_error : Exn :=
  InvalidParameterError
    ("Parameters (`workspace_name`, `workflow_name`) can be used mutually exclusive with "
     +:+ "`workflow_specification`, but at least one must be set.").

(** [get_server_info]; [ServerInfo_from_dict] is [ServerInfo.from_dict] of
    [entities.py]. *)
Definition get_server_info {ServerInfo : Type}
    (ServerInfo_from_dict : Json -> Outcome ServerInfo) : M ServerInfo :=
  wrap_errors (
    c ← self;
    response ← requests_get (api_url c +:+ "/info");
    lift (raise_for_status http_error_description response);;
    response_payload ← lift (response_json response);
    lift (ServerInfo_from_dict response_payload)).

(** [get_clip_text_embeddings]; [text] is a string or a list of strings, as
    the JSON encoder writes it, and [unwrap_document] is
    [unwrap_single_element_list] given the decoded body, which need not be a
    list. *)
Definition get_clip_text_embeddings {Result : Type}
    (unwrap_document : Json -> Outcome Result) (text : Json) : M Result :=
  wrap_errors (
    payload ← __initialise_payload;
    let payload := dict_set "text" text payload in
    c ← self;
    url ← __wrap_url_with_api_key (api_url c +:+ "/clip/embed_text");
    response ← requests_post url (Some payload) DEFAULT_HEADERS;
    lift (api_key_safe_raise_for_status response);;
    document ← lift (response_json response);
    lift (unwrap_document document)).





(** Where the API key of the session goes in a request of the helpers
    [__initialise_payload] and [__wrap_url_with_api_key]: after the address in
    the legacy protocol, into the payload in the current one. *)
Definition key_in_address (w : World) (address : string) (rq : Request) : Prop :=
  match client_mode (client w) with
  | V0 => url rq = (api_url (client w) +:+ address) +:+ "?api_key=" +:+ api_key (client w)
  | V1 => url rq = api_url (client w) +:+ address
  end.

End MoreOfTheClient.

(** ** The CogVLM model ([inference/models/cogvlm/cog.py]) *)

Module Cog.

(** The settings of [inference.core.env] that [cog.py] reads. *)
Record Env : Type := {
  API_KEY : option string;
  COG_LOAD_4BIT : bool;
  COG_LOAD_8BIT : bool;
  COG_VERSION_ID : string;
  MODEL_CACHE_DIR : string;
}.

(** [os.path.join(a, b)] on POSIX. *)
Definition path_join (a b : string) : string :=
  if String.prefix "/" b then b
  else if String.eqb a "" || endswith "/" a then a +:+ b
  else a +:+ "/" +:+ b.

Section Model.

Variable env : Env.

(** The tokenizer, the network and the images of the transformer runtime,
    with the calls [cog.py] makes into it: the two [from_pretrained] loaders,
    and [generate_and_decode] for the lines of [predict] from
    [build_conversation_input_ids] to [tokenizer.decode]. *)
Variables Tokenizer Network Image : Type.
Variable tokenizer_from_pretrained : string -> Outcome Tokenizer.
Variable network_from_pretrained : string -> bool -> bool -> string -> Outcome Network.
Variable generate_and_decode : Network -> Tokenizer -> string -> list Image -> string.

Record CogVLM : Type := {
  model_id : string;
  endpoint : string;
  api_key : option string;
  dataset_id : string;
  version_id : string;
  cache_dir : string;
  tokenizer : Tokenizer;
  model : Network;
}.

(** [CogVLM.__init__]; [None] is the default [f"cogvlm/{COG_VERSION_ID}"].
    Unpacking the chunks of the identifier into two names raises
    [ValueError] unless there are exactly two. *)
Definition __init__ (model_id : option string) : Outcome CogVLM :=
  let model_id := default ("cogvlm/" +:+ COG_VERSION_ID env) model_id in
  match split "/" model_id with
  | [dataset_id; version_id] =>
      if COG_LOAD_4BIT env && COG_LOAD_8BIT env
      then Raise (OtherError "ValueError")
      else
        let cache_dir := path_join (MODEL_CACHE_DIR env) model_id in
        tokenizer ← tokenizer_from_pretrained "lmsys/vicuna-7b-v1.5";
        model ← network_from_pretrained ("THUDM/" +:+ version_id)
                  (COG_LOAD_4BIT env) (COG_LOAD_8BIT env) cache_dir;
        mret {| model_id := model_id; endpoint := model_id; api_key := API_KEY env;
                dataset_id := dataset_id; version_id := version_id;
                cache_dir := cache_dir; tokenizer := tokenizer; model := model |}
  | _ => Raise (OtherError "ValueError")
  end.

(** The images [predict] hands to the network. *)
Definition images_of (image_in : option Image) : list Image :=
  match image_in with
  | Some image => [image]
  | None => []
  end.

(** [CogVLM.predict] *)
Definition predict (self : CogVLM) (image_in : option Image) (prompt : string) : string :=
  let images := images_of image_in in
  let text := generate_and_decode (model self) (tokenizer self) prompt images in
  if endswith "</s>" text then without_last 4 text else text.

(** [CogVLM.postprocess]: [predictions[0]] *)
Definition postprocess {P : Type} (predictions : list P) : Outcome P :=
  match predictions with
  | p :: _ => Ok p
  | [] => Raise (OtherError "IndexError")
  end.

End Model.

End Cog.

(** ** The benchmark command ([inference_cli/benchmark.py]) *)

Module Benchmark.

(** The options of [api_speed]. *)
Record Options : Type := {
  model_id : string;
  dataset_reference : string;
  host : string;
  warm_up_requests : Z;
  benchmark_requests : Z;
  request_batch_size : Z;
  number_of_clients : Z;
  requests_per_second : option Z;
  api_key : option string;
  model_configuration : option string;
  output_location : option string;
  enforce_legacy_endpoints : bool;
  proceed_automatically : bool;
}.

(** The arguments of [run_api_speed_benchmark]. *)
Record Arguments : Type := {
  arg_model_id : string;
  arg_dataset_reference : string;
  arg_host : string;
  arg_warm_up_requests : Z;
  arg_benchmark_requests : Z;
  arg_request_batch_size : Z;
  arg_number_of_clients : Z;
  arg_requests_per_second : option Z;
  arg_api_key : option string;
  arg_model_configuration : option string;
  arg_output_location : option string;
  arg_enforce_legacy_endpoints : bool;
}.

(** What [api_speed] does: whether it asked on the console, and the
    arguments it called [run_api_speed_benchmark] with, [None] when it
    returned without running it. *)
Record Run : Type := { asked : bool; launched : option Arguments }.

Definition run_api_speed_benchmark (options : Options) : Arguments :=
  {| arg_model_id := model_id options;
     arg_dataset_reference := dataset_reference options;
     arg_host := host options;
     arg_warm_up_requests := warm_up_requests options;
     arg_benchmark_requests := benchmark_requests options;
     arg_request_batch_size := request_batch_size options;
     arg_number_of_clients := number_of_clients options;
     arg_requests_per_second := requests_per_second options;
     arg_api_key := api_key options;
     arg_model_configuration := model_configuration options;
     arg_output_location := output_location options;
     arg_enforce_legacy_endpoints := enforce_legacy_endpoints options |}.

(** [api_speed]; [typed] is the line the user types when asked. *)
Definition api_speed (options : Options) (typed : string) : Run :=
  if contains "roboflow.com" (host options) && negb (proceed_automatically options)
  then
    let proceed := typed in
    if negb (String.eqb (lower proceed) "y")
    then {| asked := true; launched := None |}
    else {| asked := true; launched := Some (run_api_speed_benchmark options) |}
  else {| asked := false; launched := Some (run_api_speed_benchmark options) |}.

End Benchmark.

(** ** More to run the code against *)

Module Samples.

(** A failed response that declares JSON and has no [message]. *)
Definition no_message : Response :=
  Demo.reply 404 (JObj [("detail", JStr "Not Found")]).

Definition failing_without_message : @M Demo.collaborators unit :=
  lift (raise_for_status (fun _ => "error") no_message).

(** A backend like the small one, whose registry holds one model of a task
    type without an inference endpoint. *)
Definition gaze_model : ModelDescription :=
  {| model_id := "gaze/1"; task_type := "gaze-detection";
     input_height := None; input_width := None |}.

Definition gaze_only : Collaborators :=
  {| Backend := list string;
     serve := Demo.respond;
     latency := fun i _ => i;
     http_error_description := fun _ => "error";
     RegisteredModels_from_dict := fun _ => Ok {| models := [gaze_model] |};
     load_image := Demo.load;
     to_legacy_call_parameters := fun _ => [];
     to_api_call_parameters := fun _ _ _ => [];
     response_contains_jpeg_image := fun _ => false;
     transform_visualisation_bytes := fun bytes _ => Ok (JVisual bytes);
     transform_base64_visualisation := fun _ _ => Ok (JVisual "decoded");
     inject_images_into_payload := fun payload images _ =>
       dict_set "image" (JArr (map (fun e => JStr (fst e)) images)) payload;
     api_key_safe_raise_for_status := fun _ => Ok tt;
     combine_gaze_detections := fun r => Ok r;
     is_spatial := fun k => String.eqb k "x" |}.

Definition gaze_world : @World gaze_only :=
  @Build_World gaze_only
    {| api_url := "http://localhost:9001"; api_key := "key";
       inference_configuration := Demo.configuration;
       client_mode := V1; selected_model := None |}
    [] [].

Definition cog_env : Cog.Env :=
  {| Cog.API_KEY := Some "key"; Cog.COG_LOAD_4BIT := true; Cog.COG_LOAD_8BIT := false;
     Cog.COG_VERSION_ID := "cogvlm-chat-hf"; Cog.MODEL_CACHE_DIR := "/tmp/cache" |}.

Definition cog_model : Cog.CogVLM unit unit :=
  {| Cog.model_id := "cogvlm/cogvlm-chat-hf"; Cog.endpoint := "cogvlm/cogvlm-chat-hf";
     Cog.api_key := Some "key"; Cog.dataset_id := "cogvlm";
     Cog.version_id := "cogvlm-chat-hf";
     Cog.cache_dir := "/tmp/cache/cogvlm/cogvlm-chat-hf";
     Cog.tokenizer := tt; Cog.model := tt |}.

(** A network that answers with the prompt and the end-of-sequence mark. *)
Definition echo (network tokenizer : unit) (prompt : string) (images : list string)
    : string :=
  prompt +:+ "</s>".

Definition hosted_benchmark : Benchmark.Options :=
  {| Benchmark.model_id := "m/1"; Benchmark.dataset_reference := "coco";
     Benchmark.host := "https://detect.roboflow.com";
     Benchmark.warm_up_requests := 10; Benchmark.benchmark_requests := 1000;
     Benchmark.request_batch_size := 1; Benchmark.number_of_clients := 1;
     Benchmark.requests_per_second := None; Benchmark.api_key := None;
     Benchmark.model_configuration := None; Benchmark.output_location := None;
     Benchmark.enforce_legacy_endpoints := false;
     Benchmark.proceed_automatically := false |}.

(** The backends below differ from the small one in what they answer. *)
Definition backend_of (answer : Request -> list string -> NetOutcome * list string)
    : Collaborators :=
  {| Backend := list string;
     serve := answer;
     latency := fun i _ => (100 - i)%nat;
     http_error_description := fun _ => "error";
     RegisteredModels_from_dict := Demo.from_dict;
     load_image := Demo.load;
     to_legacy_call_parameters := fun _ => [];
     to_api_call_parameters := fun _ _ _ => [];
     response_contains_jpeg_image := fun _ => false;
     transform_visualisation_bytes := fun bytes _ => Ok (JVisual bytes);
     transform_base64_visualisation := fun _ _ => Ok (JVisual "decoded");
     inject_images_into_payload := fun payload images _ =>
       dict_set "image" (JArr (map (fun e => JStr (fst e)) images)) payload;
     api_key_safe_raise_for_status := fun _ => Ok tt;
     combine_gaze_detections := fun r => Ok r;
     is_spatial := fun k => String.eqb k "x" |}.

Definition world_of (answer : Request -> list string -> NetOutcome * list string)
    (registered : list string) : @World (backend_of answer) :=
  @Build_World (backend_of answer)
    {| api_url := "http://localhost:9001"; api_key := "key";
       inference_configuration := Demo.configuration;
       client_mode := V1; selected_model := None |}
    registered [].

(** A backend that registers the model it is asked to load. *)
Definition respond_registering (rq : Request) (ids : list string)
    : NetOutcome * list string :=
  if contains "/model/add" (url rq)
  then match json_payload rq ≫= dict_get "model_id" with
       | Some (JStr id) =>
           (Replied (Demo.reply 200 (Demo.registry_document (ids ++ [id]))), ids ++ [id])
       | _ => (Replied (Demo.reply 400 (JObj [])), ids)
       end
  else Demo.respond rq ids.

Definition registering : @World (backend_of respond_registering) :=
  world_of respond_registering [].

(** A backend that cannot be reached. *)
Definition unreachable (rq : Request) (ids : list string) : NetOutcome * list string :=
  (Failed (ConnectionError "connection refused"), ids).

Definition offline : @World (backend_of unreachable) := world_of unreachable [].

Definition description (id : string) : ModelDescription :=
  {| model_id := id; task_type := "object-detection";
     input_height := None; input_width := None |}.

Definition registry_reply (ids : list string) : Response :=
  Demo.reply 200 (Demo.registry_document ids).







End Samples.

(** * Properties *)

Section Properties.

Context {ext : Collaborators}.

(** ** Reasoning about methods *)

Lemma bind_ok_inv {A B : Type} (m : M A) (f : A -> M B) (w w' : World) (b : B) :
  (m ≫= f) w = (Ok b, w') ->
  exists a w1, m w = (Ok a, w1) /\ f a w1 = (Ok b, w').
Proof.
  unfold mbind, M_bind. destruct (m w) as [[a|e] w1]; intros H.
  - exists a, w1. split; [reflexivity | exact H].
  - discriminate.
Qed.

Lemma bind_ok {A B : Type} (m : M A) (f : A -> M B) (w w1 : World) (a : A) :
  m w = (Ok a, w1) -> (m ≫= f) w = f a w1.
Proof. unfold mbind, M_bind. intros ->. reflexivity. Qed.

Lemma bind_raise {A B : Type} (m : M A) (f : A -> M B) (w w1 : World) (e : Exn) :
  m w = (Raise e, w1) -> (m ≫= f) w = (Raise e, w1).
Proof. unfold mbind, M_bind. intros ->. reflexivity. Qed.

Lemma wrap_errors_ok_inv {A : Type} (function : M A) (w w' : World) (a : A) :
  wrap_errors function w = (Ok a, w') -> function w = (Ok a, w').
Proof.
  unfold wrap_errors. destruct (function w) as [[a0|e] w1]; [tauto|].
  destruct e; try discriminate.
  repeat case_match; discriminate.
Qed.

Lemma wrap_errors_world {A : Type} (function : M A) (w : World) :
  snd (wrap_errors function w) = snd (function w).
Proof.
  unfold wrap_errors. destruct (function w) as [[a|e] w1]; [reflexivity|].
  destruct e; try reflexivity. repeat case_match; reflexivity.
Qed.

Lemma wrap_errors_coroutine_runs {A : Type} (function : M A) (w : World) :
  wrap_errors_coroutine function w = function w.
Proof. reflexivity. Qed.

Lemma ensure_v1_in_v0 (w : World) :
  client_mode (client w) = V0 ->
  __ensure_v1_client_mode w =
    (Raise (WrongClientModeError "Use client mode `v1` to run this operation."), w).
Proof. unfold __ensure_v1_client_mode, mbind, M_bind, self. intros ->. reflexivity. Qed.

Lemma ensure_v1_in_v1 (w : World) :
  client_mode (client w) = V1 -> __ensure_v1_client_mode w = (Ok tt, w).
Proof. unfold __ensure_v1_client_mode, mbind, M_bind, self. intros ->. reflexivity. Qed.

Ltac registry_answer Hmode :=
  unfold __ensure_v1_client_mode, mbind, M_bind, self, mret, M_ret, raise,
    requests_get, requests_post, send, transmit, lift, after_exchange,
    registry_request, load_request;
  rewrite Hmode; simpl;
  match goal with
  | |- context [serve ?rq ?b] => destruct (serve rq b) as [[r|e] b']
  end; simpl;
  repeat match goal with
         | |- context [match ?x with _ => _ end] =>
             match type of x with
             | Outcome _ => destruct x
             end; simpl
         end;
  reflexivity.

Ltac registry_accepted Hmode Hacc :=
  let Hs := fresh "Hs" in
  let Hst := fresh "Hst" in
  let document := fresh "document" in
  let Hj := fresh "Hj" in
  let Hd := fresh "Hd" in
  destruct Hacc as (Hs & Hst & document & Hj & Hd);
  unfold __ensure_v1_client_mode, mbind, M_bind, self, mret, M_ret, raise,
    requests_get, requests_post, send, transmit, lift, after_exchange,
    set_selected_model, raise_for_status, aiohttp_raise_for_status, response_json
    in *;
  rewrite Hmode; simpl; rewrite Hs; simpl;
  rewrite (proj2 (Z.leb_gt _ _) Hst); simpl;
  rewrite Hj; simpl; rewrite Hd; simpl.

(** ** Resize bounds *)

(** C10: with client downsizing disabled no resize is asked for, whatever the
    model description and the default maximum size; with downsizing enabled
    the bounds are the input height and width of the description when it has
    both, and the default maximum size twice when there is no description or
    one of the two is missing. *)
Theorem determine_client_downsizing_parameters_precedence
    (model_description : option ModelDescription) (default_max_input_size : Z)
    (id task : string) (h w : Z) (other : option Z) :
  _determine_client_downsizing_parameters true model_description default_max_input_size
    = (None, None)
  /\ _determine_client_downsizing_parameters false
       (Some {| model_id := id; task_type := task;
                input_height := Some h; input_width := Some w |})
       default_max_input_size
     = (Some h, Some w)
  /\ _determine_client_downsizing_parameters false None default_max_input_size
     = (Some default_max_input_size, Some default_max_input_size)
  /\ _determine_client_downsizing_parameters false
       (Some {| model_id := id; task_type := task;
                input_height := None; input_width := other |})
       default_max_input_size
     = (Some default_max_input_size, Some default_max_input_size)
  /\ _determine_client_downsizing_parameters false
       (Some {| model_id := id; task_type := task;
                input_height := other; input_width := None |})
       default_max_input_size
     = (Some default_max_input_size, Some default_max_input_size).
Proof.
  repeat split; destruct other; reflexivity.
Qed.

(** ** Unloading and the selected model *)

Lemma ensure_v1_ok_inv (w w1 : World) (u : unit) :
  __ensure_v1_client_mode w = (Ok u, w1) ->
  w1 = w /\ client_mode (client w) = V1.
Proof.
  unfold __ensure_v1_client_mode, mbind, M_bind, self, mret, M_ret, raise.
  destruct (client_mode (client w)); intros H; inversion H. split; reflexivity.
Qed.

Lemma send_ok_inv (rq : Request) (w w1 : World) (r : Response) :
  send rq w = (Ok r, w1) ->
  client w1 = client w /\ exchanges w1 = exchanges w ++ [(rq, Replied r)].
Proof.
  unfold send, transmit. destruct (serve rq (backend w)) as [[r0|e] b];
    intros H; inversion H. split; reflexivity.
Qed.

Lemma lift_ok_inv {A : Type} (o : Outcome A) (w w1 : World) (a : A) :
  lift o w = (Ok a, w1) -> o = Ok a /\ w1 = w.
Proof. unfold lift. intros H. inversion H. split; reflexivity. Qed.

Lemma unload_model_selection (model_id : string) (w w' : World) (r : RegisteredModels) :
  unload_model model_id w = (Ok r, w') ->
  selected_model (client w') =
    if decide (Some model_id = selected_model (client w)) then None
    else selected_model (client w).
Proof.
  intros H. apply wrap_errors_ok_inv in H.
  apply bind_ok_inv in H as (u & w1 & H1 & H).
  apply ensure_v1_ok_inv in H1 as [-> _].
  apply bind_ok_inv in H as (c & w2 & H2 & H). unfold self in H2.
  inversion H2; subst c w2; clear H2.
  apply bind_ok_inv in H as (response & w3 & H3 & H).
  apply send_ok_inv in H3 as [Hc _].
  apply bind_ok_inv in H as (u1 & w4 & H4 & H). apply lift_ok_inv in H4 as [_ ->].
  apply bind_ok_inv in H as (payload & w5 & H5 & H). apply lift_ok_inv in H5 as [_ ->].
  apply bind_ok_inv in H as (c & w6 & H6 & H). unfold self in H6.
  inversion H6; subst c w6; clear H6.
  apply bind_ok_inv in H as (u2 & w7 & H7 & H). apply lift_ok_inv in H as [_ ->].
  rewrite Hc in H7.
  destruct (decide (Some model_id = selected_model (client w))).
  - unfold set_selected_model in H7. inversion H7. reflexivity.
  - unfold mret, M_ret in H7. inversion H7; subst. rewrite Hc. reflexivity.
Qed.

Lemma unload_all_models_selection (w w' : World) (r : RegisteredModels) :
  unload_all_models w = (Ok r, w') -> selected_model (client w') = None.
Proof.
  intros H. apply wrap_errors_ok_inv in H.
  apply bind_ok_inv in H as (u & w1 & H1 & H).
  apply ensure_v1_ok_inv in H1 as [-> _].
  apply bind_ok_inv in H as (c & w2 & H2 & H). unfold self in H2.
  inversion H2; subst c w2; clear H2.
  apply bind_ok_inv in H as (response & w3 & H3 & H).
  apply bind_ok_inv in H as (u1 & w4 & H4 & H). apply lift_ok_inv in H4 as [_ ->].
  apply bind_ok_inv in H as (payload & w5 & H5 & H). apply lift_ok_inv in H5 as [_ ->].
  apply bind_ok_inv in H as (u2 & w7 & H7 & H). apply lift_ok_inv in H as [_ ->].
  unfold set_selected_model in H7. inversion H7. reflexivity.
Qed.

(** C9: after a successful [unload_model] the selection is empty when the
    unloaded identifier was the selected model and unchanged otherwise; after
    a successful [unload_all_models] the selection is empty.  Both calls
    succeed, after their one exchange, when the backend accepts the
    request. *)
Theorem unloading_clears_selection (model_id : string) (w : World) :
  (forall r w', unload_model model_id w = (Ok r, w') ->
     selected_model (client w') =
       if decide (selected_model (client w) = Some model_id) then None
       else selected_model (client w))
  /\ (forall r w', unload_all_models w = (Ok r, w') ->
        selected_model (client w') = None)
  /\ (forall response registered b',
        client_mode (client w) = V1 ->
        accepts (unload_request model_id w) (backend w) response registered b' ->
        unload_model model_id w
        = (Ok registered,
           {| client := if decide (selected_model (client w) = Some model_id)
                        then with_selected_model None (client w) else client w;
              backend := b';
              exchanges :=
                exchanges w ++ [(unload_request model_id w, Replied response)] |}))
  /\ (forall response registered b',
        client_mode (client w) = V1 ->
        accepts (clear_request w) (backend w) response registered b' ->
        unload_all_models w
        = (Ok registered,
           {| client := with_selected_model None (client w); backend := b';
              exchanges := exchanges w ++ [(clear_request w, Replied response)] |})).
Proof.
  split; [|split; [|split]].
  - intros r w' H. rewrite (unload_model_selection _ _ _ _ H).
    repeat case_decide; congruence.
  - intros r w' H. exact (unload_all_models_selection _ _ _ H).
  - intros response registered b' Hmode Hacc.
    unfold unload_model, wrap_errors, unload_request in *.
    registry_accepted Hmode Hacc.
    unfold with_selected_model. repeat case_decide; try congruence; reflexivity.
  - intros response registered b' Hmode Hacc.
    unfold unload_all_models, wrap_errors, clear_request in *.
    registry_accepted Hmode Hacc. reflexivity.
Qed.

(** ** The error translator *)




(** ** Scoped overrides *)

(** C6: each scoped override runs its body with the field overridden and,
    whether the body returns or raises, leaves the field as it was before
    the override; the outcome is the outcome of the body, and every other
    field, the backend and the log are as the body left them. *)
Theorem scoped_overrides_restore {A : Type} (body : M A) (w : World)
    (configuration : InferenceConfiguration) (model : string) :
  (let inside := body (snd (set_inference_configuration configuration w)) in
   let after := use_configuration configuration body w in
   fst after = fst inside
   /\ inference_configuration (client (snd after)) = inference_configuration (client w)
   /\ same_but_configuration (snd after) (snd inside))
  /\ (let inside := body (snd (set_client_mode V0 w)) in
      let after := use_api_v0 body w in
      fst after = fst inside
      /\ client_mode (client (snd after)) = client_mode (client w)
      /\ same_but_client_mode (snd after) (snd inside))
  /\ (let inside := body (snd (set_client_mode V1 w)) in
      let after := use_api_v1 body w in
      fst after = fst inside
      /\ client_mode (client (snd after)) = client_mode (client w)
      /\ same_but_client_mode (snd after) (snd inside))
  /\ (let inside := body (snd (set_selected_model (Some model) w)) in
      let after := use_model model body w in
      fst after = fst inside
      /\ selected_model (client (snd after)) = selected_model (client w)
      /\ same_but_selected_model (snd after) (snd inside)).
Proof.
  unfold use_configuration, use_api_v0, use_api_v1, use_model,
    same_but_configuration, same_but_client_mode, same_but_selected_model.
  unfold mbind, M_bind, self, try_finally; simpl.
  repeat split;
    match goal with
    | |- context [body ?x] => destruct (body x) as [r w1]
    end; reflexivity.
Qed.

(** ** Operations of the current protocol in legacy mode *)

Lemma wrap_errors_wrong_mode {A : Type} (rest : unit -> M A) (w : World) :
  client_mode (client w) = V0 ->
  wrap_errors (__ensure_v1_client_mode ≫= rest) w = (Raise wrong_mode, w).
Proof.
  intros Hmode. unfold wrap_errors.
  rewrite (bind_raise _ _ _ _ _ (ensure_v1_in_v0 w Hmode)). reflexivity.
Qed.

(** C5: in legacy mode every operation that needs the current protocol
    raises [WrongClientModeError] and leaves the world as it was: the session
    state and the backend are unchanged and nothing went over the network. *)
Theorem current_only_operations_raise_in_legacy_mode (w : World) :
  client_mode (client w) = V0 ->
  list_loaded_models w = (Raise wrong_mode, w)
  /\ (forall model set_as_default,
        load_model model set_as_default w = (Raise wrong_mode, w))
  /\ (forall model, unload_model model w = (Raise wrong_mode, w))
  /\ unload_all_models w = (Raise wrong_mode, w)
  /\ (forall depth model allow_loading,
        get_model_description (S depth) model allow_loading w = (Raise wrong_mode, w))
  /\ (forall input model, infer_from_api_v1 input model w = (Raise wrong_mode, w))
  /\ (forall input, detect_gazes input w = (Raise wrong_mode, w))
  /\ (forall image prompt history,
        prompt_cogvlm image prompt history w = (Raise wrong_mode, w))
  /\ list_loaded_models_async w = (Raise wrong_mode, w)
  /\ (forall model set_as_default,
        load_model_async model set_as_default w = (Raise wrong_mode, w))
  /\ (forall model, unload_model_async model w = (Raise wrong_mode, w))
  /\ unload_all_models_async w = (Raise wrong_mode, w)
  /\ (forall depth model allow_loading,
        get_model_description_async (S depth) model allow_loading w
        = (Raise wrong_mode, w)).
Proof.
  intros Hmode.
  pose proof (ensure_v1_in_v0 w Hmode) as He.
  repeat split; intros;
    try (apply wrap_errors_wrong_mode; exact Hmode);
    try (unfold list_loaded_models_async, load_model_async, unload_model_async,
           unload_all_models_async;
         rewrite wrap_errors_coroutine_runs; apply bind_raise; exact He).
  - simpl. apply bind_raise. exact He.
  - unfold infer_from_api_v1, infer_from_api_v1_results.
    apply bind_raise. apply bind_raise. exact He.
  - simpl. apply bind_raise. exact He.
Qed.

(** ** Describe or load *)

Lemma registry_is_not_add (api : string) :
  api +:+ "/model/registry" <> api +:+ "/model/add".
Proof.
  induction api as [|c api IH]; simpl; [discriminate|].
  intros H. apply IH. injection H. tauto.
Qed.

Ltac registry_call :=
  unfold __ensure_v1_client_mode, mbind, M_bind, self, mret, M_ret, raise,
    requests_get, requests_post, send, transmit, lift, one_exchange,
    registry_request, load_request;
  intros w;
  destruct (client_mode (client w)) eqn:Hmode; simpl;
  [ split; [reflexivity | split; [left; reflexivity | discriminate]] | ];
  match goal with
  | |- context [serve ?rq ?b] => destruct (serve rq b) as [[r|e] b']
  end; simpl;
  repeat match goal with
         | |- context [match ?x with _ => _ end] =>
             match type of x with
             | Outcome _ => destruct x
             end; simpl
         end;
  (split; [reflexivity | split; [right; eexists; reflexivity
                                | intros _; eexists; reflexivity]]).

Lemma list_loaded_models_one_exchange (w : World) :
  one_exchange (registry_request w) w (snd (list_loaded_models w)).
Proof.
  unfold list_loaded_models. rewrite wrap_errors_world. revert w. registry_call.
Qed.

Lemma load_model_one_exchange (model : string) (w : World) :
  one_exchange (load_request model w) w (snd (load_model model false w)).
Proof.
  unfold load_model. rewrite wrap_errors_world. revert w. registry_call.
Qed.

Lemma list_loaded_models_async_one_exchange (w : World) :
  one_exchange (registry_request w) w (snd (list_loaded_models_async w)).
Proof.
  unfold list_loaded_models_async. rewrite wrap_errors_coroutine_runs.
  revert w. registry_call.
Qed.

Lemma load_model_async_one_exchange (model : string) (w : World) :
  one_exchange (load_request model w) w (snd (load_model_async model false w)).
Proof.
  unfold load_model_async. rewrite wrap_errors_coroutine_runs.
  revert w. registry_call.
Qed.

Lemma get_model_description_S (depth : nat) (model : string) (allow_loading : bool)
    (w : World) :
  get_model_description (S depth) model allow_loading w =
    match __ensure_v1_client_mode w with
    | (Raise e, w0) => (Raise e, w0)
    | (Ok _, w0) =>
        match list_loaded_models w0 with
        | (Raise e, w1) => (Raise e, w1)
        | (Ok registered_models, w1) =>
            match filter (fun e => model_id e = model) (models registered_models) with
            | e :: _ => (Ok (Some e), w1)
            | [] =>
                if allow_loading
                then match load_model model false w1 with
                     | (Raise e, w2) => (Raise e, w2)
                     | (Ok _, w2) => get_model_description depth model false w2
                     end
                else (Raise (not_initialised model), w1)
            end
        end
    end.
Proof.
  simpl. unfold mbind, M_bind.
  destruct (__ensure_v1_client_mode w) as [[u|e] w0]; [|reflexivity].
  destruct (list_loaded_models w0) as [[reg|e] w1]; [|reflexivity].
  destruct (filter _ (models reg)); [|reflexivity].
  destruct allow_loading; reflexivity.
Qed.

Lemma get_model_description_async_S (depth : nat) (model : string)
    (allow_loading : bool) (w : World) :
  get_model_description_async (S depth) model allow_loading w =
    match __ensure_v1_client_mode w with
    | (Raise e, w0) => (Raise e, w0)
    | (Ok _, w0) =>
        match list_loaded_models_async w0 with
        | (Raise e, w1) => (Raise e, w1)
        | (Ok registered_models, w1) =>
            match filter (fun e => model_id e = model) (models registered_models) with
            | e :: _ => (Ok (Some e), w1)
            | [] =>
                if allow_loading
                then match load_model_async model false w1 with
                     | (Raise e, w2) => (Raise e, w2)
                     | (Ok _, w2) => get_model_description_async depth model false w2
                     end
                else (Raise (not_initialised model), w1)
            end
        end
    end.
Proof.
  simpl. unfold mbind, M_bind.
  destruct (__ensure_v1_client_mode w) as [[u|e] w0]; [|reflexivity].
  destruct (list_loaded_models_async w0) as [[reg|e] w1]; [|reflexivity].
  destruct (filter _ (models reg)); [|reflexivity].
  destruct allow_loading; reflexivity.
Qed.

Lemma load_attempts_app (api : string) (l1 l2 : list (Request * NetOutcome)) :
  load_attempts api (l1 ++ l2) = load_attempts api l1 + load_attempts api l2.
Proof. unfold load_attempts. rewrite filter_app, length_app. reflexivity. Qed.

Lemma load_attempts_registry (w : World) (out : NetOutcome) :
  load_attempts (api_url (client w)) [(registry_request w, out)] = 0.
Proof.
  unfold load_attempts. rewrite filter_cons_False, filter_nil; [reflexivity|].
  simpl. apply registry_is_not_add.
Qed.

Lemma load_attempts_load (model : string) (w : World) (out : NetOutcome) :
  load_attempts (api_url (client w)) [(load_request model w, out)] = 1.
Proof.
  unfold load_attempts. rewrite filter_cons_True, filter_nil; reflexivity.
Qed.

Lemma registry_request_client (w w' : World) :
  client w' = client w -> registry_request w' = registry_request w.
Proof. unfold registry_request. intros ->. reflexivity. Qed.

Lemma load_request_client (model : string) (w w' : World) :
  client w' = client w -> load_request model w' = load_request model w.
Proof. unfold load_request. intros ->. reflexivity. Qed.

Lemma ensure_v1_cases (w : World) :
  (client_mode (client w) = V0 /\ __ensure_v1_client_mode w = (Raise wrong_mode, w))
  \/ (client_mode (client w) = V1 /\ __ensure_v1_client_mode w = (Ok tt, w)).
Proof.
  destruct (client_mode (client w)) eqn:Hmode.
  - left. split; [reflexivity | apply ensure_v1_in_v0, Hmode].
  - right. split; [reflexivity | apply ensure_v1_in_v1, Hmode].
Qed.

Section DescribeOrLoad.

Variable list load : M RegisteredModels.
Variable model : string.

Hypothesis list_needs_v1 :
  forall w registered w1, list w = (Ok registered, w1) -> client_mode (client w) = V1.
Hypothesis list_effect :
  forall w, one_exchange (registry_request w) w (snd (list w)).
Hypothesis load_effect :
  forall w, one_exchange (load_request model w) w (snd (load w)).

Hypothesis list_world :
  forall w, client_mode (client w) = V1 ->
    snd (list w)
    = after_exchange w (registry_request w)
        (fst (serve (registry_request w) (backend w)))
        (snd (serve (registry_request w) (backend w))).
Hypothesis list_accepted :
  forall w response registered b',
    client_mode (client w) = V1 ->
    accepts (registry_request w) (backend w) response registered b' ->
    list w = (Ok registered, after_exchange w (registry_request w) (Replied response) b').
Hypothesis load_world :
  forall w, client_mode (client w) = V1 ->
    snd (load w)
    = after_exchange w (load_request model w)
        (fst (serve (load_request model w) (backend w)))
        (snd (serve (load_request model w) (backend w))).
Hypothesis load_accepted :
  forall w response registered b',
    client_mode (client w) = V1 ->
    accepts (load_request model w) (backend w) response registered b' ->
    load w = (Ok registered, after_exchange w (load_request model w) (Replied response) b').

Lemma list_in_v1 (w : World) (r : Outcome RegisteredModels) (w1 : World) :
  client_mode (client w) = V1 -> list w = (r, w1) ->
  client w1 = client w
  /\ exists out, exchanges w1 = exchanges w ++ [(registry_request w, out)].
Proof.
  intros Hmode Hl. destruct (list_effect w) as (Hc & _ & Hx).
  rewrite Hl in Hc, Hx. simpl in Hc, Hx. split; [exact Hc | exact (Hx Hmode)].
Qed.

Lemma load_in_v1 (w : World) (r : Outcome RegisteredModels) (w1 : World) :
  client_mode (client w) = V1 -> load w = (r, w1) ->
  client w1 = client w
  /\ exists out, exchanges w1 = exchanges w ++ [(load_request model w, out)].
Proof.
  intros Hmode Hl. destruct (load_effect w) as (Hc & _ & Hx).
  rewrite Hl in Hc, Hx. simpl in Hc, Hx. split; [exact Hc | exact (Hx Hmode)].
Qed.

Lemma describe_with_loading_at_most_one_load (w : World) :
  at_most_one_load list load model w (describe_with_loading list load model w).
Proof.
  unfold describe_with_loading.
  destruct (ensure_v1_cases w) as [[Hmode ->] | [Hmode ->]].
  { (* legacy mode: nothing is sent *)
    unfold at_most_one_load. simpl. split; [discriminate|]. split; [reflexivity|].
    exists []. rewrite app_nil_r. split; [reflexivity|].
    split; [unfold load_attempts; simpl; lia|].
    intros registered w1 Hl. apply list_needs_v1 in Hl. congruence. }
  destruct (list w) as [r1 w1] eqn:Hl1.
  destruct (list_in_v1 w r1 w1 Hmode Hl1) as (Hc1 & out1 & Hx1).
  pose proof (load_attempts_registry w out1) as Hn1.
  destruct r1 as [registered|e1].
  2:{ (* the first fetch fails *)
      unfold at_most_one_load. simpl. split; [discriminate|]. split; [exact Hc1|].
      exists [(registry_request w, out1)]. split; [exact Hx1|].
      split; [lia|]. intros ? ? Hl. rewrite Hl1 in Hl. discriminate. }
  destruct (filter (fun e => model_id e = model) (models registered)) as [|e found] eqn:Hf.
  2:{ (* the model is registered *)
      unfold at_most_one_load. simpl. split; [discriminate|]. split; [exact Hc1|].
      exists [(registry_request w, out1)]. split; [exact Hx1|].
      split; [lia|]. intros ? ? Hl. rewrite Hl1 in Hl. injection Hl as <- <-.
      rewrite Hf. split; [reflexivity | eexists; reflexivity]. }
  assert (client_mode (client w1) = V1) as Hmode1 by (rewrite Hc1; exact Hmode).
  destruct (load w1) as [r2 w2] eqn:Hl2.
  destruct (load_in_v1 w1 r2 w2 Hmode1 Hl2) as (Hc2 & out2 & Hx2).
  rewrite (load_request_client model w w1 Hc1), Hx1, <- app_assoc in Hx2. simpl in Hx2.
  pose proof (load_attempts_load model w out2) as Hn2.
  assert (load_attempts (api_url (client w))
            [(registry_request w, out1); (load_request model w, out2)] = 1) as Hn12.
  { change [(registry_request w, out1); (load_request model w, out2)]
      with ([(registry_request w, out1)] ++ [(load_request model w, out2)]).
    rewrite load_attempts_app, Hn1, Hn2. reflexivity. }
  destruct r2 as [loaded|e2].
  2:{ (* the load call fails *)
      unfold at_most_one_load. simpl. split; [discriminate|]. split; [congruence|].
      eexists. split; [exact Hx2|]. split; [lia|].
      intros ? ? Hl. rewrite Hl1 in Hl. injection Hl as <- <-.
      rewrite Hf. split; [exact Hn12|].
      intros ? ? ? ? Hl2'. rewrite Hl2 in Hl2'. discriminate. }
  assert (client w2 = client w) as Hcw2 by congruence.
  assert (client_mode (client w2) = V1) as Hmode2 by (rewrite Hcw2; exact Hmode).
  unfold describe_without_loading. rewrite (ensure_v1_in_v1 w2 Hmode2).
  destruct (list w2) as [r3 w3] eqn:Hl3.
  destruct (list_in_v1 w2 r3 w3 Hmode2 Hl3) as (Hc3 & out3 & Hx3).
  rewrite (registry_request_client w w2 Hcw2), Hx2, <- app_assoc in Hx3. simpl in Hx3.
  assert (load_attempts (api_url (client w))
            [(registry_request w, out1); (load_request model w, out2);
             (registry_request w, out3)] = 1) as Hn123.
  { change [(registry_request w, out1); (load_request model w, out2);
            (registry_request w, out3)]
      with ([(registry_request w, out1); (load_request model w, out2)]
            ++ [(registry_request w, out3)]).
    rewrite load_attempts_app, Hn12, (load_attempts_registry w out3). reflexivity. }
  assert (forall r : Outcome (option ModelDescription),
            r <> Ok None ->
            (forall registered' w3',
               (r3, w3) = (Ok registered', w3') ->
               match filter (fun e => model_id e = model) (models registered') with
               | e :: _ => (r, w3) = (Ok (Some e), w3')
               | [] => (r, w3) = (Raise (not_initialised model), w3')
               end) ->
            at_most_one_load list load model w (r, w3)) as Hfinish.
  { intros r Hr Hlast. unfold at_most_one_load. simpl.
    split; [exact Hr|]. split; [congruence|].
    eexists. split; [exact Hx3|]. split; [lia|].
    intros ? ? Hl1'. rewrite Hl1 in Hl1'. injection Hl1' as <- <-.
    rewrite Hf. split; [exact Hn123|].
    intros loaded0 w2' registered' w3' Hl2' Hl3'.
    rewrite Hl2 in Hl2'. injection Hl2' as <- <-.
    rewrite Hl3 in Hl3'. split; [do 3 eexists; reflexivity|].
    apply Hlast. exact Hl3'. }
  destruct r3 as [registered'|e3].
  2:{ apply Hfinish; [discriminate|]. intros ? ? [=]. }
  destruct (filter (fun e => model_id e = model) (models registered')) as [|e' found']
    eqn:Hf'.
  - apply Hfinish; [discriminate|]. intros ? ? [= <- <-]. rewrite Hf'. reflexivity.
  - apply Hfinish; [discriminate|]. intros ? ? [= <- <-]. rewrite Hf'. reflexivity.
Qed.

Lemma describe_with_loading_loads_when_absent (w : World) :
  loads_when_absent model w (describe_with_loading list load model w).
Proof.
  intros Hmode. unfold describe_with_loading.
  rewrite (ensure_v1_in_v1 w Hmode). split.
  - pose proof (list_world w Hmode) as Hw1.
    destruct (list w) as [[registered1|e1] w1] eqn:Hl1; simpl in Hw1; subst w1;
      [|exists []; reflexivity].
    destruct (filter _ (models registered1)); [|exists []; reflexivity].
    match goal with
    | |- context [load ?w1] =>
        pose proof (load_world w1 Hmode) as Hw2;
        destruct (load w1) as [[loaded|e2] w2] eqn:Hl2; simpl in Hw2; subst w2
    end.
    2:{ eexists. simpl. rewrite <- app_assoc. reflexivity. }
    unfold describe_without_loading.
    match goal with
    | |- context [__ensure_v1_client_mode ?w2] =>
        rewrite (ensure_v1_in_v1 w2 Hmode);
        pose proof (list_world w2 Hmode) as Hw3;
        destruct (list w2) as [[registered3|e3] w3] eqn:Hl3; simpl in Hw3; subst w3
    end.
    + destruct (filter _ (models registered3));
        eexists; simpl; rewrite <- !app_assoc; reflexivity.
    + eexists. simpl. rewrite <- !app_assoc. reflexivity.
  - intros response1 registered1 b1 Hacc1.
    rewrite (list_accepted w _ _ _ Hmode Hacc1).
    unfold registered_as.
    destruct (filter _ (models registered1)) as [|e found]; simpl;
      [|split; [intros e' [= <-]; reflexivity | discriminate]].
    split; [discriminate|]. intros _.
    set (w1 := after_exchange w (registry_request w) (Replied response1) b1).
    split.
    + pose proof (load_world w1 Hmode) as Hw2.
      destruct (load w1) as [[loaded|e2] w2] eqn:Hl2; simpl in Hw2; subst w2.
      2:{ exists []. simpl. rewrite <- app_assoc. split; reflexivity. }
      unfold describe_without_loading.
      match goal with
      | |- context [__ensure_v1_client_mode ?w2] =>
          rewrite (ensure_v1_in_v1 w2 Hmode);
          pose proof (list_world w2 Hmode) as Hw3;
          destruct (list w2) as [[registered3|e3] w3] eqn:Hl3; simpl in Hw3; subst w3
      end.
      * destruct (filter _ (models registered3));
          (eexists; simpl; rewrite <- !app_assoc; split;
           [reflexivity | apply (load_attempts_registry w)]).
      * eexists. simpl. rewrite <- !app_assoc. split;
          [reflexivity | apply (load_attempts_registry w)].
    + intros response2 loaded b2 response3 registered3 b3 Hacc2 Hacc3.
      rewrite (load_accepted w1 response2 loaded b2 Hmode Hacc2).
      unfold describe_without_loading.
      set (w2 := after_exchange w1 (load_request model w1) (Replied response2) b2).
      rewrite (ensure_v1_in_v1 w2 Hmode).
      rewrite (list_accepted w2 response3 registered3 b3 Hmode Hacc3).
      unfold after_exchange. simpl. rewrite <- !app_assoc. simpl.
      destruct (filter _ (models registered3)); reflexivity.
Qed.

End DescribeOrLoad.

Lemma list_loaded_models_world (w : World) :
  client_mode (client w) = V1 ->
  snd (list_loaded_models w)
  = after_exchange w (registry_request w)
      (fst (serve (registry_request w) (backend w)))
      (snd (serve (registry_request w) (backend w))).
Proof.
  intros Hmode. unfold list_loaded_models. rewrite wrap_errors_world.
  registry_answer Hmode.
Qed.

Lemma load_model_world (model : string) (w : World) :
  client_mode (client w) = V1 ->
  snd (load_model model false w)
  = after_exchange w (load_request model w)
      (fst (serve (load_request model w) (backend w)))
      (snd (serve (load_request model w) (backend w))).
Proof.
  intros Hmode. unfold load_model. rewrite wrap_errors_world.
  registry_answer Hmode.
Qed.

Lemma list_loaded_models_async_world (w : World) :
  client_mode (client w) = V1 ->
  snd (list_loaded_models_async w)
  = after_exchange w (registry_request w)
      (fst (serve (registry_request w) (backend w)))
      (snd (serve (registry_request w) (backend w))).
Proof.
  intros Hmode. unfold list_loaded_models_async. rewrite wrap_errors_coroutine_runs.
  registry_answer Hmode.
Qed.

Lemma load_model_async_world (model : string) (w : World) :
  client_mode (client w) = V1 ->
  snd (load_model_async model false w)
  = after_exchange w (load_request model w)
      (fst (serve (load_request model w) (backend w)))
      (snd (serve (load_request model w) (backend w))).
Proof.
  intros Hmode. unfold load_model_async. rewrite wrap_errors_coroutine_runs.
  registry_answer Hmode.
Qed.

Lemma list_loaded_models_accepted (w : World) (response : Response)
    (registered : RegisteredModels) (b' : Backend) :
  client_mode (client w) = V1 ->
  accepts (registry_request w) (backend w) response registered b' ->
  list_loaded_models w
  = (Ok registered, after_exchange w (registry_request w) (Replied response) b').
Proof.
  intros Hmode Hacc. unfold list_loaded_models, wrap_errors, registry_request in *.
  registry_accepted Hmode Hacc. reflexivity.
Qed.

Lemma load_model_accepted (model : string) (w : World) (response : Response)
    (registered : RegisteredModels) (b' : Backend) :
  client_mode (client w) = V1 ->
  accepts (load_request model w) (backend w) response registered b' ->
  load_model model false w
  = (Ok registered, after_exchange w (load_request model w) (Replied response) b').
Proof.
  intros Hmode Hacc. unfold load_model, wrap_errors, load_request in *.
  registry_accepted Hmode Hacc. reflexivity.
Qed.

Lemma list_loaded_models_async_accepted (w : World) (response : Response)
    (registered : RegisteredModels) (b' : Backend) :
  client_mode (client w) = V1 ->
  accepts (registry_request w) (backend w) response registered b' ->
  list_loaded_models_async w
  = (Ok registered, after_exchange w (registry_request w) (Replied response) b').
Proof.
  intros Hmode Hacc. unfold list_loaded_models_async. rewrite wrap_errors_coroutine_runs.
  unfold registry_request in *.
  registry_accepted Hmode Hacc. reflexivity.
Qed.

Lemma load_model_async_accepted (model : string) (w : World) (response : Response)
    (registered : RegisteredModels) (b' : Backend) :
  client_mode (client w) = V1 ->
  accepts (load_request model w) (backend w) response registered b' ->
  load_model_async model false w
  = (Ok registered, after_exchange w (load_request model w) (Replied response) b').
Proof.
  intros Hmode Hacc. unfold load_model_async. rewrite wrap_errors_coroutine_runs.
  unfold load_request in *.
  registry_accepted Hmode Hacc. reflexivity.
Qed.

Lemma list_loaded_models_needs_v1 (w : World) (registered : RegisteredModels)
    (w1 : World) :
  list_loaded_models w = (Ok registered, w1) -> client_mode (client w) = V1.
Proof.
  intros H. apply wrap_errors_ok_inv in H.
  apply bind_ok_inv in H as (u & w0 & H0 & _).
  apply ensure_v1_ok_inv in H0 as [_ Hmode]. exact Hmode.
Qed.

Lemma list_loaded_models_async_needs_v1 (w : World) (registered : RegisteredModels)
    (w1 : World) :
  list_loaded_models_async w = (Ok registered, w1) -> client_mode (client w) = V1.
Proof.
  intros H. unfold list_loaded_models_async in H.
  rewrite wrap_errors_coroutine_runs in H.
  apply bind_ok_inv in H as (u & w0 & H0 & _).
  apply ensure_v1_ok_inv in H0 as [_ Hmode]. exact Hmode.
Qed.

Lemma get_model_description_unfolded (k : nat) (model : string) (w : World) :
  get_model_description (2 + k) model true w =
    describe_with_loading list_loaded_models (load_model model false) model w.
Proof.
  simpl plus. rewrite get_model_description_S. unfold describe_with_loading.
  destruct (__ensure_v1_client_mode w) as [[u|e] w0]; [|reflexivity].
  destruct (list_loaded_models w0) as [[reg|e] w1]; [|reflexivity].
  destruct (filter _ (models reg)); [|reflexivity].
  destruct (load_model model false w1) as [[ld|e] w2]; [|reflexivity].
  rewrite get_model_description_S. reflexivity.
Qed.

Lemma get_model_description_async_unfolded (k : nat) (model : string) (w : World) :
  get_model_description_async (2 + k) model true w =
    describe_with_loading list_loaded_models_async (load_model_async model false) model w.
Proof.
  simpl plus. rewrite get_model_description_async_S. unfold describe_with_loading.
  destruct (__ensure_v1_client_mode w) as [[u|e] w0]; [|reflexivity].
  destruct (list_loaded_models_async w0) as [[reg|e] w1]; [|reflexivity].
  destruct (filter _ (models reg)); [|reflexivity].
  destruct (load_model_async model false w1) as [[ld|e] w2]; [|reflexivity].
  rewrite get_model_description_async_S. reflexivity.
Qed.

(** C2: a description request with loading permitted, blocking or not, gives
    an answer with two nested calls, leaves the client as it was and sends at
    most one load call.  In the current protocol mode it fetches the registry
    first; when the backend answers with a registry that has the model, that
    description is returned and nothing is loaded; when the registry has not
    the model, exactly one load call goes out and, once the backend has
    accepted it, the registry is fetched once more: the answer is the
    description found there or, when the model is still absent,
    [ModelNotInitializedError], after one load call. *)
Theorem describe_or_load_loads_at_most_once (k : nat) (model : string) (w : World) :
  (at_most_one_load list_loaded_models (load_model model false) model w
     (get_model_description (2 + k) model true w)
   /\ loads_when_absent model w (get_model_description (2 + k) model true w))
  /\ (at_most_one_load list_loaded_models_async (load_model_async model false) model w
        (get_model_description_async (2 + k) model true w)
      /\ loads_when_absent model w (get_model_description_async (2 + k) model true w)).
Proof.
  split.
  - rewrite get_model_description_unfolded. split.
    + apply describe_with_loading_at_most_one_load.
      * apply list_loaded_models_needs_v1.
      * apply list_loaded_models_one_exchange.
      * apply load_model_one_exchange.
    + apply describe_with_loading_loads_when_absent.
      * apply list_loaded_models_world.
      * apply list_loaded_models_accepted.
      * apply load_model_world.
      * apply load_model_accepted.
  - rewrite get_model_description_async_unfolded. split.
    + apply describe_with_loading_at_most_one_load.
      * apply list_loaded_models_async_needs_v1.
      * apply list_loaded_models_async_one_exchange.
      * apply load_model_async_one_exchange.
    + apply describe_with_loading_loads_when_absent.
      * apply list_loaded_models_async_world.
      * apply list_loaded_models_async_accepted.
      * apply load_model_async_world.
      * apply load_model_async_accepted.
Qed.

(** ** The request builder *)

Lemma slice_groups_concat {A : Type} (B : nat) (l : list A) :
  concat (slice_groups B l) = l.
Proof.
  funelim (slice_groups B l); simp slice_groups; simpl.
  - reflexivity.
  - rewrite app_nil_r. reflexivity.
  - rewrite H, take_drop. reflexivity.
Qed.

Lemma slice_groups_length {A : Type} (B : nat) (l : list A) :
  1 <= B -> length (slice_groups B l) = (length l + B - 1) / B.
Proof.
  funelim (slice_groups B l); simp slice_groups; cbn [length]; intros HB.
  - replace (0 + B - 1) with (B - 1) by lia. rewrite Nat.div_small by lia. reflexivity.
  - lia.
  - rewrite H by lia. rewrite length_drop.
    replace (S (length l) + S b - 1) with (length l + 1 * S b) by lia.
    rewrite Nat.div_add by lia.
    destruct (le_lt_dec b (length l)) as [Hle|Hlt].
    + replace (length l - b + S b - 1) with (length l) by lia. lia.
    + replace (length l - b + S b - 1) with b by lia.
      rewrite (Nat.div_small b), (Nat.div_small (length l)) by lia. reflexivity.
Qed.

Lemma slice_groups_lookup {A : Type} (B : nat) (l : list A) (i : nat) :
  1 <= B -> i * B < length l ->
  slice_groups B l !! i = Some (take B (drop (i * B) l)).
Proof.
  revert i. funelim (slice_groups B l); simp slice_groups; intros i HB Hi.
  - simpl in Hi. lia.
  - lia.
  - destruct i as [|j]; [reflexivity|].
    simpl in Hi. change ((slice_groups (S b) (drop b l)) !! j
                         = Some (take (S b) (drop (S j * S b) (x :: l)))).
    rewrite H by (rewrite ?length_drop; lia).
    rewrite drop_drop. replace (S j * S b) with (S (b + j * S b)) by lia.
    reflexivity.
Qed.

Lemma ceiling_bounds (N B : nat) :
  1 <= B -> N <= (N + B - 1) / B * B /\ (N + B - 1) / B * B < N + B.
Proof.
  intros HB.
  pose proof (Nat.div_mod_eq (N + B - 1) B) as Hdm.
  pose proof (Nat.mod_upper_bound (N + B - 1) B ltac:(lia)) as Hm.
  nia.
Qed.

(** C4: with a batch ceiling [B] of at least 1, JSON-embedded placement puts
    [N] encoded inputs in ceil(N / B) packages; package number [i] carries
    the inputs from position [i * B] on, at most [B] and at least one of
    them, with their scaling factors aligned; the packages one after the
    other give back the inputs, in order, without overlap or omission. *)
Theorem json_placement_batches (url : string) (encoded : list EncodedInput)
    (headers : dict) (parameters payload : option dict) (B : nat) :
  1 <= B ->
  let packages := prepare_requests_data url encoded headers parameters payload B JSON in
  let N := length encoded in
  length packages = (N + B - 1) / B
  /\ N <= length packages * B < N + B
  /\ (forall i, i < length packages ->
        exists package,
          packages !! i = Some package
          /\ rd_inputs package = take B (drop (i * B) encoded)
          /\ 1 <= length (rd_inputs package) <= B
          /\ image_scaling_factors package = map snd (rd_inputs package)
          /\ rd_placement package = JSON)
  /\ concat (map rd_inputs packages) = encoded.
Proof.
  intros HB packages N.
  assert (length packages = (N + B - 1) / B) as Hlen.
  { unfold packages, prepare_requests_data. rewrite length_map.
    apply slice_groups_length, HB. }
  split; [exact Hlen|]. split; [rewrite Hlen; apply ceiling_bounds, HB|]. split.
  - intros i Hi.
    assert (i * B < N) as HiN.
    { pose proof (ceiling_bounds N B HB). rewrite <- Hlen in *. nia. }
    unfold packages, prepare_requests_data.
    eexists. rewrite list_lookup_fmap, (slice_groups_lookup B encoded i HB HiN).
    cbn [fmap option_fmap option_map rd_inputs image_scaling_factors rd_placement].
    split; [reflexivity|]. split; [reflexivity|].
    split; [|split; reflexivity]. cbn [rd_inputs].
    rewrite length_take, length_drop. fold N. lia.
  - unfold packages, prepare_requests_data. rewrite map_map. simpl.
    rewrite map_id. apply slice_groups_concat.
Qed.

(** ** The request executor *)

Lemma insert_by_perm (key : nat -> nat) (i : nat) (order : list nat) :
  insert_by key i order ≡ₚ i :: order.
Proof.
  induction order as [|j order IH]; simpl; [reflexivity|].
  destruct (key i <=? key j)%nat; [reflexivity|].
  rewrite IH. apply Permutation_swap.
Qed.

Lemma service_order_perm (reqs : list Request) :
  service_order reqs ≡ₚ seq 0 (length reqs).
Proof.
  unfold service_order. induction (seq 0 (length reqs)) as [|i l IH]; simpl.
  - reflexivity.
  - rewrite insert_by_perm. rewrite IH. reflexivity.
Qed.

Lemma transmit_spec (rq : Request) (w : World) (out : NetOutcome) (w1 : World) :
  transmit rq w = (out, w1) ->
  client w1 = client w
  /\ exchanges w1 = exchanges w ++ [(rq, out)]
  /\ out = fst (serve rq (backend w)).
Proof.
  unfold transmit. destruct (serve rq (backend w)) as [out0 b].
  intros [= <- <-]. repeat split.
Qed.

Lemma dispatch_spec (order : list nat) (reqs : list Request) :
  forall (slots : list (option NetOutcome)) (w : World),
    let r := dispatch order reqs slots w in
    client (snd r) = client w
    /\ length (fst r) = length slots
    /\ exists new,
         exchanges (snd r) = exchanges w ++ new
         /\ served new
         /\ (forall i, i ∉ order -> fst r !! i = slots !! i)
         /\ (forall i rq, i ∈ order -> reqs !! i = Some rq -> i < length slots ->
               exists out, fst r !! i = Some (Some out) /\ (rq, out) ∈ new).
Proof.
  induction order as [|i order IH]; intros slots w; cbn zeta.
  - simpl. split; [reflexivity|]. split; [reflexivity|].
    exists []. rewrite app_nil_r. split; [reflexivity|]. split; [constructor|].
    split; [reflexivity|]. intros i rq Hi. inversion Hi.
  - simpl. destruct (reqs !! i) as [rq|] eqn:Hrq.
    + destruct (transmit rq w) as [out w1] eqn:Ht.
      destruct (transmit_spec rq w out w1 Ht) as (Hc1 & Hx1 & Hs).
      destruct (IH (<[i:=Some out]> slots) w1)
        as (Hc & Hlen & new & Hx & Hsv & Hout & Hin).
      rewrite Hc1 in Hc. rewrite Hx1 in Hx.
      simpl in Hc, Hx. rewrite length_insert in Hlen.
      split; [exact Hc|]. split; [exact Hlen|].
      exists ((rq, out) :: new).
      split; [rewrite Hx, <- app_assoc; reflexivity|].
      split; [constructor; [exists (backend w); exact Hs | exact Hsv]|].
      split.
      * intros j Hj. apply not_elem_of_cons in Hj as [Hne Hj].
        rewrite (Hout j Hj). apply list_lookup_insert_ne. congruence.
      * intros j rq' Hj Hrq' Hlt.
        destruct (decide (j ∈ order)) as [Hjo|Hjo].
        -- destruct (Hin j rq' Hjo Hrq') as (out' & Ho & Hm);
             [rewrite length_insert; exact Hlt|].
           exists out'. split; [exact Ho | right; exact Hm].
        -- apply elem_of_cons in Hj as [->|Hj]; [|contradiction].
           rewrite Hrq in Hrq'. injection Hrq' as <-.
           exists out. split; [|left].
           rewrite (Hout i Hjo). apply list_lookup_insert_eq. exact Hlt.
    + destruct (IH slots w) as (Hc & Hlen & new & Hx & Hsv & Hout & Hin).
      split; [exact Hc|]. split; [exact Hlen|].
      exists new. split; [exact Hx|]. split; [exact Hsv|]. split.
      * intros j Hj. apply not_elem_of_cons in Hj as [_ Hj]. exact (Hout j Hj).
      * intros j rq' Hj Hrq' Hlt.
        apply elem_of_cons in Hj as [->|Hj]; [congruence|].
        exact (Hin j rq' Hj Hrq' Hlt).
Qed.

Lemma omap_id_filled {X : Type} (slots : list (option X)) :
  (forall i, i < length slots -> exists x, slots !! i = Some (Some x)) ->
  Some <$> omap id slots = slots.
Proof.
  induction slots as [|s slots IH]; intros Hall; [reflexivity|].
  destruct (Hall 0) as [x Hx]; [simpl; lia|]. simpl in Hx. injection Hx as ->.
  simpl. f_equal. apply IH. intros i Hi. apply (Hall (S i)). simpl. lia.
Qed.

Lemma make_parallel_requests_spec (reqs : list Request) (w : World) :
  let r := make_parallel_requests reqs w in
  client (snd r) = client w
  /\ exists new,
       exchanges (snd r) = exchanges w ++ new /\ served new
       /\ answered_in_order reqs (fst r) new.
Proof.
  unfold make_parallel_requests.
  pose proof (dispatch_spec (service_order reqs) reqs
                (replicate (length reqs) None) w) as Hd.
  destruct (dispatch (service_order reqs) reqs (replicate (length reqs) None) w)
    as [slots w'].
  cbn zeta in Hd. simpl in Hd. destruct Hd as (Hc & Hlen & new & Hx & Hsv & _ & Hin).
  rewrite length_replicate in Hlen.
  assert (forall i rq, reqs !! i = Some rq ->
            exists out, slots !! i = Some (Some out) /\ (rq, out) ∈ new) as Hall.
  { intros i rq Hrq. pose proof (lookup_lt_Some _ _ _ Hrq) as Hlt.
    apply (Hin i rq); [|exact Hrq|rewrite length_replicate; exact Hlt].
    rewrite service_order_perm. apply elem_of_seq. lia. }
  assert (Some <$> omap id slots = slots) as Hfilled.
  { apply omap_id_filled. intros i Hi. rewrite Hlen in Hi.
    destruct (lookup_lt_is_Some_2 reqs i Hi) as [rq Hrq].
    destruct (Hall i rq Hrq) as (out & Ho & _). exists out. exact Ho. }
  cbn zeta. simpl. split; [exact Hc|]. exists new.
  split; [exact Hx|]. split; [exact Hsv|]. split.
  - transitivity (length (Some <$> omap id slots));
      [symmetry; apply length_fmap | rewrite Hfilled; exact Hlen].
  - intros i rq Hrq. destruct (Hall i rq Hrq) as (out & Ho & Hm).
    exists out. split; [|exact Hm].
    rewrite <- Hfilled, list_lookup_fmap in Ho.
    destruct (omap id slots !! i); simpl in Ho; congruence.
Qed.

Lemma run_groups_spec (groups : list (list Request)) :
  forall w : World,
    let r := run_groups groups w in
    client (snd r) = client w
    /\ exists new,
         exchanges (snd r) = exchanges w ++ new /\ served new
         /\ answered_in_order (concat groups) (fst r) new.
Proof.
  induction groups as [|g groups IH]; intros w; cbn zeta.
  - simpl. split; [reflexivity|]. exists []. rewrite app_nil_r.
    split; [reflexivity|]. split; [constructor|]. split; [reflexivity|].
    intros i rq Hi. rewrite lookup_nil in Hi. discriminate.
  - simpl. pose proof (make_parallel_requests_spec g w) as Hg.
    destruct (make_parallel_requests g w) as [outs w1]. cbn zeta in Hg. simpl in Hg.
    destruct Hg as (Hc1 & new1 & Hx1 & Hs1 & Hlen1 & Hin1).
    pose proof (IH w1) as Hr. destruct (run_groups groups w1) as [outs' w2].
    cbn zeta in Hr. simpl in Hr. destruct Hr as (Hc2 & new2 & Hx2 & Hs2 & Hlen2 & Hin2).
    simpl. split; [congruence|]. exists (new1 ++ new2).
    split; [rewrite Hx2, Hx1, <- app_assoc; reflexivity|].
    split; [apply Forall_app; split; assumption|]. split.
    + rewrite !length_app. congruence.
    + intros i rq Hi. apply lookup_app_Some in Hi as [Hi | [Hge Hi]].
      * destruct (Hin1 i rq Hi) as (out & Ho & Hm). exists out.
        split; [apply lookup_app_l_Some; exact Ho | apply elem_of_app; left; exact Hm].
      * destruct (Hin2 _ rq Hi) as (out & Ho & Hm). exists out.
        split; [|apply elem_of_app; right; exact Hm].
        rewrite lookup_app_r by lia. rewrite Hlen1. exact Ho.
Qed.

Lemma for_each_ok {X Y : Type} (f : X -> Outcome Y) (l : list X) :
  forall ys, for_each f l = Ok ys -> Forall2 (fun x y => f x = Ok y) l ys.
Proof.
  induction l as [|x l IH]; simpl; intros ys H.
  - injection H as <-. constructor.
  - unfold mbind, Outcome_bind, mret, Outcome_ret in H.
    destruct (f x) as [y|e] eqn:Hf; [|discriminate].
    destruct (for_each f l) as [ys'|e]; [|discriminate].
    injection H as <-. constructor; [exact Hf | apply IH; reflexivity].
Qed.

Lemma require_success_ok (out : NetOutcome) (r : Response) :
  require_success out = Ok r -> out = Replied r.
Proof.
  unfold require_success. destruct out as [r0|e]; [|discriminate].
  destruct ((200 <=? status_code r0)%Z && (status_code r0 <? 300)%Z); [|discriminate].
  intros [= ->]. reflexivity.
Qed.

Lemma execute_spec (mode : ExecutionMode) (requests_data : list RequestData)
    (request_method : RequestMethod) (max_concurrent_requests : nat)
    (w w' : World) (responses : list Response) :
  execute mode requests_data request_method max_concurrent_requests w
    = (Ok responses, w') ->
  client w' = client w
  /\ exists new,
       exchanges w' = exchanges w ++ new /\ served new
       /\ answered_in_order (map (request_of request_method) requests_data)
            (map Replied responses) new.
Proof.
  unfold execute. intros H.
  set (reqs := map (request_of request_method) requests_data) in *.
  set (groups := match mode with
                 | Blocking => slice_groups max_concurrent_requests reqs
                 | NonBlocking => [reqs]
                 end) in *.
  assert (concat groups = reqs) as Hgroups.
  { unfold groups. destruct mode; [apply slice_groups_concat|].
    simpl. apply app_nil_r. }
  pose proof (run_groups_spec groups w) as Hr.
  destruct (run_groups groups w) as [outs w1]. cbn zeta in Hr. simpl in Hr.
  destruct Hr as (Hc & new & Hx & Hs & Hlen & Hin). rewrite Hgroups in Hlen, Hin.
  injection H as Hfe <-.
  apply for_each_ok in Hfe.
  assert (outs = map Replied responses) as ->.
  { clear - Hfe. induction Hfe as [|out r outs rs Hor _ IH]; [reflexivity|].
    simpl. rewrite (require_success_ok _ _ Hor), IH. reflexivity. }
  split; [exact Hc|]. exists new. repeat split; assumption.
Qed.

(** C3: when the executor returns, in blocking or in non-blocking mode and
    whatever the latencies of the requests, there are as many responses as
    packages and response number [i] is what came back for package number
    [i]; when the answer of the backend depends on the request alone, the
    responses are these answers in the order of the packages; and the loop of
    the inference methods pairs package [i] with response [i]. *)
Theorem executor_preserves_order (mode : ExecutionMode)
    (requests_data : list RequestData) (request_method : RequestMethod)
    (max_concurrent_requests : nat) (w w' : World) (responses : list Response) :
  execute mode requests_data request_method max_concurrent_requests w
    = (Ok responses, w') ->
  length responses = length requests_data
  /\ (exists new,
        exchanges w' = exchanges w ++ new
        /\ forall i package r,
             requests_data !! i = Some package -> responses !! i = Some r ->
             (request_of request_method package, Replied r) ∈ new)
  /\ (forall answer : Request -> Response,
        (forall rq b, fst (serve rq b) = Replied (answer rq)) ->
        responses
        = map (fun package => answer (request_of request_method package))
            requests_data)
  /\ (forall i package,
        requests_data !! i = Some package ->
        exists r, responses !! i = Some r
                  /\ zip requests_data responses !! i = Some (package, r)).
Proof.
  intros H. apply execute_spec in H as (_ & new & Hx & Hs & Hlen & Hin).
  rewrite !length_map in Hlen.
  assert (forall i package r,
            requests_data !! i = Some package -> responses !! i = Some r ->
            (request_of request_method package, Replied r) ∈ new) as Hpos.
  { intros i package r Hp Hr.
    destruct (Hin i (request_of request_method package)) as (out & Ho & Hm).
    - rewrite list_lookup_fmap, Hp. reflexivity.
    - rewrite list_lookup_fmap, Hr in Ho. injection Ho as <-. exact Hm. }
  split; [exact Hlen|]. split; [exists new; split; [exact Hx | exact Hpos]|]. split.
  - intros answer Hanswer. apply list_eq. intros i.
    rewrite list_lookup_fmap.
    destruct (requests_data !! i) as [package|] eqn:Hp; simpl.
    + destruct (lookup_lt_is_Some_2 responses i) as [r Hr];
        [rewrite Hlen; eapply lookup_lt_Some; exact Hp|].
      rewrite Hr. f_equal.
      pose proof (Hpos i package r Hp Hr) as Hm.
      unfold served in Hs. rewrite Forall_forall in Hs.
      destruct (Hs _ Hm) as [b Hb]. simpl in Hb. rewrite Hanswer in Hb.
      congruence.
    + apply lookup_ge_None. rewrite Hlen. apply lookup_ge_None. exact Hp.
  - intros i package Hp.
    destruct (lookup_lt_is_Some_2 responses i) as [r Hr];
      [rewrite Hlen; eapply lookup_lt_Some; exact Hp|].
    exists r. split; [exact Hr|].
    apply lookup_zip_with_Some. exists package, r. repeat split; assumption.
Qed.

(** ** The response normalizer *)








(** ** One image or a list of images *)

Lemma bind_ext {A B : Type} (m : M A) (f g : A -> M B) (w : World) :
  (forall a w1, f a w1 = g a w1) -> (m ≫= f) w = (m ≫= g) w.
Proof.
  intros H. unfold mbind, M_bind. destruct (m w) as [[a|e] w1]; [apply H | reflexivity].
Qed.

Lemma load_single_as_list (image : ImagesReference) (max_height max_width : option Z) :
  load_static_inference_input (Single image) max_height max_width
  = load_static_inference_input (Many [image]) max_height max_width.
Proof. reflexivity. Qed.

Lemma load_static_length (inference_input : InferenceInput)
    (max_height max_width : option Z) (encoded : list EncodedInput) :
  load_static_inference_input inference_input max_height max_width = Ok encoded ->
  length encoded = images_count inference_input.
Proof.
  destruct inference_input as [image|images]; simpl.
  - unfold mbind, Outcome_bind, mret, Outcome_ret.
    destruct (load_image image max_height max_width); [|discriminate].
    intros [= <-]. reflexivity.
  - intros H. apply for_each_ok in H. symmetry. exact (Forall2_length _ _ _ H).
Qed.

Lemma infer_from_api_v0_results_single (image : ImagesReference)
    (model : option string) (w : World) :
  infer_from_api_v0_results (Single image) model w
  = infer_from_api_v0_results (Many [image]) model w.
Proof.
  unfold infer_from_api_v0_results.
  apply bind_ext. intros c w1. apply bind_ext. intros _ w2.
  destruct (split "/" _) as [|project [|version [|]]]; reflexivity.
Qed.

Lemma infer_from_api_v1_results_single (image : ImagesReference)
    (model : option string) (w : World) :
  infer_from_api_v1_results (Single image) model w
  = infer_from_api_v1_results (Many [image]) model w.
Proof.
  unfold infer_from_api_v1_results.
  apply bind_ext. intros _ w1. apply bind_ext. intros c w2.
  apply bind_ext. intros _ w3. apply bind_ext. intros d w4.
  apply bind_ext. intros c' w5.
  destruct (_determine_client_downsizing_parameters _ _ _) as [max_height max_width].
  destruct (NEW_INFERENCE_ENDPOINTS !! task_type d); reflexivity.
Qed.

Lemma prepare_requests_data_inputs (url : string) (encoded : list EncodedInput)
    (headers : dict) (parameters payload : option dict) (B : nat)
    (placement : ImagePlacement) :
  concat (map image_scaling_factors
            (prepare_requests_data url encoded headers parameters payload B placement))
  = map snd encoded.
Proof.
  unfold prepare_requests_data. rewrite map_map. simpl.
  rewrite <- (slice_groups_concat B encoded) at 2.
  induction (slice_groups B encoded) as [|g gs IH]; simpl; [reflexivity|].
  rewrite map_app, IH. reflexivity.
Qed.

Lemma infer_from_api_v0_results_length (inference_input : InferenceInput)
    (model : option string) (w w' : World) (results : list Json) :
  infer_from_api_v0_results inference_input model w = (Ok results, w') ->
  length results = images_count inference_input.
Proof.
  unfold infer_from_api_v0_results. intros H.
  apply bind_ok_inv in H as (c & w1 & _ & H).
  apply bind_ok_inv in H as (u & w2 & _ & H).
  destruct (split "/" _) as [|project [|version [|]]]; try discriminate.
  destruct (_determine_client_downsizing_parameters _ _ _) as [max_height max_width].
  apply bind_ok_inv in H as (encoded & w3 & Hload & H).
  apply lift_ok_inv in Hload as [Hload _]. apply load_static_length in Hload.
  apply bind_ok_inv in H as (responses & w4 & Hexec & H).
  apply execute_spec in Hexec as (_ & new & _ & _ & Hlen & _).
  rewrite !length_map in Hlen.
  apply lift_ok_inv in H as [H _]. apply for_each_ok, Forall2_length in H.
  rewrite <- H, length_zip_with, Hlen, Nat.min_id.
  unfold prepare_requests_data. rewrite length_map, slice_groups_length by lia.
  replace (length encoded + 1 - 1) with (length encoded) by lia.
  rewrite Nat.div_1_r. exact Hload.
Qed.

Lemma normalise_v1_length (expected_format : VisualisationResponseFormat)
    (pairs : list (RequestData * Response)) :
  forall per_package,
    for_each (normalise_v1 expected_format) pairs = Ok per_package ->
    length (concat per_package)
    <= length (concat (map (fun pair => image_scaling_factors (fst pair)) pairs))
    /\ (answers_every_image (map fst pairs) (map snd pairs) ->
        length (concat per_package)
        = length (concat (map (fun pair => image_scaling_factors (fst pair)) pairs))).
Proof.
  intros per_package H. apply for_each_ok in H.
  induction H as [|[package response] results pairs per_package Hn _ [IHle IHeq]].
  - simpl. split; [lia | reflexivity].
  - unfold normalise_v1, response_json in Hn. simpl.
    destruct (json response) as [parsed|] eqn:Hj; [|discriminate].
    unfold mbind, Outcome_bind in Hn. apply for_each_ok, Forall2_length in Hn.
    rewrite length_zip_with in Hn. rewrite !length_app. split; [lia|].
    intros Hall. inversion Hall as [|? ? ? ? (parsed' & Hj' & Hlen) Hrest]; subst.
    rewrite Hj in Hj'. injection Hj' as <-.
    rewrite (IHeq Hrest). lia.
Qed.

Lemma infer_from_api_v1_results_length (inference_input : InferenceInput)
    (model : option string) (w w' : World) (results : list Json) :
  infer_from_api_v1_results inference_input model w = (Ok results, w') ->
  length results <= images_count inference_input.
Proof.
  unfold infer_from_api_v1_results. intros H.
  apply bind_ok_inv in H as (u & w1 & _ & H).
  apply bind_ok_inv in H as (c & w2 & _ & H).
  apply bind_ok_inv in H as (u' & w3 & _ & H).
  apply bind_ok_inv in H as (d & w4 & _ & H).
  apply bind_ok_inv in H as (c' & w5 & _ & H).
  destruct (_determine_client_downsizing_parameters _ _ _) as [max_height max_width].
  destruct (NEW_INFERENCE_ENDPOINTS !! task_type d) as [endpoint|]; [|discriminate].
  apply bind_ok_inv in H as (encoded & w6 & Hload & H).
  apply lift_ok_inv in Hload as [Hload _]. apply load_static_length in Hload.
  apply bind_ok_inv in H as (responses & w7 & Hexec & H).
  apply execute_spec in Hexec as (_ & new & _ & _ & Hlen & _).
  rewrite !length_map in Hlen.
  apply bind_ok_inv in H as (per_package & w8 & Hloop & H).
  apply lift_ok_inv in Hloop as [Hloop _].
  apply normalise_v1_length in Hloop as [Hle _].
  injection H as <- _.
  rewrite <- (map_map fst image_scaling_factors) in Hle.
  change (map fst (zip ?l ?k)) with ((zip l k).*1) in Hle.
  rewrite fst_zip in Hle by lia.
  rewrite prepare_requests_data_inputs, length_map in Hle. lia.
Qed.

End Properties.

(** * Further properties of the code *)

Section FurtherProperties.

Context {ext : Collaborators}.

(** ** The error translator *)

Lemma list_loaded_models_connection_failure (w : World) (description : string)
    (b : Backend) :
  client_mode (client w) = V1 ->
  serve (registry_request w) (backend w) = (Failed (ConnectionError description), b) ->
  list_loaded_models w
  = (Raise (HTTPClientError ("Error with server connection: " +:+ description)),
     after_exchange w (registry_request w) (Failed (ConnectionError description)) b)
  /\ list_loaded_models_async w
     = (Raise (ConnectionError description),
        after_exchange w (registry_request w) (Failed (ConnectionError description)) b).
Proof.
  intros Hmode Hserve. unfold registry_request in Hserve. split.
  - unfold list_loaded_models, wrap_errors.
    rewrite (bind_ok _ _ _ _ _ (ensure_v1_in_v1 w Hmode)).
    unfold self at 1. unfold mbind at 1, M_bind at 1.
    unfold requests_get, send, transmit. unfold mbind at 1, M_bind at 1.
    rewrite Hserve. reflexivity.
  - unfold list_loaded_models_async. rewrite wrap_errors_coroutine_runs.
    rewrite (bind_ok _ _ _ _ _ (ensure_v1_in_v1 w Hmode)).
    unfold self at 1. unfold mbind at 1, M_bind at 1.
    unfold requests_get, send, transmit. unfold mbind at 1, M_bind at 1.
    rewrite Hserve. reflexivity.
Qed.

(** X1: a synchronous method under [wrap_errors] never raises
    [requests.HTTPError] or the built-in [ConnectionError]; wrapping it a
    second time, as the nested decorated methods do, changes nothing; the
    translator never touches the world; and a result or any other exception
    goes through as it is.  The decorator does not reach into a coroutine:
    when the transport raises [ConnectionError], [list_loaded_models] raises
    [HTTPClientError] and [list_loaded_models_async] raises the
    [ConnectionError] itself. *)
Theorem wrap_errors_hides_transport_errors {A : Type} (function : M A) (w : World) :
  (forall e, fst (wrap_errors function w) = Raise e -> is_transport_error e = false)
  /\ wrap_errors (wrap_errors function) w = wrap_errors function w
  /\ snd (wrap_errors function w) = snd (function w)
  /\ (forall a, fst (function w) = Ok a -> wrap_errors function w = function w)
  /\ (forall e, fst (function w) = Raise e -> is_transport_error e = false ->
        wrap_errors function w = function w)
  /\ wrap_errors_coroutine function w = function w
  /\ (forall description b,
        client_mode (client w) = V1 ->
        serve (registry_request w) (backend w)
        = (Failed (ConnectionError description), b) ->
        list_loaded_models w
        = (Raise (HTTPClientError ("Error with server connection: " +:+ description)),
           after_exchange w (registry_request w)
             (Failed (ConnectionError description)) b)
        /\ list_loaded_models_async w
           = (Raise (ConnectionError description),
              after_exchange w (registry_request w)
                (Failed (ConnectionError description)) b)).
Proof.
  assert (forall e, fst (wrap_errors function w) = Raise e ->
                    is_transport_error e = false) as Hhidden.
  { unfold wrap_errors, response_json. destruct (function w) as [[a|e] w1]; simpl.
    - discriminate.
    - destruct e; simpl; try (intros e' [= <-]; reflexivity).
      destruct (contains _ _); [|intros e' [= <-]; reflexivity].
      destruct (json response) as [[ | | | | | | ]|]; simpl;
        intros e' [= <-]; reflexivity. }
  split; [exact Hhidden|].
  split; [|split; [apply wrap_errors_world|split; [|split; [|split]]]].
  - unfold wrap_errors at 1.
    destruct (wrap_errors function w) as [[a|e] w1] eqn:Hw; [reflexivity|].
    specialize (Hhidden e eq_refl).
    destruct e; try reflexivity; discriminate.
  - intros a Ha. unfold wrap_errors. destruct (function w) as [[a'|e] w1];
      [reflexivity | discriminate].
  - intros e He Hne. unfold wrap_errors. destruct (function w) as [[a'|e'] w1];
      [discriminate|]. simpl in He. injection He as ->.
    destruct e; try reflexivity; discriminate.
  - reflexivity.
  - intros description b. apply list_loaded_models_connection_failure.
Qed.

Lemma dict_get_app_None (key : string) (d : dict) :
  dict_get key d = None <-> forall v, (key, v) ∉ d.
Proof.
  induction d as [|[k v0] d IH]; simpl.
  - split; [intros _ v Hin; inversion Hin | reflexivity].
  - destruct (String.eqb k key) eqn:Hk.
    + apply String.eqb_eq in Hk as ->. split; [discriminate|].
      intros H. exfalso. apply (H v0). left.
    + apply String.eqb_neq in Hk. rewrite IH. split.
      * intros H v Hin. apply elem_of_cons in Hin as [[= -> ->]|Hin];
          [congruence | exact (H v Hin)].
      * intros H v Hin. apply (H v). right. exact Hin.
Qed.

(** X2: when the failed response declares JSON, a body that does not decode
    makes the decoding error escape instead of [HTTPCallErrorError]; a body
    that is not an object makes [AttributeError] escape; and an object with
    no [message] field gives [HTTPCallErrorError] with no message. *)
Theorem wrap_errors_json_body_edge_cases {A : Type} (function : M A)
    (w w' : World) (description : string) (response : Response) :
  function w = (Raise (HTTPError description response), w') ->
  contains "application/json" (headers_get response "Content-Type" "") = true ->
  (json response = None ->
     wrap_errors function w = (Raise (OtherError "JSONDecodeError"), w'))
  /\ (forall document,
        json response = Some document -> (forall body, document <> JObj body) ->
        wrap_errors function w = (Raise (OtherError "AttributeError"), w'))
  /\ (forall body,
        json response = Some (JObj body) -> (forall v, ("message", v) ∉ body) ->
        wrap_errors function w
        = (Raise (HTTPCallErrorError description (status_code response) JNull), w')).
Proof.
  intros Hf Hct. unfold wrap_errors, response_json. rewrite Hf, Hct.
  split; [|split].
  - intros ->. reflexivity.
  - intros document -> Hno. destruct document; try reflexivity.
    exfalso. exact (Hno fields eq_refl).
  - intros body -> Hno. apply dict_get_app_None in Hno. rewrite Hno. reflexivity.
Qed.

(** ** The registry and the session state *)

Ltac run_registry_method :=
  unfold __ensure_v1_client_mode, mbind, M_bind, self, mret, M_ret, raise,
    requests_get, requests_post, send, transmit, lift, set_selected_model,
    raise_for_status, response_json, after_serving, after_exchange,
    registry_request, load_request, unload_request, clear_request,
    with_selected_model, rejected;
  simpl;
  repeat match goal with
         | H : client_mode _ = _ |- _ => rewrite H; simpl
         | |- context [serve ?rq ?b] =>
             let out := fresh "out" in let b' := fresh "b" in
             destruct (serve rq b) as [out b']; simpl; try destruct out; simpl
         | |- context [RegisteredModels_from_dict ?j] =>
             destruct (RegisteredModels_from_dict j); simpl
         | |- context [json ?r] =>
             let Hj := fresh "Hj" in destruct (json r) eqn:Hj; simpl
         | |- context [(?a <=? ?b)%Z] =>
             let Hc := fresh "Hc" in destruct (Z.leb_spec a b) as [Hc|Hc]; simpl
         | |- context [(?a <? ?b)%Z] =>
             let Hc := fresh "Hc" in destruct (Z.ltb_spec a b) as [Hc|Hc]; simpl
         | |- context [decide ?P] => destruct (decide P); simpl
         end.

(** X3: in the current protocol mode each registry method sends exactly one
    request, whatever comes back: the world after the call holds the one
    exchange with the backend and nothing more, so a failed call is not
    repeated. *)
Theorem registry_methods_send_one_request (w : World) (model : string)
    (set_as_default : bool) :
  client_mode (client w) = V1 ->
  let same_network (rq : Request) (w' : World) :=
    backend w' = backend (after_serving w rq)
    /\ exchanges w' = exchanges (after_serving w rq) in
  same_network (registry_request w) (snd (list_loaded_models w))
  /\ same_network (load_request model w) (snd (load_model model set_as_default w))
  /\ same_network (unload_request model w) (snd (unload_model model w))
  /\ same_network (clear_request w) (snd (unload_all_models w)).
Proof.
  intros Hmode same_network. unfold same_network.
  unfold list_loaded_models, load_model, unload_model, unload_all_models.
  rewrite !wrap_errors_world.
  repeat split; destruct set_as_default; run_registry_method; reflexivity.
Qed.

(** X4: [load_model] without [set_as_default] never changes the session
    state, and a successful [load_model] with [set_as_default] leaves the
    loaded model selected and every other field as it was. *)
Theorem load_model_selects_on_success (w : World) (model : string) :
  client (snd (load_model model false w)) = client w
  /\ (forall registered w',
        load_model model true w = (Ok registered, w') ->
        client w' = with_selected_model (Some model) (client w)).
Proof.
  split.
  - apply load_model_one_exchange.
  - intros registered w' H. apply wrap_errors_ok_inv in H.
    apply bind_ok_inv in H as (u & w1 & H1 & H).
    apply ensure_v1_ok_inv in H1 as [-> _].
    apply bind_ok_inv in H as (c & w2 & H2 & H). unfold self in H2.
    inversion H2; subst c w2; clear H2.
    apply bind_ok_inv in H as (response & w3 & H3 & H).
    apply send_ok_inv in H3 as [Hc _].
    apply bind_ok_inv in H as (u1 & w4 & H4 & H). apply lift_ok_inv in H4 as [_ ->].
    apply bind_ok_inv in H as (payload & w5 & H5 & H). apply lift_ok_inv in H5 as [_ ->].
    apply bind_ok_inv in H as (u2 & w7 & H7 & H). apply lift_ok_inv in H as [_ ->].
    unfold set_selected_model in H7. inversion H7. simpl.
    unfold with_selected_model. rewrite Hc. reflexivity.
Qed.

(** X5: whether a registry method touches the selection depends on the reply
    alone.  When the transport raises, the status is an error status or the
    body does not decode, the session state is as before the call; otherwise
    the selection is changed, also when the call then raises because the
    decoded body is not a registry. *)
Theorem session_state_follows_the_reply (w : World) (model : string) :
  client_mode (client w) = V1 ->
  (rejected (fst (serve (load_request model w) (backend w))) ->
     client (snd (load_model model true w)) = client w)
  /\ (~ rejected (fst (serve (load_request model w) (backend w))) ->
        client (snd (load_model model true w))
        = with_selected_model (Some model) (client w))
  /\ (rejected (fst (serve (unload_request model w) (backend w))) ->
        client (snd (unload_model model w)) = client w)
  /\ (~ rejected (fst (serve (unload_request model w) (backend w))) ->
        client (snd (unload_model model w))
        = if decide (selected_model (client w) = Some model)
          then with_selected_model None (client w) else client w)
  /\ (rejected (fst (serve (clear_request w) (backend w))) ->
        client (snd (unload_all_models w)) = client w)
  /\ (~ rejected (fst (serve (clear_request w) (backend w))) ->
        client (snd (unload_all_models w)) = with_selected_model None (client w)).
Proof.
  intros Hmode.
  unfold load_model, unload_model, unload_all_models.
  rewrite !wrap_errors_world.
  repeat split; run_registry_method; intros Hr;
    try reflexivity; try congruence; try (exfalso; tauto); try lia;
    try (exfalso; apply Hr; lia);
    try (exfalso; destruct Hr as [Hr|Hr]; [lia | discriminate]).
Qed.

(** ** Descriptions *)

Lemma filter_head_matches (model : string) (registered : list ModelDescription)
    (d : ModelDescription) (rest : list ModelDescription) :
  filter (fun e => model_id e = model) registered = d :: rest ->
  model_id d = model /\ d ∈ registered.
Proof.
  intros H. assert (d ∈ filter (fun e => model_id e = model) registered) as Hin
    by (rewrite H; left).
  apply list_elem_of_filter in Hin. exact Hin.
Qed.

Lemma describe_without_loading_matches (list : M RegisteredModels)
    (model : string) (w : World) (d : ModelDescription) :
  fst (describe_without_loading list model w) = Ok (Some d) -> model_id d = model.
Proof.
  unfold describe_without_loading.
  destruct (__ensure_v1_client_mode w) as [[u|e] w0]; [|discriminate].
  destruct (list w0) as [[registered|e] w1]; [|discriminate].
  destruct (filter _ (models registered)) as [|d' rest] eqn:Hf; [discriminate|].
  intros [= <-]. apply (filter_head_matches _ _ _ _ Hf).
Qed.

(** X6: a description that [get_model_description] returns is a description
    of the requested model; with loading disallowed the method sends at most
    one request and never a load call, leaves the session state as it was,
    and raises [ModelNotInitializedError] when the fetched registry has no
    model of that identifier. *)
Theorem get_model_description_without_loading (k : nat) (model : string) (w : World) :
  (forall d, fst (get_model_description (2 + k) model true w) = Ok (Some d) ->
     model_id d = model)
  /\ (forall d, fst (get_model_description (S k) model false w) = Ok (Some d) ->
        model_id d = model)
  /\ fst (get_model_description (S k) model false w) <> Ok None
  /\ client (snd (get_model_description (S k) model false w)) = client w
  /\ (exists new,
        exchanges (snd (get_model_description (S k) model false w))
        = exchanges w ++ new
        /\ length new <= 1
        /\ load_attempts (api_url (client w)) new = 0)
  /\ (forall registered w1,
        list_loaded_models w = (Ok registered, w1) ->
        (forall d, d ∈ models registered -> model_id d <> model) ->
        get_model_description (S k) model false w
        = (Raise (not_initialised model), w1)).
Proof.
  assert (get_model_description (S k) model false w
          = describe_without_loading list_loaded_models model w) as Heq
    by (rewrite get_model_description_S; reflexivity).
  rewrite Heq. split; [|split; [|split; [|split; [|split]]]].
  - rewrite get_model_description_unfolded. unfold describe_with_loading.
    destruct (__ensure_v1_client_mode w) as [[u|e] w0]; [|discriminate].
    destruct (list_loaded_models w0) as [[registered|e] w1]; [|discriminate].
    destruct (filter _ (models registered)) as [|d' rest] eqn:Hf.
    + destruct (load_model model false w1) as [[loaded|e] w2]; [|discriminate].
      apply describe_without_loading_matches.
    + intros d [= <-]. apply (filter_head_matches _ _ _ _ Hf).
  - apply describe_without_loading_matches.
  - unfold describe_without_loading.
    destruct (__ensure_v1_client_mode w) as [[u|e] w0]; [|discriminate].
    destruct (list_loaded_models w0) as [[registered|e] w1]; [|discriminate].
    destruct (filter _ (models registered)); discriminate.
  - unfold describe_without_loading.
    destruct (ensure_v1_cases w) as [[Hmode ->] | [Hmode ->]]; [reflexivity|].
    destruct (list_loaded_models_one_exchange w) as (Hc & _ & _).
    destruct (list_loaded_models w) as [[registered|e] w1]; [|exact Hc].
    destruct (filter _ (models registered)); exact Hc.
  - unfold describe_without_loading.
    destruct (ensure_v1_cases w) as [[Hmode ->] | [Hmode ->]].
    { exists []. simpl. rewrite app_nil_r. repeat split. lia. }
    destruct (list_loaded_models_one_exchange w) as (_ & _ & Hx).
    destruct (Hx Hmode) as [out Hout].
    exists [(registry_request w, out)].
    split; [|split; [simpl; lia | apply load_attempts_registry]].
    destruct (list_loaded_models w) as [[registered|e] w1]; [|exact Hout].
    destruct (filter _ (models registered)); exact Hout.
  - intros registered w1 Hl Hnone. unfold describe_without_loading.
    rewrite (ensure_v1_in_v1 w (list_loaded_models_needs_v1 _ _ _ Hl)), Hl.
    destruct (filter _ (models registered)) as [|d rest] eqn:Hf; [reflexivity|].
    destruct (filter_head_matches _ _ _ _ Hf) as [Hid Hin].
    exfalso. exact (Hnone d Hin Hid).
Qed.

(** ** What inference checks before it loads or sends anything *)

(** X7: with no model selected, inference called without an identifier, or
    with the empty identifier, raises [ModelNotSelectedError] in both
    protocols and through [infer]; nothing is loaded, nothing is sent and the
    world is as before. *)
Theorem inference_without_model (inference_input : InferenceInput)
    (model : option string) (w : World) :
  selected_model (client w) = None -> model = None \/ model = Some "" ->
  infer_from_api_v0 inference_input model w = (Raise no_model_selected, w)
  /\ (client_mode (client w) = V1 ->
      infer_from_api_v1 inference_input model w = (Raise no_model_selected, w))
  /\ infer inference_input model w = (Raise no_model_selected, w).
Proof.
  intros Hsel Hmodel.
  assert (infer_from_api_v0 inference_input model w = (Raise no_model_selected, w))
    as H0.
  { unfold infer_from_api_v0, infer_from_api_v0_results, mbind, M_bind, self, lift.
    rewrite Hsel. destruct Hmodel as [-> | ->]; reflexivity. }
  assert (client_mode (client w) = V1 ->
          infer_from_api_v1 inference_input model w = (Raise no_model_selected, w))
    as H1.
  { intros Hmode.
    unfold infer_from_api_v1, infer_from_api_v1_results.
    unfold mbind at 1, M_bind at 1. unfold mbind at 1, M_bind at 1.
    rewrite (ensure_v1_in_v1 w Hmode).
    unfold mbind, M_bind, self, lift. rewrite Hsel.
    destruct Hmodel as [-> | ->]; reflexivity. }
  split; [exact H0|]. split; [exact H1|].
  unfold infer, wrap_errors. unfold mbind at 1, M_bind at 1, self at 1.
  destruct (client_mode (client w)) eqn:Hmode.
  - rewrite H0. reflexivity.
  - rewrite (H1 eq_refl). reflexivity.
Qed.

Lemma split_length (sep : ascii) (s : string) :
  length (split sep s) = S (count_char sep s).
Proof.
  induction s as [|a s IH]; simpl; [reflexivity|].
  destruct (Ascii.eqb a sep); simpl; [rewrite IH; reflexivity|].
  destruct (split sep s) as [|chunk rest]; simpl in *; [discriminate | exact IH].
Qed.

(** X8: the legacy protocol accepts an identifier only when it has exactly
    one [/]: any other identifier, given with the call or selected before,
    raises [InvalidModelIdentifier] before an image is loaded or a request
    sent.  The message names the identifier given with the call, [None] when
    the rejected identifier is the selected one. *)
Theorem legacy_identifier_needs_one_slash (inference_input : InferenceInput)
    (model : option string) (w : World) (identifier : string) :
  or_selected model (selected_model (client w)) = Some identifier ->
  count_char "/" identifier <> 1 ->
  infer_from_api_v0 inference_input model w
  = (Raise (InvalidModelIdentifier
              ("Invalid model identifier: " +:+ default "None" model +:+ " in use.")),
     w).
Proof.
  intros Hid Hcount.
  unfold infer_from_api_v0, infer_from_api_v0_results, mbind, M_bind, self, lift.
  rewrite Hid. simpl.
  pose proof (split_length "/" identifier) as Hlen.
  destruct (split "/" identifier) as [|project [|version [|]]]; simpl in Hlen;
    try reflexivity.
  exfalso. apply Hcount. lia.
Qed.

(** X9: in the current protocol a model whose task type has no inference
    endpoint raises [ModelTaskTypeNotSupportedError] right after its
    description was obtained: the world is the one the description request
    left, and the images, whatever they are, are neither loaded nor sent. *)
Theorem unsupported_task_type_stops_inference (inference_input : InferenceInput)
    (model : option string) (w w1 : World) (identifier : string)
    (description : ModelDescription) :
  client_mode (client w) = V1 ->
  or_selected model (selected_model (client w)) = Some identifier ->
  describe_or_load identifier w = (Ok description, w1) ->
  NEW_INFERENCE_ENDPOINTS !! task_type description = None ->
  infer_from_api_v1 inference_input model w
  = (Raise (ModelTaskTypeNotSupportedError
              ("Model task " +:+ task_type description +:+
               " is not supported by API v1 client.")),
     w1).
Proof.
  intros Hmode Hid Hdescribe Hnone.
  unfold infer_from_api_v1, infer_from_api_v1_results.
  unfold mbind at 1, M_bind at 1. unfold mbind at 1, M_bind at 1.
  rewrite (ensure_v1_in_v1 w Hmode).
  unfold mbind at 1, M_bind at 1, self at 1. rewrite Hid.
  unfold mbind at 1, M_bind at 1, lift at 1. simpl.
  unfold mbind at 1, M_bind at 1. rewrite Hdescribe.
  unfold mbind at 1, M_bind at 1, self at 1.
  destruct (_determine_client_downsizing_parameters _ _ _) as [max_height max_width].
  rewrite Hnone. reflexivity.
Qed.

(** ** Inference and the session state *)

Lemma keeps_client_bind {A B : Type} (m : M A) (f : A -> M B) :
  keeps_client m -> (forall a, keeps_client (f a)) -> keeps_client (m ≫= f).
Proof.
  intros Hm Hf w. unfold mbind, M_bind. specialize (Hm w).
  destruct (m w) as [[a|e] w1]; simpl in *; [|exact Hm].
  rewrite (Hf a w1). exact Hm.
Qed.

Lemma keeps_client_lift {A : Type} (o : Outcome A) : keeps_client (lift o).
Proof. intros w. reflexivity. Qed.

Lemma keeps_client_raise {A : Type} (e : Exn) : keeps_client (@raise _ A e).
Proof. intros w. reflexivity. Qed.

Lemma keeps_client_ret {A : Type} (a : A) : keeps_client (mret a).
Proof. intros w. reflexivity. Qed.

Lemma keeps_client_self : keeps_client self.
Proof. intros w. reflexivity. Qed.

Lemma keeps_client_wrap_errors {A : Type} (m : M A) :
  keeps_client m -> keeps_client (wrap_errors m).
Proof. intros Hm w. rewrite wrap_errors_world. apply Hm. Qed.

Lemma keeps_client_ensure_v1 : keeps_client __ensure_v1_client_mode.
Proof.
  intros w. destruct (ensure_v1_cases w) as [[_ ->] | [_ ->]]; reflexivity.
Qed.

Lemma keeps_client_execute (mode : ExecutionMode) (requests_data : list RequestData)
    (request_method : RequestMethod) (max_concurrent_requests : nat) :
  keeps_client (execute mode requests_data request_method max_concurrent_requests).
Proof.
  intros w. unfold execute.
  match goal with
  | |- context [run_groups ?g w] =>
      pose proof (run_groups_spec g w) as H; destruct (run_groups g w) as [outs w1]
  end.
  cbn zeta in H. simpl in H. destruct H as [Hc _]. exact Hc.
Qed.

Lemma keeps_client_describe_or_load (model : string) :
  keeps_client (describe_or_load model).
Proof.
  unfold describe_or_load. apply keeps_client_bind.
  - intros w. change 2 with (2 + 0). rewrite get_model_description_unfolded.
    apply describe_with_loading_at_most_one_load.
    + apply list_loaded_models_needs_v1.
    + apply list_loaded_models_one_exchange.
    + apply load_model_one_exchange.
  - intros [d|]; [apply keeps_client_ret | apply keeps_client_raise].
Qed.

Ltac keeps_client_step :=
  first
    [ apply keeps_client_describe_or_load
    | apply keeps_client_execute
    | apply keeps_client_ensure_v1
    | apply keeps_client_lift
    | apply keeps_client_raise
    | apply keeps_client_ret
    | apply keeps_client_self
    | apply keeps_client_bind; [|intros ?]
    | match goal with
      | |- keeps_client (match ?x with _ => _ end) => destruct x
      | |- keeps_client (let '(_, _) := ?x in _) => destruct x
      end ].

(** X10: inference never changes the session state: after
    [infer_from_api_v0], [infer_from_api_v1] or [infer], whether they return
    or raise, the configuration, the protocol mode and the selected model are
    what they were, also when the model had to be loaded first. *)
Theorem inference_keeps_session_state (inference_input : InferenceInput)
    (model : option string) :
  keeps_client (infer_from_api_v0 inference_input model)
  /\ keeps_client (infer_from_api_v1 inference_input model)
  /\ keeps_client (infer inference_input model).
Proof.
  assert (keeps_client (infer_from_api_v0 inference_input model)) as H0.
  { unfold infer_from_api_v0, infer_from_api_v0_results, execute_requests_packages.
    repeat keeps_client_step. }
  assert (keeps_client (infer_from_api_v1 inference_input model)) as H1.
  { unfold infer_from_api_v1, infer_from_api_v1_results, execute_requests_packages.
    repeat keeps_client_step. }
  split; [exact H0|]. split; [exact H1|].
  unfold infer. apply keeps_client_wrap_errors. apply keeps_client_bind.
  - apply keeps_client_self.
  - intros c. destruct (client_mode c); assumption.
Qed.

(** ** An identifier given with the call *)

Lemma ignores_selection_bind {A B : Type} (m : M A) (f : A -> M B) :
  ignores_selection m -> (forall a, ignores_selection (f a)) ->
  ignores_selection (m ≫= f).
Proof.
  intros Hm Hf s w. unfold mbind, M_bind. rewrite (Hm s w).
  destruct (m w) as [[a|e] w1]; simpl; [apply Hf | reflexivity].
Qed.

Lemma ignores_selection_lift {A : Type} (o : Outcome A) : ignores_selection (lift o).
Proof. intros s w. reflexivity. Qed.

Lemma ignores_selection_raise {A : Type} (e : Exn) : ignores_selection (@raise _ A e).
Proof. intros s w. reflexivity. Qed.

Lemma ignores_selection_ret {A : Type} (a : A) : ignores_selection (mret a).
Proof. intros s w. reflexivity. Qed.

Lemma ignores_selection_wrap_errors {A : Type} (m : M A) :
  ignores_selection m -> ignores_selection (wrap_errors m).
Proof.
  intros Hm s w. unfold wrap_errors. rewrite (Hm s w).
  destruct (m w) as [[a|e] w1]; simpl; [reflexivity|].
  destruct e; try reflexivity. repeat case_match; reflexivity.
Qed.

Lemma ignores_selection_ensure_v1 : ignores_selection __ensure_v1_client_mode.
Proof.
  intros s w. unfold __ensure_v1_client_mode, mbind, M_bind, self, mret, M_ret, raise.
  simpl. destruct (client_mode (client w)); reflexivity.
Qed.

Lemma ignores_selection_send (rq : Request) : ignores_selection (send rq).
Proof.
  intros s w. unfold send, transmit. simpl.
  destruct (serve rq (backend w)) as [[r|e] b]; reflexivity.
Qed.

(** Reading the client for anything but the selected model. *)
Lemma ignores_selection_self {B : Type} (f : Client -> M B) :
  (forall c s, f (with_selected_model s c) = f c) ->
  (forall c, ignores_selection (f c)) ->
  ignores_selection (self ≫= f).
Proof.
  intros Hsame Hf s w. unfold mbind, M_bind, self. simpl.
  rewrite Hsame. apply Hf.
Qed.

Lemma dispatch_reselect (s : option string) (order : list nat) (reqs : list Request) :
  forall slots w,
    dispatch order reqs slots (reselect s w)
    = (fst (dispatch order reqs slots w), reselect s (snd (dispatch order reqs slots w))).
Proof.
  induction order as [|i order IH]; intros slots w; simpl; [reflexivity|].
  destruct (reqs !! i) as [rq|]; [|apply IH].
  unfold transmit. simpl. destruct (serve rq (backend w)) as [out b].
  apply (IH _ {| client := client w; backend := b;
                 exchanges := exchanges w ++ [(rq, out)] |}).
Qed.

Lemma run_groups_reselect (s : option string) (groups : list (list Request)) :
  forall w,
    run_groups groups (reselect s w)
    = (fst (run_groups groups w), reselect s (snd (run_groups groups w))).
Proof.
  induction groups as [|g groups IH]; intros w; simpl; [reflexivity|].
  unfold make_parallel_requests. rewrite dispatch_reselect.
  destruct (dispatch _ g _ w) as [slots w1]. simpl.
  rewrite IH. destruct (run_groups groups w1) as [outs w2]. reflexivity.
Qed.

Lemma ignores_selection_execute (mode : ExecutionMode)
    (requests_data : list RequestData) (request_method : RequestMethod)
    (max_concurrent_requests : nat) :
  ignores_selection (execute mode requests_data request_method max_concurrent_requests).
Proof.
  intros s w. unfold execute. rewrite run_groups_reselect.
  destruct (run_groups _ w) as [outs w1]. reflexivity.
Qed.

Lemma ignores_selection_list_loaded_models : ignores_selection list_loaded_models.
Proof.
  unfold list_loaded_models. apply ignores_selection_wrap_errors.
  apply ignores_selection_bind; [apply ignores_selection_ensure_v1 | intros _].
  apply ignores_selection_self; [reflexivity | intros c].
  apply ignores_selection_bind; [apply ignores_selection_send | intros response].
  apply ignores_selection_bind; [apply ignores_selection_lift | intros _].
  apply ignores_selection_bind; [apply ignores_selection_lift | intros payload].
  apply ignores_selection_lift.
Qed.

Lemma ignores_selection_load_model (model : string) :
  ignores_selection (load_model model false).
Proof.
  unfold load_model. apply ignores_selection_wrap_errors.
  apply ignores_selection_bind; [apply ignores_selection_ensure_v1 | intros _].
  apply ignores_selection_self; [reflexivity | intros c].
  apply ignores_selection_bind; [apply ignores_selection_send | intros response].
  apply ignores_selection_bind; [apply ignores_selection_lift | intros _].
  apply ignores_selection_bind; [apply ignores_selection_lift | intros payload].
  apply ignores_selection_bind; [apply ignores_selection_ret | intros _].
  apply ignores_selection_lift.
Qed.

Lemma ignores_selection_get_model_description (depth : nat) (model : string) :
  forall allow_loading,
    ignores_selection (get_model_description depth model allow_loading).
Proof.
  induction depth as [|depth IH]; intros allow_loading; simpl.
  - apply ignores_selection_ret.
  - apply ignores_selection_bind; [apply ignores_selection_ensure_v1 | intros _].
    apply ignores_selection_bind;
      [apply ignores_selection_list_loaded_models | intros registered].
    destruct (filter _ (models registered)); [|apply ignores_selection_ret].
    destruct allow_loading; [|apply ignores_selection_raise].
    apply ignores_selection_bind; [apply ignores_selection_load_model | intros _].
    apply IH.
Qed.

(** X11: a non-empty identifier given with the call overrides the selected
    model: in both protocols inference with that identifier returns the same,
    sends the same and leaves the backend the same whatever model is
    selected, and the selection itself stays in place. *)
Theorem explicit_identifier_overrides_selection (inference_input : InferenceInput)
    (identifier : string) :
  identifier <> "" ->
  ignores_selection (infer_from_api_v0 inference_input (Some identifier))
  /\ ignores_selection (infer_from_api_v1 inference_input (Some identifier)).
Proof.
  intros Hne.
  assert (forall selected, or_selected (Some identifier) selected = Some identifier)
    as Hor by (intros selected; destruct identifier; [congruence | reflexivity]).
  split.
  - unfold infer_from_api_v0, infer_from_api_v0_results, execute_requests_packages.
    apply ignores_selection_bind; [|intros results; apply ignores_selection_ret].
    apply ignores_selection_self.
    + intros c s. cbv beta. rewrite !Hor. reflexivity.
    + intros c. rewrite Hor.
      apply ignores_selection_bind; [apply ignores_selection_lift | intros _].
      destruct (split "/" _) as [|project [|version [|]]];
        try apply ignores_selection_raise.
      destruct (_determine_client_downsizing_parameters _ _ _) as [max_height max_width].
      apply ignores_selection_bind; [apply ignores_selection_lift | intros encoded].
      apply ignores_selection_bind; [apply ignores_selection_execute | intros responses].
      apply ignores_selection_lift.
  - unfold infer_from_api_v1, infer_from_api_v1_results, execute_requests_packages.
    apply ignores_selection_bind; [|intros results; apply ignores_selection_ret].
    apply ignores_selection_bind; [apply ignores_selection_ensure_v1 | intros _].
    apply ignores_selection_self.
    + intros c s. cbv beta. rewrite !Hor. reflexivity.
    + intros c. rewrite Hor.
      apply ignores_selection_bind; [apply ignores_selection_lift | intros _].
      apply ignores_selection_bind.
      { unfold describe_or_load. apply ignores_selection_bind;
          [apply ignores_selection_get_model_description|].
        intros [d|]; [apply ignores_selection_ret | apply ignores_selection_raise]. }
      intros description. apply ignores_selection_self; [reflexivity | intros c'].
      destruct (_determine_client_downsizing_parameters _ _ _) as [max_height max_width].
      destruct (NEW_INFERENCE_ENDPOINTS !! task_type description);
        [|apply ignores_selection_raise].
      apply ignores_selection_bind; [apply ignores_selection_lift | intros encoded].
      apply ignores_selection_bind; [apply ignores_selection_execute | intros responses].
      apply ignores_selection_bind; [apply ignores_selection_lift | intros per_package].
      apply ignores_selection_ret.
Qed.

(** ** What the legacy protocol sends *)

Lemma split_join (sep : ascii) (s : string) :
  join (String sep "") (split sep s) = s.
Proof.
  induction s as [|a s IH]; simpl; [reflexivity|].
  pose proof (split_length sep s) as Hlen.
  destruct (Ascii.eqb_spec a sep) as [->|Hne].
  - destruct (split sep s) as [|chunk rest]; [discriminate|].
    simpl. simpl in IH. rewrite IH. reflexivity.
  - destruct (split sep s) as [|chunk [|chunk' rest]]; [discriminate| |].
    + simpl in *. rewrite IH. reflexivity.
    + simpl in *. rewrite <- IH. reflexivity.
Qed.

Lemma split_chunks_clean (sep : ascii) (s : string) :
  Forall (fun chunk => count_char sep chunk = 0) (split sep s).
Proof.
  induction s as [|a s IH]; simpl; [repeat constructor|].
  destruct (Ascii.eqb a sep) eqn:Ha; [constructor; [reflexivity | exact IH]|].
  destruct (split sep s) as [|chunk rest]; [repeat constructor; simpl; rewrite Ha; reflexivity|].
  inversion IH as [|? ? Hchunk Hrest]; subst.
  constructor; [simpl; rewrite Ha; exact Hchunk | exact Hrest].
Qed.

Lemma slice_groups_one {X : Type} (l : list X) :
  slice_groups 1 l = map (fun x => [x]) l.
Proof.
  induction l as [|x l IH]; simp slice_groups; [reflexivity|].
  rewrite take_0, drop_0, IH. reflexivity.
Qed.

Lemma omap_lookup_shift {X : Type} (x : X) (l : list X) (indices : list nat) :
  omap (fun i => (x :: l) !! i) (S <$> indices) = omap (fun i => l !! i) indices.
Proof.
  induction indices as [|i indices IH]; [reflexivity|].
  cbn [fmap list_fmap omap list_omap]. rewrite <- IH. reflexivity.
Qed.

Lemma omap_lookup_seq {X : Type} (l : list X) :
  omap (fun i => l !! i) (seq 0 (length l)) = l.
Proof.
  induction l as [|x l IH]; [reflexivity|].
  cbn [length seq omap list_omap]. rewrite <- fmap_S_seq, omap_lookup_shift, IH.
  reflexivity.
Qed.

Lemma dispatch_sent (order : list nat) (reqs : list Request) :
  forall slots w,
    exists new,
      exchanges (snd (dispatch order reqs slots w)) = exchanges w ++ new
      /\ map fst new = omap (fun i => reqs !! i) order.
Proof.
  induction order as [|i order IH]; intros slots w; simpl.
  - exists []. rewrite app_nil_r. split; reflexivity.
  - destruct (reqs !! i) as [rq|] eqn:Hrq; [|apply IH].
    destruct (transmit rq w) as [out w1] eqn:Ht.
    destruct (transmit_spec rq w out w1 Ht) as (_ & Hx & _).
    destruct (IH (<[i:=Some out]> slots) w1) as (new & Hnew & Hsent).
    exists ((rq, out) :: new). split.
    + rewrite Hnew, Hx, <- app_assoc. reflexivity.
    + simpl. rewrite Hsent. reflexivity.
Qed.

Lemma run_groups_sent (groups : list (list Request)) :
  forall w,
    exists new,
      exchanges (snd (run_groups groups w)) = exchanges w ++ new
      /\ map fst new ≡ₚ concat groups.
Proof.
  induction groups as [|g groups IH]; intros w; simpl.
  - exists []. rewrite app_nil_r. split; reflexivity.
  - unfold make_parallel_requests.
    destruct (dispatch_sent (service_order g) g (replicate (length g) None) w)
      as (new1 & Hx1 & Hs1).
    destruct (dispatch (service_order g) g (replicate (length g) None) w)
      as [slots w1]. simpl in Hx1.
    destruct (IH w1) as (new2 & Hx2 & Hs2).
    destruct (run_groups groups w1) as [outs w2]. simpl in Hx2 |- *.
    exists (new1 ++ new2). split.
    + rewrite Hx2, Hx1, <- app_assoc. reflexivity.
    + rewrite map_app, Hs1, Hs2, service_order_perm, omap_lookup_seq. reflexivity.
Qed.

Lemma execute_sent (mode : ExecutionMode) (requests_data : list RequestData)
    (request_method : RequestMethod) (max_concurrent_requests : nat) (w : World) :
  exists new,
    exchanges (snd (execute mode requests_data request_method
                      max_concurrent_requests w))
    = exchanges w ++ new
    /\ map fst new ≡ₚ map (request_of request_method) requests_data.
Proof.
  unfold execute.
  set (reqs := map (request_of request_method) requests_data).
  set (groups := match mode with
                 | Blocking => slice_groups max_concurrent_requests reqs
                 | NonBlocking => [reqs]
                 end).
  assert (concat groups = reqs) as Hgroups.
  { unfold groups. destruct mode; [apply slice_groups_concat|].
    simpl. apply app_nil_r. }
  destruct (run_groups_sent groups w) as (new & Hx & Hs).
  destruct (run_groups groups w) as [outs w1]. simpl in Hx |- *.
  exists new. split; [exact Hx|]. rewrite Hs, Hgroups. reflexivity.
Qed.

(** X12: with an identifier [project/version] the legacy protocol sends its
    requests to the address of the backend followed by [/project/version],
    and nothing else: every request that goes out during
    [infer_from_api_v0] is a POST to that address with one image as its body
    and no JSON payload, and when the call returns there was one request per
    image. *)
Theorem legacy_requests_go_to_the_model (inference_input : InferenceInput)
    (model : option string) (w : World) (identifier : string) :
  or_selected model (selected_model (client w)) = Some identifier ->
  count_char "/" identifier = 1 ->
  exists new,
    exchanges (snd (infer_from_api_v0 inference_input model w)) = exchanges w ++ new
    /\ Forall (fun x => legacy_request w identifier (fst x)) new
    /\ (forall result,
          fst (infer_from_api_v0 inference_input model w) = Ok result ->
          length new = images_count inference_input).
Proof.
  intros Hid Hcount.
  unfold infer_from_api_v0, infer_from_api_v0_results.
  unfold mbind, M_bind, self, lift. rewrite Hid. simpl.
  pose proof (split_length "/" identifier) as Hlen.
  pose proof (split_join "/" identifier) as Hjoin.
  destruct (split "/" identifier) as [|project [|version [|]]]; simpl in Hlen;
    try lia.
  simpl in Hjoin.
  destruct (_determine_client_downsizing_parameters _ _ _) as [max_height max_width].
  destruct (load_static_inference_input inference_input max_height max_width)
    as [encoded|e] eqn:Hload.
  2:{ exists []. rewrite app_nil_r. simpl. repeat split; [constructor | discriminate]. }
  apply load_static_length in Hload.
  match goal with
  | |- context [execute_requests_packages ?rds ?m ?n w] =>
      destruct (execute_sent Blocking rds m n w) as (new & Hx & Hsent);
      fold execute_requests_packages in Hx;
      destruct (execute_requests_packages rds m n w) as [[responses|e] w1]
  end; simpl in Hx.
  - exists new.
    assert (Forall (fun x => legacy_request w identifier (fst x)) new
            /\ length new = images_count inference_input) as [Hall Hn].
    { split.
      - apply Forall_fmap with (f := fst) (P := legacy_request w identifier).
        change (fst <$> new) with (map fst new). rewrite Hsent.
        unfold prepare_requests_data. rewrite slice_groups_one, !map_map.
        apply Forall_fmap, Forall_true. intros [image factor].
        unfold legacy_request, request_of. simpl. rewrite <- Hjoin.
        repeat split. eexists. reflexivity.
      - rewrite <- (length_map fst new), Hsent.
        unfold prepare_requests_data. rewrite slice_groups_one, !length_map.
        exact Hload. }
    match goal with
    | |- context [for_each ?f ?l] => destruct (for_each f l)
    end; simpl; (split; [exact Hx | split; [exact Hall | intros; exact Hn]]).
  - exists new. simpl. split; [exact Hx|]. split; [|discriminate].
    apply Forall_fmap with (f := fst) (P := legacy_request w identifier).
    change (fst <$> new) with (map fst new). rewrite Hsent.
    unfold prepare_requests_data. rewrite slice_groups_one, !map_map.
    apply Forall_fmap, Forall_true. intros [image factor].
    unfold legacy_request, request_of. simpl. rewrite <- Hjoin.
    repeat split. eexists. reflexivity.
Qed.

(** ** Workflows *)

Lemma dict_get_set_eq (key : string) (v : Json) (d : dict) :
  dict_get key (dict_set key v d) = Some v.
Proof.
  induction d as [|[k v0] d IH]; simpl.
  - rewrite String.eqb_refl. reflexivity.
  - destruct (String.eqb k key) eqn:Hk; simpl; rewrite Hk; [reflexivity | exact IH].
Qed.

Lemma dict_get_set_ne (key key' : string) (v : Json) (d : dict) :
  key <> key' -> dict_get key' (dict_set key v d) = dict_get key' d.
Proof.
  intros Hne. induction d as [|[k v0] d IH]; simpl.
  - apply String.eqb_neq in Hne. rewrite Hne. reflexivity.
  - destruct (String.eqb k key) eqn:Hk; simpl.
    + apply String.eqb_eq in Hk as ->.
      apply String.eqb_neq in Hne. rewrite Hne. reflexivity.
    + destruct (String.eqb k key'); [reflexivity | exact IH].
Qed.

(** X13: [infer_from_workflow] wants the workflow defined once, by both
    names or by a specification: with both or with neither it raises
    [InvalidParameterError] and the world is as before.  Otherwise, in either
    protocol mode, nothing is sent when an image fails to load, and when all
    load exactly one POST goes out, to [/infer/workflows] for a specification
    and to [/infer/workflows/workspace/workflow] for a named workflow, whose
    payload holds the API key, the runtime parameters (the images, then the
    parameters given), the specification and the excluded fields. *)
Theorem workflow_is_defined_once
    (decode_workflow_outputs : Json -> VisualisationResponseFormat -> Outcome Json)
    (workspace_name workflow_name : option string)
    (workflow_specification : option dict)
    (images : option (list (string * InferenceInput)))
    (parameters : option dict) (excluded_fields : option (list string)) (w : World) :
  let call :=
    infer_from_workflow decode_workflow_outputs workspace_name workflow_name
      workflow_specification images parameters excluded_fields w in
  let named := workspace_name <> None /\ workflow_name <> None in
  ((named <-> workflow_specification <> None) ->
   call = (Raise workflow_parameters_error, w))
  /\ (~ (named <-> workflow_specification <> None) ->
      (forall e, load_workflow_images (default [] images) [] = Raise e ->
                 snd call = w)
      /\ (forall runtime_parameters,
            load_workflow_images (default [] images) [] = Ok runtime_parameters ->
            exists rq payload,
              snd call = after_serving w rq
              /\ method rq = POST
              /\ url rq = workflow_url w workspace_name workflow_name
                            workflow_specification
              /\ json_payload rq = Some payload
              /\ dict_get "api_key" payload = Some (JStr (api_key (client w)))
              /\ dict_get "runtime_parameters" payload
                 = Some (JObj (dict_update runtime_parameters (default [] parameters)))
              /\ dict_get "specification" payload = JObj <$> workflow_specification
              /\ dict_get "excluded_fields" payload
                 = (fun fields => JArr (map JStr fields)) <$> excluded_fields)).
Proof.
  intros call named.
  assert (negb (xorb (bool_decide (workspace_name <> None)
                      && bool_decide (workflow_name <> None))
                     (bool_decide (workflow_specification <> None))) = true
          <-> (named <-> workflow_specification <> None)) as Hcheck.
  { unfold named.
    destruct workspace_name, workflow_name, workflow_specification; cbn;
      intuition (discriminate || congruence). }
  subst call. unfold infer_from_workflow. rewrite wrap_errors_world. split.
  - intros Hboth. apply Hcheck in Hboth.
    unfold wrap_errors. rewrite Hboth. reflexivity.
  - intros Hone.
    destruct (negb (xorb _ _)) eqn:Hb; [exfalso; apply Hone, Hcheck; reflexivity|].
    clear Hcheck Hone Hb.
    unfold mbind, M_bind, self, lift. split.
    + intros e ->. reflexivity.
    + intros runtime_parameters ->. unfold requests_post, send, transmit.
      match goal with
      | |- context [serve ?rq (backend w)] =>
          exists rq; destruct (serve rq (backend w)) as [out b] eqn:Hs
      end.
      eexists. split; [|split; [reflexivity|split; [|split; [reflexivity|]]]].
      * unfold after_serving, after_exchange. rewrite Hs. simpl.
        destruct out as [response|e]; [|reflexivity].
        unfold response_json.
        repeat (match goal with
                | |- context [match ?x with _ => _ end] => destruct x
                end; simpl; try reflexivity).
      * unfold workflow_url. destruct workflow_specification; reflexivity.
      * destruct workflow_specification, excluded_fields; simpl;
          repeat split;
          repeat first
            [ rewrite dict_get_set_eq
            | rewrite dict_get_set_ne by discriminate ];
          reflexivity.
Qed.

(** X14: the API key of the session travels in one place.
    [get_clip_text_embeddings] sends exactly one POST, whatever comes back:
    in the legacy protocol the key follows the address as [?api_key=] and the
    payload has no [api_key]; in the current protocol the address is bare
    and the payload holds the key.  The payload always holds the text.
    [get_server_info] sends one GET to [/info] with no key at all. *)
Theorem api_key_travels_in_one_place {Result ServerInfo : Type}
    (unwrap_document : Json -> Outcome Result)
    (ServerInfo_from_dict : Json -> Outcome ServerInfo) (text : Json) (w : World) :
  (exists rq payload,
     snd (get_clip_text_embeddings unwrap_document text w) = after_serving w rq
     /\ method rq = POST
     /\ key_in_address w "/clip/embed_text" rq
     /\ json_payload rq = Some payload
     /\ dict_get "text" payload = Some text
     /\ dict_get "api_key" payload
        = match client_mode (client w) with
          | V0 => None
          | V1 => Some (JStr (api_key (client w)))
          end)
  /\ snd (get_server_info ServerInfo_from_dict w)
     = after_serving w
         {| method := GET; url := api_url (client w) +:+ "/info";
            request_headers := []; params := None; json_payload := None;
            data := None |}.
Proof.
  split.
  - unfold get_clip_text_embeddings. rewrite wrap_errors_world.
    unfold __initialise_payload, __wrap_url_with_api_key, key_in_address.
    unfold mbind, M_bind, self, lift, mret, M_ret. cbv beta iota.
    destruct (client_mode (client w)) eqn:Hmode; cbv beta iota;
      rewrite ?Hmode; cbv beta iota;
      unfold requests_post, send, transmit;
      match goal with
      | |- context [serve ?rq (backend w)] =>
          exists rq; destruct (serve rq (backend w)) as [out b] eqn:Hs
      end;
      (eexists; split; [|repeat split; reflexivity]);
      unfold after_serving, after_exchange; rewrite Hs; simpl;
      (destruct out as [response|e]; [|reflexivity]);
      unfold response_json;
      repeat (match goal with
              | |- context [match ?x with _ => _ end] => destruct x
              end; simpl; try reflexivity).
  - unfold get_server_info. rewrite wrap_errors_world.
    unfold mbind, M_bind, self, lift, requests_get, send, transmit.
    unfold after_serving, after_exchange.
    destruct (serve _ (backend w)) as [out b]. simpl.
    destruct out as [response|e]; [|reflexivity].
    unfold response_json.
    repeat (match goal with
            | |- context [match ?x with _ => _ end] => destruct x
            end; simpl; try reflexivity).
Qed.


End FurtherProperties.

(** * Results in the order of the images *)

Section OrderOfResults.

Context {ext : Collaborators}.

Lemma load_static_in_order (inference_input : InferenceInput)
    (max_height max_width : option Z) (encoded : list EncodedInput) :
  load_static_inference_input inference_input max_height max_width = Ok encoded ->
  Forall2 (fun image e => load_image image max_height max_width = Ok e)
    (images_of inference_input) encoded.
Proof.
  destruct inference_input as [image|images]; simpl.
  - unfold mbind, Outcome_bind, mret, Outcome_ret.
    destruct (load_image image max_height max_width) as [e|] eqn:He; [|discriminate].
    intros [= <-]. constructor; [exact He | constructor].
  - apply for_each_ok.
Qed.

Lemma paired_by_position {X R : Type} (package_of : X -> RequestData) (xs : list X)
    (responses : list Response) (results : list R)
    (normalise : RequestData * Response -> Outcome R)
    (new : list (Request * NetOutcome)) :
  answered_in_order (map (request_of POST) (map package_of xs))
    (map Replied responses) new ->
  for_each normalise (zip (map package_of xs) responses) = Ok results ->
  Forall2 (fun x r =>
             exists response,
               (request_of POST (package_of x), Replied response) ∈ new
               /\ normalise (package_of x, response) = Ok r)
    xs results.
Proof.
  intros [Hlen Hin] Hloop. apply for_each_ok in Hloop.
  rewrite !length_map in Hlen.
  pose proof (Forall2_length _ _ _ Hloop) as Hlen'.
  rewrite length_zip_with, length_map in Hlen'.
  apply Forall2_same_length_lookup_2; [lia|].
  intros i x r Hx Hr.
  destruct (Forall2_lookup_r _ _ _ _ _ Hloop Hr) as ([package response] & Hz & Hn).
  apply lookup_zip_with_Some in Hz as (package' & response' & [= <- <-] & Hp & Hresp).
  rewrite list_lookup_fmap, Hx in Hp. injection Hp as <-.
  destruct (Hin i (request_of POST (package_of x))) as (out & Ho & Hm).
  { rewrite !list_lookup_fmap, Hx. reflexivity. }
  rewrite list_lookup_fmap, Hresp in Ho. injection Ho as <-.
  exists response. split; assumption.
Qed.

Lemma infer_from_api_v0_results_in_order (inference_input : InferenceInput)
    (model : option string) (w w' : World) (results : list Json) :
  infer_from_api_v0_results inference_input model w = (Ok results, w') ->
  exists max_height max_width encoded new,
    Forall2 (fun image e => load_image image max_height max_width = Ok e)
      (images_of inference_input) encoded
    /\ exchanges w' = exchanges w ++ new /\ served new
    /\ Forall2 (legacy_result_for
                  (output_visualisation_format (inference_configuration (client w)))
                  (legacy_address w model) (legacy_parameters w) new)
         encoded results.
Proof.
  unfold infer_from_api_v0_results, legacy_address. intros H.
  apply bind_ok_inv in H as (c & w1 & Hself & H).
  unfold self in Hself. injection Hself as <- <-.
  apply bind_ok_inv in H as (u & w2 & Hsel & H). apply lift_ok_inv in Hsel as [_ ->].
  destruct (split "/" _) as [|project [|version [|]]]; try discriminate.
  destruct (_determine_client_downsizing_parameters _ _ _) as [max_height max_width].
  apply bind_ok_inv in H as (encoded & w3 & Hload & H).
  apply lift_ok_inv in Hload as [Hload ->].
  apply bind_ok_inv in H as (responses & w4 & Hexec & H).
  apply lift_ok_inv in H as [Hloop ->].
  apply execute_spec in Hexec as (_ & new & Hx & Hs & Hord).
  exists max_height, max_width, encoded, new.
  split; [apply load_static_in_order; exact Hload|].
  split; [exact Hx|]. split; [exact Hs|].
  unfold prepare_requests_data in Hord, Hloop.
  rewrite slice_groups_one in Hord, Hloop.
  rewrite (map_map (fun x : EncodedInput => [x])) in Hord, Hloop.
  pose proof (paired_by_position _ _ _ _ _ _ Hord Hloop) as Hpairs.
  eapply Forall2_impl; [exact Hpairs|].
  intros e r (response & Hm & Hn). cbv beta in Hm, Hn.
  match type of Hn with
  | normalise_v0 _ (?package, _) = _ => exists package, response
  end.
  split; [reflexivity|]. split; [reflexivity|]. split; [exact Hm | exact Hn].
Qed.

Lemma describe_or_load_world (model : string) (w : World) :
  client (snd (describe_or_load model w)) = client w
  /\ exists before, exchanges (snd (describe_or_load model w)) = exchanges w ++ before.
Proof.
  unfold describe_or_load, mbind, M_bind.
  change 2 with (2 + 0). rewrite get_model_description_unfolded.
  destruct (describe_with_loading_at_most_one_load
              list_loaded_models (load_model model false) model
              list_loaded_models_needs_v1 list_loaded_models_one_exchange
              (load_model_one_exchange model) w)
    as (_ & Hc & before & Hx & _).
  destruct (describe_with_loading _ _ _ w) as [[[d|]|e] w1]; simpl in *;
    (split; [exact Hc | exists before; exact Hx]).
Qed.

Lemma infer_from_api_v1_results_in_order (inference_input : InferenceInput)
    (model : option string) (w w' : World) (results : list Json) :
  infer_from_api_v1_results inference_input model w = (Ok results, w') ->
  exists identifier description endpoint max_height max_width encoded per_package
         before new,
    or_selected model (selected_model (client w)) = Some identifier
    /\ NEW_INFERENCE_ENDPOINTS !! task_type description = Some endpoint
    /\ Forall2 (fun image e => load_image image max_height max_width = Ok e)
         (images_of inference_input) encoded
    /\ exchanges w' = exchanges w ++ before ++ new /\ served new
    /\ Forall2 (batch_results_for
                  (output_visualisation_format (inference_configuration (client w)))
                  (api_url (client w) +:+ endpoint)
                  (current_payload w identifier description) new)
         (slice_groups (max_batch_size (inference_configuration (client w))) encoded)
         per_package
    /\ results = concat per_package.
Proof.
  unfold infer_from_api_v1_results. intros H.
  apply bind_ok_inv in H as (u & w1 & Hmode & H).
  apply ensure_v1_ok_inv in Hmode as [-> _].
  apply bind_ok_inv in H as (c & w2 & Hself & H).
  unfold self in Hself. injection Hself as <- <-.
  apply bind_ok_inv in H as (u' & w3 & Hsel & H). apply lift_ok_inv in Hsel as [Hsel ->].
  destruct (or_selected model (selected_model (client w))) as [identifier|] eqn:Hid;
    [|discriminate].
  apply bind_ok_inv in H as (description & w4 & Hd & H).
  destruct (describe_or_load_world (default "" (Some identifier)) w)
    as (Hc4 & before & Hx4).
  rewrite Hd in Hc4, Hx4. simpl in Hc4, Hx4.
  apply bind_ok_inv in H as (c' & w5 & Hself & H).
  unfold self in Hself. injection Hself as <- <-.
  rewrite Hc4 in H.
  destruct (_determine_client_downsizing_parameters _ _ _) as [max_height max_width].
  destruct (NEW_INFERENCE_ENDPOINTS !! task_type description) as [endpoint|] eqn:He;
    [|discriminate].
  apply bind_ok_inv in H as (encoded & w6 & Hload & H).
  apply lift_ok_inv in Hload as [Hload ->].
  apply bind_ok_inv in H as (responses & w7 & Hexec & H).
  apply bind_ok_inv in H as (per_package & w8 & Hloop & H).
  apply lift_ok_inv in Hloop as [Hloop ->].
  injection H as <- <-.
  apply execute_spec in Hexec as (_ & new & Hx & Hs & Hord).
  exists identifier, description, endpoint, max_height, max_width, encoded,
    per_package, before, new.
  split; [first [exact Hid | reflexivity]|]. split; [exact He|].
  split; [apply load_static_in_order; exact Hload|].
  split; [rewrite Hx, Hx4, <- app_assoc; reflexivity|]. split; [exact Hs|].
  split; [|reflexivity].
  unfold prepare_requests_data in Hord, Hloop.
  pose proof (paired_by_position _ _ _ _ _ _ Hord Hloop) as Hpairs.
  eapply Forall2_impl; [exact Hpairs|].
  intros group rs (response & Hm & Hn). cbv beta in Hm, Hn.
  match type of Hn with
  | normalise_v1 _ (?package, _) = _ => exists package, response
  end.
  split; [reflexivity|]. split; [reflexivity|]. split; [exact Hm | exact Hn].
Qed.

(** C1, amended: a single image and a list of that one image give the same
    list of results, hence the same final result.  The results are in the
    order of the images: in the legacy protocol result number [i] is made of
    the response to the request that carries image number [i]; in the
    current protocol the images are sliced into consecutive groups, the
    results of group number [p] are made of the response to the request that
    carries the images of that group, prediction number [j] of that response
    with the factor of image number [j] of the group, and the results of the
    groups follow each other in the order of the groups.  The final result
    is [unwrap_single_element_list] of the results, a bare object when there
    is exactly one result and the list of results otherwise; the legacy
    protocol gives one result per image, the current protocol at most one
    per image and exactly one when every response holds as many predictions
    as its package has images. *)
Theorem single_result_is_unwrapped (model : option string) (w : World) :
  let expected_format :=
    output_visualisation_format (inference_configuration (client w)) in
  (forall image,
     infer_from_api_v0 (Single image) model w = infer_from_api_v0 (Many [image]) model w
     /\ infer_from_api_v1 (Single image) model w
        = infer_from_api_v1 (Many [image]) model w
     /\ infer (Single image) model w = infer (Many [image]) model w)
  /\ (forall input result w',
        infer_from_api_v0 input model w = (Ok result, w') ->
        exists max_height max_width encoded results new,
          Forall2 (fun image e => load_image image max_height max_width = Ok e)
            (images_of input) encoded
          /\ exchanges w' = exchanges w ++ new /\ served new
          /\ Forall2 (legacy_result_for expected_format (legacy_address w model)
                        (legacy_parameters w) new)
               encoded results
          /\ length results = images_count input
          /\ result = unwrap_single_element_list results
          /\ (images_count input = 1 -> exists r, result = Bare r)
          /\ (images_count input <> 1 -> result = Seq results))
  /\ (forall input result w',
        infer_from_api_v1 input model w = (Ok result, w') ->
        exists identifier description endpoint max_height max_width encoded
               per_package before new,
          or_selected model (selected_model (client w)) = Some identifier
          /\ NEW_INFERENCE_ENDPOINTS !! task_type description = Some endpoint
          /\ Forall2 (fun image e => load_image image max_height max_width = Ok e)
               (images_of input) encoded
          /\ exchanges w' = exchanges w ++ before ++ new /\ served new
          /\ Forall2 (batch_results_for expected_format
                        (api_url (client w) +:+ endpoint)
                        (current_payload w identifier description) new)
               (slice_groups (max_batch_size (inference_configuration (client w)))
                  encoded)
               per_package
          /\ length (concat per_package) <= images_count input
          /\ result = unwrap_single_element_list (concat per_package)
          /\ (length (concat per_package) = 1 -> exists r, result = Bare r)
          /\ (length (concat per_package) <> 1 -> result = Seq (concat per_package)))
  /\ (forall format package response rs,
        normalise_v1 format (package, response) = Ok rs ->
        exists parsed,
          json response = Some parsed
          /\ Forall2 (fun pair r => normalise_element format pair = Ok r)
               (zip (as_list parsed) (image_scaling_factors package)) rs)
  /\ (forall format requests_data responses per_package,
        length responses = length requests_data ->
        for_each (normalise_v1 format) (zip requests_data responses)
          = Ok per_package ->
        answers_every_image requests_data responses ->
        length (concat per_package)
        = length (concat (map image_scaling_factors requests_data))).
Proof.
  intros expected_format. subst expected_format.
  split; [|split; [|split; [|split]]].
  - intros image.
    assert (infer_from_api_v0 (Single image) model w
            = infer_from_api_v0 (Many [image]) model w) as H0.
    { unfold infer_from_api_v0, mbind, M_bind.
      rewrite infer_from_api_v0_results_single. reflexivity. }
    assert (infer_from_api_v1 (Single image) model w
            = infer_from_api_v1 (Many [image]) model w) as H1.
    { unfold infer_from_api_v1, mbind, M_bind.
      rewrite infer_from_api_v1_results_single. reflexivity. }
    split; [exact H0|]. split; [exact H1|].
    unfold infer, wrap_errors, mbind, M_bind, self.
    destruct (client_mode (client w)); [rewrite H0 | rewrite H1]; reflexivity.
  - intros input result w' H. unfold infer_from_api_v0 in H.
    apply bind_ok_inv in H as (results & w1 & Hres & H).
    injection H as <- <-.
    pose proof (infer_from_api_v0_results_length _ _ _ _ _ Hres) as Hlen.
    apply infer_from_api_v0_results_in_order in Hres
      as (max_height & max_width & encoded & new & Hload & Hx & Hs & Hall).
    exists max_height, max_width, encoded, results, new.
    split; [exact Hload|]. split; [exact Hx|]. split; [exact Hs|].
    split; [exact Hall|]. split; [exact Hlen|]. split; [reflexivity|].
    rewrite <- Hlen. split.
    + destruct results as [|r [|]]; simpl; try discriminate. eauto.
    + destruct results as [|r [|]]; simpl; congruence.
  - intros input result w' H. unfold infer_from_api_v1 in H.
    apply bind_ok_inv in H as (results & w1 & Hres & H).
    injection H as <- <-.
    pose proof (infer_from_api_v1_results_length _ _ _ _ _ Hres) as Hlen.
    apply infer_from_api_v1_results_in_order in Hres
      as (identifier & description & endpoint & max_height & max_width & encoded
          & per_package & before & new & Hid & He & Hload & Hx & Hs & Hall & ->).
    exists identifier, description, endpoint, max_height, max_width, encoded,
      per_package, before, new.
    split; [exact Hid|]. split; [exact He|]. split; [exact Hload|].
    split; [exact Hx|]. split; [exact Hs|]. split; [exact Hall|].
    split; [exact Hlen|]. split; [reflexivity|]. split.
    + destruct (concat per_package) as [|r [|]]; simpl; try discriminate. eauto.
    + destruct (concat per_package) as [|r [|]]; simpl; congruence.
  - intros format package response rs H. unfold normalise_v1, response_json in H.
    destruct (json response) as [parsed|]; [|discriminate].
    exists parsed. split; [reflexivity|].
    unfold mbind, Outcome_bind in H. apply for_each_ok in H. exact H.
  - intros format requests_data responses per_package Hlen Hloop Hall.
    apply normalise_v1_length in Hloop as [_ Heq].
    change (map fst (zip ?l ?k)) with ((zip l k).*1) in Heq.
    change (map snd (zip ?l ?k)) with ((zip l k).*2) in Heq.
    rewrite fst_zip, snd_zip in Heq by lia.
    rewrite (Heq Hall), <- (map_map fst image_scaling_factors).
    change (map fst (zip ?l ?k)) with ((zip l k).*1).
    rewrite fst_zip by lia. reflexivity.
Qed.

End OrderOfResults.

(** ** Strings *)

Lemma string_app_nil (b : string) : "" +:+ b = b.
Proof. reflexivity. Qed.

Lemma string_app_cons (x : ascii) (a b : string) :
  String x a +:+ b = String x (a +:+ b).
Proof. reflexivity. Qed.

Lemma string_length_app (a b : string) :
  String.length (a +:+ b) = String.length a + String.length b.
Proof.
  induction a as [|x a IH]; [reflexivity|].
  rewrite string_app_cons. simpl. rewrite IH. reflexivity.
Qed.

Lemma endswith_iff (suffix s : string) :
  endswith suffix s = true <-> exists before, s = before +:+ suffix.
Proof.
  induction s as [|a s IH]; cbn [endswith].
  - rewrite orb_false_r, String.eqb_eq. split.
    + intros <-. exists "". reflexivity.
    + intros [[|b before] H]; [exact H | discriminate].
  - rewrite orb_true_iff, String.eqb_eq, IH. split.
    + intros [<- | [before ->]]; [exists "" | exists (String a before)]; reflexivity.
    + intros [[|b before] H]; [left; exact H|].
      rewrite string_app_cons in H. injection H as -> ->.
      right. exists before. reflexivity.
Qed.

Lemma substring_prefix (before rest : string) :
  substring 0 (String.length before) (before +:+ rest) = before.
Proof.
  induction before as [|a before IH].
  - rewrite string_app_nil. destruct rest; reflexivity.
  - rewrite string_app_cons. simpl. rewrite IH. reflexivity.
Qed.

Lemma without_last_app (before suffix : string) :
  without_last (String.length suffix) (before +:+ suffix) = before.
Proof.
  unfold without_last. rewrite string_length_app.
  replace (String.length before + String.length suffix - String.length suffix)
    with (String.length before) by lia.
  apply substring_prefix.
Qed.

Lemma prefix_iff (s1 s2 : string) :
  String.prefix s1 s2 = true <-> exists rest, s2 = s1 +:+ rest.
Proof.
  revert s2. induction s1 as [|a s1 IH]; intros s2.
  - split; [intros _; exists s2; reflexivity | destruct s2; reflexivity].
  - destruct s2 as [|b s2]; simpl.
    + split; [discriminate | intros [rest H]; discriminate].
    + destruct (ascii_dec a b) as [->|Hne].
      * rewrite IH. split; intros [rest H]; exists rest;
          rewrite string_app_cons in *; congruence.
      * split; [discriminate|]. intros [rest H].
        rewrite string_app_cons in H. congruence.
Qed.

Lemma contains_iff (sub s : string) :
  contains sub s = true <-> exists before rest, s = before +:+ sub +:+ rest.
Proof.
  unfold contains. induction s as [|b s IH].
  - simpl. destruct sub as [|a sub]; split; try discriminate.
    + intros _. exists "", "". reflexivity.
    + reflexivity.
    + intros [[|x before] [rest H]]; discriminate.
  - cbn [String.index].
    destruct (String.prefix sub (String b s)) eqn:Hp.
    + split; [|reflexivity]. intros _. apply prefix_iff in Hp as [rest Hrest].
      exists "", rest. exact Hrest.
    + assert (match
                match String.index 0 sub s with
                | Some n => Some (S n)
                | None => None
                end
              with
              | Some _ => true
              | None => false
              end
              = match String.index 0 sub s with
                | Some _ => true
                | None => false
                end) as -> by (destruct (String.index 0 sub s); reflexivity).
      rewrite IH. split.
      * intros (before & rest & ->). exists (String b before), rest. reflexivity.
      * intros ([|x before] & rest & H).
        -- exfalso. assert (String.prefix sub (String b s) = true) as Hp'
             by (apply prefix_iff; exists rest; exact H). congruence.
        -- rewrite string_app_cons in H. injection H as -> ->.
           exists before, rest. reflexivity.
Qed.

Lemma lower_is_y (s : string) : lower s = "y" <-> s = "y" \/ s = "Y".
Proof.
  split.
  - destruct s as [|c [|c' s]]; simpl; try discriminate.
    intros H. injection H as H.
    destruct c as [[] [] [] [] [] [] [] []]; vm_compute in H;
      try discriminate; auto.
  - intros [-> | ->]; reflexivity.
Qed.



(** ** The protocol mode of a new client *)

(** X16: a new client speaks the legacy protocol exactly when its address
    has [roboflow.com] somewhere in it, and the current protocol otherwise;
    it has no model selected. *)
Theorem new_client_mode (init_default : InferenceConfiguration)
    (api_url api_key : string) :
  (client_mode (__init__ init_default api_url api_key) = V0
   <-> exists before rest, api_url = before +:+ "roboflow.com" +:+ rest)
  /\ (client_mode (__init__ init_default api_url api_key) = V1
      <-> ~ exists before rest, api_url = before +:+ "roboflow.com" +:+ rest)
  /\ selected_model (__init__ init_default api_url api_key) = None.
Proof.
  unfold __init__, _determine_client_mode. simpl.
  rewrite <- contains_iff.
  destruct (contains "roboflow.com" api_url);
    repeat split; try discriminate; try congruence; try reflexivity.
Qed.

(** ** The CogVLM model *)

Section CogProperties.

Variable env : Cog.Env.
Variables Tokenizer Network Image : Type.
Variable tokenizer_from_pretrained : string -> Outcome Tokenizer.
Variable network_from_pretrained : string -> bool -> bool -> string -> Outcome Network.
Variable generate_and_decode : Network -> Tokenizer -> string -> list Image -> string.

Local Abbreviation init :=
  (Cog.__init__ env Tokenizer Network tokenizer_from_pretrained
     network_from_pretrained).

(** X17: [CogVLM] is only built for an identifier with exactly one [/] and
    with at most one of the 4-bit and 8-bit settings: otherwise [__init__]
    raises [ValueError], whatever the loaders would do.  When it is built,
    its dataset and version are the two sides of the [/], the network was
    loaded for [THUDM/] followed by the version, with the cache directory
    joined from the cache root and the identifier. *)
Theorem cogvlm_is_built_for_dataset_and_version (identifier : string) :
  (count_char "/" identifier <> 1 ->
   init (Some identifier) = Raise (OtherError "ValueError"))
  /\ (Cog.COG_LOAD_4BIT env = true -> Cog.COG_LOAD_8BIT env = true ->
      init (Some identifier) = Raise (OtherError "ValueError"))
  /\ (forall built,
        init (Some identifier) = Ok built ->
        count_char "/" identifier = 1
        /\ ~ (Cog.COG_LOAD_4BIT env = true /\ Cog.COG_LOAD_8BIT env = true)
        /\ Cog.model_id _ _ built = identifier
        /\ Cog.endpoint _ _ built = identifier
        /\ Cog.dataset_id _ _ built +:+ "/" +:+ Cog.version_id _ _ built = identifier
        /\ count_char "/" (Cog.dataset_id _ _ built) = 0
        /\ count_char "/" (Cog.version_id _ _ built) = 0
        /\ Cog.cache_dir _ _ built
           = Cog.path_join (Cog.MODEL_CACHE_DIR env) identifier
        /\ network_from_pretrained ("THUDM/" +:+ Cog.version_id _ _ built)
             (Cog.COG_LOAD_4BIT env) (Cog.COG_LOAD_8BIT env)
             (Cog.cache_dir _ _ built)
           = Ok (Cog.model _ _ built)).
Proof.
  unfold Cog.__init__. simpl.
  pose proof (split_length "/" identifier) as Hlen.
  pose proof (split_join "/" identifier) as Hjoin.
  assert (forall p v, split "/" identifier = [p; v] ->
                      count_char "/" p = 0 /\ count_char "/" v = 0) as Hclean.
  { intros p v Hs. pose proof (split_chunks_clean "/" identifier) as Hc.
    rewrite Hs in Hc. inversion Hc as [|? ? Hp Hc']. inversion Hc' as [|? ? Hv _].
    split; assumption. }
  destruct (split "/" identifier) as [|dataset [|version [|]]]; simpl in Hlen.
  1,2,4: split; [reflexivity|]; split; [reflexivity|]; intros built [=].
  simpl in Hjoin. destruct (Hclean dataset version eq_refl) as [Hd Hv].
  split; [intros Hcount; exfalso; lia|]. split.
  - intros -> ->. reflexivity.
  - intros built H.
    destruct (Cog.COG_LOAD_4BIT env && Cog.COG_LOAD_8BIT env) eqn:Hbits;
      [discriminate|].
    unfold mbind, Outcome_bind, mret, Outcome_ret in H.
    destruct (tokenizer_from_pretrained _) as [tokenizer|e]; [|discriminate].
    destruct (network_from_pretrained _ _ _ _) as [network|e] eqn:Hnet;
      [|discriminate].
    injection H as <-. simpl.
    repeat split; try assumption; try lia.
    intros [H4 H8]. rewrite H4, H8 in Hbits. discriminate.
Qed.

(** X18: [predict] removes one end-of-sequence mark: when the decoded text
    ends with [</s>] the result is the text before that mark, and otherwise
    the decoded text itself; without an image the network is given no
    image. *)
Theorem predict_removes_end_of_sequence (self : Cog.CogVLM Tokenizer Network)
    (image_in : option Image) (prompt : string) :
  let decoded :=
    generate_and_decode (Cog.model _ _ self) (Cog.tokenizer _ _ self) prompt
      (Cog.images_of Image image_in) in
  let text := Cog.predict Tokenizer Network Image generate_and_decode self image_in
                prompt in
  (forall before, decoded = before +:+ "</s>" -> text = before)
  /\ ((forall before, decoded <> before +:+ "</s>") -> text = decoded)
  /\ (text = decoded \/ decoded = text +:+ "</s>")
  /\ Cog.images_of Image None = [].
Proof.
  intros decoded text. subst text. unfold Cog.predict. fold decoded.
  split; [|split; [|split; [|reflexivity]]].
  - intros before Hd.
    assert (endswith "</s>" decoded = true) as -> by (apply endswith_iff; eauto).
    rewrite Hd. apply (without_last_app before "</s>").
  - intros Hnot. destruct (endswith "</s>" decoded) eqn:He; [|reflexivity].
    apply endswith_iff in He as [before Hd]. exfalso. exact (Hnot before Hd).
  - destruct (endswith "</s>" decoded) eqn:He; [|left; reflexivity].
    apply endswith_iff in He as [before Hd]. right.
    rewrite Hd.
    replace (without_last 4 (before +:+ "</s>")) with before
      by (symmetry; apply (without_last_app before "</s>")).
    reflexivity.
Qed.

End CogProperties.

(** ** The benchmark command *)

(** X19: against an address with [roboflow.com] in it and without the option
    to proceed automatically, [api_speed] asks on the console and runs the
    benchmark only when the answer is [y] or [Y]; in every other case it runs
    the benchmark without asking.  When it runs, the benchmark gets the
    options of the command unchanged. *)
Theorem api_speed_asks_before_hosted_benchmark (options : Benchmark.Options)
    (typed : string) :
  let hosted :=
    exists before rest, Benchmark.host options = before +:+ "roboflow.com" +:+ rest in
  let run := Benchmark.api_speed options typed in
  (Benchmark.asked run = true
   <-> hosted /\ Benchmark.proceed_automatically options = false)
  /\ (Benchmark.launched run = None
      <-> hosted /\ Benchmark.proceed_automatically options = false
          /\ typed <> "y" /\ typed <> "Y")
  /\ (forall arguments,
        Benchmark.launched run = Some arguments ->
        arguments = Benchmark.run_api_speed_benchmark options
        /\ Benchmark.arg_host arguments = Benchmark.host options
        /\ Benchmark.arg_model_id arguments = Benchmark.model_id options).
Proof.
  intros hosted run. subst hosted run. unfold Benchmark.api_speed.
  rewrite <- contains_iff.
  destruct (contains "roboflow.com" (Benchmark.host options));
    destruct (Benchmark.proceed_automatically options); simpl.
  1,3,4: split; [|split];
    [ intuition (discriminate || congruence)
    | intuition (discriminate || congruence)
    | intros arguments [= <-]; repeat split ].
  destruct (String.eqb (lower typed) "y") eqn:Hy; simpl.
  - apply String.eqb_eq, lower_is_y in Hy.
    split; [|split];
      [ intuition (discriminate || congruence)
      | intuition (discriminate || congruence)
      | intros arguments [= <-]; repeat split ].
  - apply String.eqb_neq in Hy.
    assert (typed <> "y" /\ typed <> "Y") as [H1 H2]
      by (split; intros ->; apply Hy; reflexivity).
    split; [|split];
      [ intuition (discriminate || congruence)
      | intuition (discriminate || congruence)
      | intros arguments [=] ].
Qed.

(** * The properties on the small backend *)

Import Demo.

Ltac accepted :=
  split; [reflexivity | split; [reflexivity | eexists; split; reflexivity]].

(** C1 as stated fails: a list of one image comes back as a bare object, in
    the current and in the legacy protocol, not as a list of length 1. *)
Lemma list_of_one_image_gives_bare_object :
  (exists r, fst (infer_from_api_v1 one_image None current) = Ok (Bare r))
  /\ (exists r, fst (infer_from_api_v0 one_image (Some "m/1") legacy) = Ok (Bare r))
  /\ ~ (exists rs, fst (infer one_image None current) = Ok (Seq rs) /\ length rs = 1).
Proof.
  split; [eexists; vm_compute; reflexivity|].
  split; [eexists; vm_compute; reflexivity|].
  intros (rs & H & _). vm_compute in H. discriminate.
Qed.

Lemma single_result_is_unwrapped_witness :
  infer (Single (LocalPath "a")) None current = infer one_image None current
  /\ (exists r, fst (infer_from_api_v0 one_image (Some "m/1") legacy) = Ok (Bare r))
  /\ (exists ra rb rc,
        fst (infer_from_api_v0 three_images (Some "m/1") legacy) = Ok (Seq [ra; rb; rc])
        /\ at_path [Key "marker"] ra = Some (JStr "a")
        /\ at_path [Key "marker"] rb = Some (JStr "b")
        /\ at_path [Key "marker"] rc = Some (JStr "c"))
  /\ (exists results,
        fst (infer_from_api_v1 three_images None current)
        = Ok (unwrap_single_element_list results)
        /\ length results <= 3).
Proof.
  split; [apply (single_result_is_unwrapped None current)|]. split; [|split].
  - destruct (infer_from_api_v0 one_image (Some "m/1") legacy) as [[result|e] w']
      eqn:E; [|vm_compute in E; discriminate].
    destruct (proj1 (proj2 (single_result_is_unwrapped (Some "m/1") legacy)) _ _ _ E)
      as (_ & _ & _ & results & _ & _ & _ & _ & _ & _ & _ & Hbare & _).
    destruct (Hbare eq_refl) as [r ->]. exists r. reflexivity.
  - destruct (infer_from_api_v0 three_images (Some "m/1") legacy) as [[result|e] w']
      eqn:E; [|vm_compute in E; discriminate].
    destruct (proj1 (proj2 (single_result_is_unwrapped (Some "m/1") legacy)) _ _ _ E)
      as (max_height & max_width & encoded & results & new
          & Hload & _ & Hs & Hall & _ & _ & _ & Hseq).
    assert (forall name e r,
              load (LocalPath name) max_height max_width = Ok e ->
              legacy_result_for (ext := collaborators) BASE64
                (legacy_address legacy (Some "m/1"))
                (legacy_parameters legacy) new e r ->
              at_path [Key "marker"] r = Some (JStr name)) as Hmarker.
    { intros name [data factor] r He (package & response & Hf & _ & Hin & Hn).
      assert (data = name) as ->
        by (unfold load in He; destruct max_height; injection He as <- _; reflexivity).
      unfold served in Hs. rewrite Forall_forall in Hs.
      destruct (Hs _ Hin) as [b Hb]. simpl in Hb. injection Hb as ->.
      unfold normalise_v0 in Hn. simpl in Hn, Hf. rewrite Hf in Hn.
      injection Hn as <-. reflexivity. }
    simpl in Hload.
    inversion Hload as [|? ea ? l1 Ha H1]; subst.
    inversion H1 as [|? eb ? l2 Hb H2]; subst.
    inversion H2 as [|? ec ? l3 Hc H3]; subst. inversion H3; subst.
    inversion Hall as [|? ra ? k1 Hra G1]; subst.
    inversion G1 as [|? rb ? k2 Hrb G2]; subst.
    inversion G2 as [|? rc ? k3 Hrc G3]; subst. inversion G3; subst.
    exists ra, rb, rc.
    split; [simpl; f_equal; apply Hseq; simpl; discriminate|].
    split; [exact (Hmarker _ _ _ Ha Hra)|].
    split; [exact (Hmarker _ _ _ Hb Hrb) | exact (Hmarker _ _ _ Hc Hrc)].
  - destruct (infer_from_api_v1 three_images None current) as [[result|e] w']
      eqn:E; [|vm_compute in E; discriminate].
    destruct (proj1 (proj2 (proj2 (single_result_is_unwrapped None current))) _ _ _ E)
      as (_ & _ & _ & _ & _ & _ & per_package & _ & _
          & _ & _ & _ & _ & _ & _ & Hlen & Hres & _).
    exists (concat per_package). split; [simpl; f_equal; exact Hres | exact Hlen].
Defined.

(** The backend accepts the load call and never registers the model: one load
    call, then [ModelNotInitializedError]. *)
Example never_registered_is_loaded_once :
  fst (get_model_description 2 "m/1" true unregistered) = Raise (not_initialised "m/1")
  /\ map (fun x => url (fst x))
       (exchanges (snd (get_model_description 2 "m/1" true unregistered)))
     = ["http://localhost:9001/model/registry"; "http://localhost:9001/model/add";
        "http://localhost:9001/model/registry"].
Proof. split; vm_compute; reflexivity. Qed.

Lemma describe_or_load_loads_at_most_once_witness :
  get_model_description 2 "m/1" true current
  = (Ok (Some (Samples.description "m/1")),
     after_exchange current (registry_request current)
       (Replied (Samples.registry_reply ["m/1"])) ["m/1"])
  /\ (fst (get_model_description 2 "m/9" true current) = Raise (not_initialised "m/9")
      /\ load_attempts "http://localhost:9001"
           (exchanges (snd (get_model_description 2 "m/9" true current))) = 1)
  /\ (fst (get_model_description_async 2 "m/9" true current)
      = Raise (not_initialised "m/9")
      /\ load_attempts "http://localhost:9001"
           (exchanges (snd (get_model_description_async 2 "m/9" true current))) = 1)
  /\ (fst (get_model_description 2 "m/9" true Samples.registering)
      = Ok (Some (Samples.description "m/9"))
      /\ load_attempts "http://localhost:9001"
           (exchanges (snd (get_model_description 2 "m/9" true Samples.registering))) = 1)
  /\ (exists new,
        exchanges (snd (get_model_description 2 "m/1" true unregistered)) = new
        /\ load_attempts "http://localhost:9001" new <= 1).
Proof.
  assert (accepts (ext := collaborators) (registry_request current) (backend current)
            (Samples.registry_reply ["m/1"]) {| models := [Samples.description "m/1"] |}
            ["m/1"]) as Hfetch by accepted.
  assert (accepts (ext := collaborators) (load_request "m/9" current) ["m/1"]
            (Samples.registry_reply ["m/1"]) {| models := [Samples.description "m/1"] |}
            ["m/1"]) as Hload by accepted.
  split; [|split; [|split; [|split]]].
  - exact (proj1 (proj2 (proj2 (proj1 (describe_or_load_loads_at_most_once
                                         0 "m/1" current)) eq_refl)
                    _ _ _ Hfetch) _ eq_refl).
  - pose proof (proj2 (proj2 (proj2 (proj2 (proj1
                  (describe_or_load_loads_at_most_once 0 "m/9" current)) eq_refl)
                  _ _ _ Hfetch) eq_refl) _ _ _ _ _ _ Hload Hfetch) as E.
    change (2 + 0) with 2 in E. rewrite E. split; reflexivity.
  - pose proof (proj2 (proj2 (proj2 (proj2 (proj2
                  (describe_or_load_loads_at_most_once 0 "m/9" current)) eq_refl)
                  _ _ _ Hfetch) eq_refl) _ _ _ _ _ _ Hload Hfetch) as E.
    change (2 + 0) with 2 in E. rewrite E. split; reflexivity.
  - assert (accepts (ext := Samples.backend_of Samples.respond_registering)
              (registry_request Samples.registering) (backend Samples.registering)
              (Samples.registry_reply []) {| models := [] |} []) as Hempty by accepted.
    assert (accepts (ext := Samples.backend_of Samples.respond_registering)
              (load_request "m/9" Samples.registering) []
              (Samples.registry_reply ["m/9"])
              {| models := [Samples.description "m/9"] |} ["m/9"]) as Hadd by accepted.
    assert (accepts (ext := Samples.backend_of Samples.respond_registering)
              (registry_request Samples.registering) ["m/9"]
              (Samples.registry_reply ["m/9"])
              {| models := [Samples.description "m/9"] |} ["m/9"]) as Hfound by accepted.
    pose proof (proj2 (proj2 (proj2 (proj2 (proj1
                  (describe_or_load_loads_at_most_once 0 "m/9" Samples.registering))
                  eq_refl) _ _ _ Hempty) eq_refl) _ _ _ _ _ _ Hadd Hfound) as E.
    change (2 + 0) with 2 in E. rewrite E. split; reflexivity.
  - destruct (proj1 (proj1 (describe_or_load_loads_at_most_once 0 "m/1" unregistered)))
      as (_ & _ & new & Hx & Hle & _).
    exists new. split; [exact Hx | exact Hle].
Defined.

(** The requests of the first group are served in the reverse order, and the
    results still come in the order of the images. *)
Example served_out_of_order :
  map (fun x => data (fst x))
    (exchanges (snd (infer_from_api_v0 three_images (Some "m/1") legacy)))
  = [Some "b"; Some "a"; Some "c"]
  /\ (exists rs,
        fst (infer_from_api_v0 three_images (Some "m/1") legacy) = Ok (Seq rs)
        /\ map (dict_get "marker") (omap (fun r => match r with
                                                   | JObj fields => Some fields
                                                   | _ => None
                                                   end) rs)
           = [Some (JStr "a"); Some (JStr "b"); Some (JStr "c")]).
Proof.
  split; [vm_compute; reflexivity|].
  eexists. split; vm_compute; reflexivity.
Qed.

Lemma executor_preserves_order_witness :
  exists responses w',
    execute Blocking packages POST 2 current = (Ok responses, w')
    /\ length responses = 3.
Proof.
  destruct (execute Blocking packages POST 2 current) as [[responses|e] w'] eqn:E;
    [|vm_compute in E; discriminate].
  exists responses, w'. split; [reflexivity|].
  rewrite (proj1 (executor_preserves_order _ _ _ _ _ _ _ E)). reflexivity.
Defined.

Lemma json_placement_batches_witness :
  1 <= 2
  /\ length (prepare_requests_data "http://localhost:9001/infer/object_detection"
               [("a", 1 # 1); ("b", 1 # 2); ("c", 1 # 4); ("d", 1 # 1); ("e", 1 # 1)]%Q
               DEFAULT_HEADERS None (Some []) 2 JSON)
     = (5 + 2 - 1) / 2.
Proof.
  split; [lia|]. apply json_placement_batches. lia.
Defined.

Lemma current_only_operations_raise_in_legacy_mode_witness :
  client_mode (client legacy) = V0
  /\ list_loaded_models legacy = (Raise wrong_mode, legacy).
Proof.
  split; [reflexivity|].
  apply current_only_operations_raise_in_legacy_mode. reflexivity.
Defined.

(** Two predictions of one response, each corrected with its own factor. *)
Example own_factor_in_a_batch :
  normalise_v1 (ext := collaborators) BASE64 (two_factors, two_predictions)
  = Ok [JObj [("x", JNum (20 # 1))]; JObj [("x", JNum (40 # 1))]].
Proof. vm_compute. reflexivity. Qed.




Lemma unloading_clears_selection_witness :
  (fst (unload_model "m/1" current) = Ok {| models := [] |}
   /\ selected_model (client (snd (unload_model "m/1" current))) = None)
  /\ (fst (unload_model "m/2" current) = Ok {| models := [] |}
      /\ selected_model (client (snd (unload_model "m/2" current))) = Some "m/1")
  /\ (fst (unload_all_models current) = Ok {| models := [] |}
      /\ selected_model (client (snd (unload_all_models current))) = None)
  /\ (exists r w', unload_all_models current = (Ok r, w')
                   /\ selected_model (client w') = None)
  /\ (exists r w', unload_model "m/1" current = (Ok r, w')
                   /\ selected_model (client w') = None).
Proof.
  split; [|split; [|split; [|split]]].
  - rewrite (proj1 (proj2 (proj2 (unloading_clears_selection "m/1" current)))
               (Samples.registry_reply []) {| models := [] |} ([] : list string) eq_refl);
      [split; reflexivity | accepted].
  - rewrite (proj1 (proj2 (proj2 (unloading_clears_selection "m/2" current)))
               (Samples.registry_reply []) {| models := [] |} ([] : list string) eq_refl);
      [split; reflexivity | accepted].
  - rewrite (proj2 (proj2 (proj2 (unloading_clears_selection "m/1" current)))
               (Samples.registry_reply []) {| models := [] |} ([] : list string) eq_refl);
      [split; reflexivity | accepted].
  - destruct (unload_all_models current) as [[r|e] w'] eqn:E;
      [|vm_compute in E; discriminate].
    exists r, w'. split; [reflexivity|].
    exact (proj1 (proj2 (unloading_clears_selection "m/1" current)) r w' E).
  - destruct (unload_model "m/1" current) as [[r|e] w'] eqn:E;
      [|vm_compute in E; discriminate].
    exists r, w'. split; [reflexivity|].
    rewrite (proj1 (unloading_clears_selection "m/1" current) r w' E). reflexivity.
Defined.


(** * The further properties on the small backend *)

Lemma wrap_errors_hides_transport_errors_witness :
  fst (failing current) = Raise (HTTPError "error" no_such_model)
  /\ is_transport_error (HTTPCallErrorError "error" 500 (JStr "no such model")) = false
  /\ fst (list_loaded_models Samples.offline)
     = Raise (HTTPClientError "Error with server connection: connection refused")
  /\ fst (list_loaded_models_async Samples.offline)
     = Raise (ConnectionError "connection refused").
Proof.
  split; [reflexivity|]. split.
  - apply (proj1 (wrap_errors_hides_transport_errors failing current)).
    reflexivity.
  - destruct (proj2 (proj2 (proj2 (proj2 (proj2 (proj2
                (wrap_errors_hides_transport_errors
                   (lift (Ok tt)) Samples.offline))))))
                "connection refused" [] eq_refl eq_refl) as [Hsync Hasync].
    rewrite Hsync, Hasync. split; reflexivity.
Defined.

Lemma wrap_errors_json_body_edge_cases_witness :
  Samples.failing_without_message current
  = (Raise (HTTPError "error" Samples.no_message), current)
  /\ wrap_errors Samples.failing_without_message current
     = (Raise (HTTPCallErrorError "error" 404 JNull), current).
Proof.
  split; [reflexivity|].
  apply (proj2 (proj2 (wrap_errors_json_body_edge_cases
                         Samples.failing_without_message current current
                         "error" Samples.no_message eq_refl eq_refl))
           [("detail", JStr "Not Found")] eq_refl).
  intros v H. inversion H as [|? ? ? H']. inversion H'.
Defined.

Lemma registry_methods_send_one_request_witness :
  client_mode (client current) = V1
  /\ exchanges (snd (unload_model "m/1" current))
     = exchanges (after_serving current (unload_request "m/1" current)).
Proof.
  split; [reflexivity|].
  apply (registry_methods_send_one_request current "m/1" false eq_refl).
Defined.

Lemma load_model_selects_on_success_witness :
  exists registered w',
    load_model "m/2" true current = (Ok registered, w')
    /\ selected_model (client w') = Some "m/2".
Proof.
  destruct (load_model "m/2" true current) as [[registered|e] w'] eqn:E;
    [|vm_compute in E; discriminate].
  exists registered, w'. split; [reflexivity|].
  rewrite (proj2 (load_model_selects_on_success current "m/2") registered w' E).
  reflexivity.
Defined.

Lemma session_state_follows_the_reply_witness :
  client_mode (client current) = V1
  /\ ~ rejected (fst (serve (clear_request current) (backend current)))
  /\ client (snd (unload_all_models current)) = with_selected_model None (client current).
Proof.
  assert (~ rejected (fst (serve (clear_request current) (backend current)))) as Hr.
  { intros Hr. vm_compute in Hr. destruct Hr as [[H _]|H];
      [exact (H eq_refl) | discriminate H]. }
  split; [reflexivity|]. split; [exact Hr|].
  apply (session_state_follows_the_reply current "m/1" eq_refl). exact Hr.
Defined.

Lemma get_model_description_without_loading_witness :
  fst (get_model_description 1 "m/1" false unregistered)
  = Raise (not_initialised "m/1").
Proof.
  destruct (list_loaded_models unregistered) as [[registered|e] w1] eqn:E;
    [|vm_compute in E; discriminate].
  assert (models registered = []) as Hnone
    by (vm_compute in E; injection E as <- _; reflexivity).
  rewrite (proj2 (proj2 (proj2 (proj2 (proj2
             (get_model_description_without_loading 0 "m/1" unregistered)))))
             registered w1 E).
  - reflexivity.
  - rewrite Hnone. intros d Hd. inversion Hd.
Defined.

Lemma inference_without_model_witness :
  selected_model (client unregistered) = None
  /\ infer three_images None unregistered = (Raise no_model_selected, unregistered).
Proof.
  split; [reflexivity|].
  apply (inference_without_model three_images None unregistered eq_refl).
  left. reflexivity.
Defined.

Lemma legacy_identifier_needs_one_slash_witness :
  count_char "/" "workspace/project/3" <> 1
  /\ infer_from_api_v0 one_image (Some "workspace/project/3") legacy
     = (Raise (InvalidModelIdentifier
                 "Invalid model identifier: workspace/project/3 in use."),
        legacy).
Proof.
  assert (count_char "/" "workspace/project/3" <> 1) as Hcount
    by (vm_compute; discriminate).
  split; [exact Hcount|].
  apply (legacy_identifier_needs_one_slash one_image (Some "workspace/project/3")
           legacy "workspace/project/3" eq_refl Hcount).
Defined.

Lemma unsupported_task_type_stops_inference_witness :
  exists w1,
    describe_or_load "gaze/1" Samples.gaze_world = (Ok Samples.gaze_model, w1)
    /\ infer_from_api_v1 one_image (Some "gaze/1") Samples.gaze_world
       = (Raise (ModelTaskTypeNotSupportedError
                   "Model task gaze-detection is not supported by API v1 client."),
          w1).
Proof.
  destruct (describe_or_load "gaze/1" Samples.gaze_world) as [[d|e] w1] eqn:E;
    [|vm_compute in E; discriminate].
  assert (d = Samples.gaze_model) as ->
    by (vm_compute in E; injection E as <- _; reflexivity).
  exists w1. split; [reflexivity|].
  apply (unsupported_task_type_stops_inference one_image (Some "gaze/1")
           Samples.gaze_world w1 "gaze/1" Samples.gaze_model eq_refl eq_refl E).
  reflexivity.
Defined.

Lemma explicit_identifier_overrides_selection_witness :
  "m/1" <> ""
  /\ fst (infer_from_api_v0 one_image (Some "m/1") (reselect (Some "other/7") legacy))
     = fst (infer_from_api_v0 one_image (Some "m/1") legacy).
Proof.
  assert ("m/1" <> "") as Hne by discriminate.
  split; [exact Hne|].
  rewrite (proj1 (@explicit_identifier_overrides_selection collaborators
                    one_image "m/1" Hne) (Some "other/7") legacy).
  reflexivity.
Defined.

Lemma legacy_requests_go_to_the_model_witness :
  count_char "/" "m/1" = 1
  /\ exists new,
       exchanges (snd (infer_from_api_v0 three_images (Some "m/1") legacy))
       = exchanges legacy ++ new
       /\ Forall (fun x => legacy_request legacy "m/1" (fst x)) new.
Proof.
  split; [reflexivity|].
  destruct (legacy_requests_go_to_the_model three_images (Some "m/1") legacy "m/1"
              eq_refl eq_refl) as (new & Hx & Hall & _).
  exists new. split; [exact Hx | exact Hall].
Defined.

Lemma workflow_is_defined_once_witness :
  infer_from_workflow (fun outputs _ => Ok outputs) None None None None None None current
  = (Raise workflow_parameters_error, current).
Proof.
  apply (workflow_is_defined_once (fun outputs _ => Ok outputs)
           None None None None None None current).
  split; [intros [H _]; congruence | congruence].
Defined.

Lemma cogvlm_is_built_for_dataset_and_version_witness :
  count_char "/" "cogvlm" <> 1
  /\ Cog.__init__ Samples.cog_env unit unit (fun _ => Ok tt) (fun _ _ _ _ => Ok tt)
       (Some "cogvlm")
     = Raise (OtherError "ValueError").
Proof.
  assert (count_char "/" "cogvlm" <> 1) as Hcount by (vm_compute; discriminate).
  split; [exact Hcount|].
  apply (proj1 (cogvlm_is_built_for_dataset_and_version Samples.cog_env unit unit
                  (fun _ => Ok tt) (fun _ _ _ _ => Ok tt) "cogvlm")).
  exact Hcount.
Defined.

Lemma predict_removes_end_of_sequence_witness :
  Samples.echo tt tt "a cat" [] = "a cat" +:+ "</s>"
  /\ Cog.predict unit unit string Samples.echo Samples.cog_model None "a cat" = "a cat".
Proof.
  split; [reflexivity|].
  apply (proj1 (predict_removes_end_of_sequence unit unit string Samples.echo
                  Samples.cog_model None "a cat")).
  reflexivity.
Defined.

Lemma api_speed_asks_before_hosted_benchmark_witness :
  Benchmark.launched (Benchmark.api_speed Samples.hosted_benchmark "no") = None
  /\ Benchmark.asked (Benchmark.api_speed Samples.hosted_benchmark "no") = true.
Proof.
  destruct (api_speed_asks_before_hosted_benchmark Samples.hosted_benchmark "no")
    as (Hasked & Hnone & _).
  assert (exists before rest,
            Benchmark.host Samples.hosted_benchmark
            = before +:+ "roboflow.com" +:+ rest) as Hhosted
    by (exists "https://detect.", ""; reflexivity).
  split.
  - apply Hnone. repeat split; [exact Hhosted | discriminate | discriminate].
  - apply Hasked. split; [exact Hhosted | reflexivity].
Defined.

